(** * Data layer: synchronisation and validation against ledger commitments

    A shallow embedding of [chia/data_layer/data_layer.py] (class [DataLayer]).
    The coroutines of the class are functions in a small monad that threads the
    mutable state of the object (its [data_store] and its [initialized] flag),
    propagates Python exceptions, and records every call made to a
    collaborator (wallet RPC, data store, downloader, logger), as well as the
    calls of [_validate_batch] and what they return.

    The coroutines are modelled as running to completion one after the other:
    the subscription lock is never contended in this embedding. *)

From Stdlib Require Import ZArith String List.
From Stdlib.Strings Require Import Byte.
From stdpp Require Import base decidable option list gmap strings.

Local Open Scope Z_scope.

(** ** Values of the data model *)

(** [bytes32]: a 32-byte string, read as a 256-bit number;
    [bytes32([0] * 32)] is [0]. *)
Abbreviation bytes32 := Z (only parsing).

Inductive DownloadMode := LATEST | HISTORY.

Inductive Status := PENDING | COMMITTED.

#[global] Instance DownloadMode_eq_dec : EqDecision DownloadMode.
Proof. solve_decision. Defined.

#[global] Instance Status_eq_dec : EqDecision Status.
Proof. solve_decision. Defined.

(** [Root] of [data_layer_types]: a snapshot of the local tree. *)
Module Root.
Record t := mk {
  node_hash : option bytes32;
  generation : Z;
  status : Status
}.
End Root.

(** [SingletonRecord] of [data_layer_wallet]: one commitment on the ledger. *)
Module SingletonRecord.
Record t := mk {
  root : bytes32;
  generation : Z
}.
End SingletonRecord.

(** [Subscription(tree_id, mode, ip, port)]. *)
Module Subscription.
Record t := mk {
  tree_id : bytes32;
  mode : DownloadMode;
  ip : string;
  port : Z
}.
End Subscription.

Record TransactionRecord := mkTx { tx_name : bytes32 }.

#[global] Instance Root_eq_dec : EqDecision Root.t.
Proof. solve_decision. Defined.

#[global] Instance SingletonRecord_eq_dec : EqDecision SingletonRecord.t.
Proof. solve_decision. Defined.

#[global] Instance Subscription_eq_dec : EqDecision Subscription.t.
Proof. solve_decision. Defined.

(** Values of a [Dict[str, Any]] change record, with Python's truth value. *)
Inductive PyVal :=
| PyNone
| PyBool (b : bool)
| PyInt (z : Z)
| PyStr (s : string)
| PyBytes (bs : list Byte.byte).

#[global] Instance byte_eq_dec : EqDecision Byte.byte := Byte.byte_eq_dec.

#[global] Instance PyVal_eq_dec : EqDecision PyVal.
Proof. solve_decision. Defined.

Definition truthy (v : PyVal) : bool :=
  match v with
  | PyNone => false
  | PyBool b => b
  | PyInt z => negb (z =? 0)
  | PyStr s => negb (String.length s =? 0)%nat
  | PyBytes bs => negb (length bs =? 0)%nat
  end.

(** [a or b]: [a] when it is true, [b] otherwise. *)
Definition py_or (a b : PyVal) : PyVal := if truthy a then a else b.

(** ** Exceptions and results *)

Inductive Exn :=
| AssertionError
| TypeError
| ValueError
| IndexError
| KeyError (key : string)
| RuntimeError (msg : string)
| CollaboratorError (code : Z).

Inductive result (A : Type) :=
| Ok (a : A)
| Raise (e : Exn).
Arguments Ok {A} a.
Arguments Raise {A} e.

(** ** The local store

    Modelled from the spec: the [DataStore] class ([chia.data_layer.data_store])
    is not part of the sources at hand.  Its state is the history of roots of
    every tree, the validated wallet generation of every tree and the list of
    subscriptions (spec, sections 3 and 6). *)
Record DataStore := mkStore {
  roots : gmap Z (list Root.t);
  validated : gmap Z Z;
  subscriptions : list Subscription.t
}.

(** The root of greatest generation in a list of roots (the later one on a
    tie). *)
Definition latest_root (l : list Root.t) : option Root.t :=
  foldl (fun best r =>
           match best with
           | None => Some r
           | Some b => if Root.generation b <=? Root.generation r then Some r else Some b
           end) None l.

Definition tree_roots (ds : DataStore) (tree_id : bytes32) : list Root.t :=
  default [] (roots ds !! tree_id).

(** Modelled from the spec: [getTreeRoot(tree_id) -> Root], the current local
    root, absent (an exception) when the tree has no local history. *)
Definition store_get_tree_root (ds : DataStore) (tree_id : bytes32) : result Root.t :=
  match latest_root (tree_roots ds tree_id) with
  | Some r => Ok r
  | None => Raise (CollaboratorError 0)
  end.

(** Modelled from the spec: [getLastTreeRootByHash(tree_id, hash, maxGeneration)],
    the most recent local root with that exact hash at or before
    [maxGeneration]. *)
Definition store_get_last_tree_root_by_hash
    (ds : DataStore) (tree_id : bytes32) (hash : bytes32) (max_generation : Z)
  : option Root.t :=
  latest_root
    (filter (fun r => Root.node_hash r = Some hash ∧ Root.generation r ≤ max_generation)
            (tree_roots ds tree_id)).

(** Modelled from the spec: [getValidatedGeneration] and
    [setValidatedGeneration]; a tree without a stored value answers [None]. *)
Definition store_get_validated_wallet_generation (ds : DataStore) (tree_id : bytes32)
  : option Z :=
  validated ds !! tree_id.

Definition store_set_validated_wallet_generation
    (ds : DataStore) (tree_id : bytes32) (generation : Z) : DataStore :=
  mkStore (roots ds) (<[tree_id := generation]> (validated ds)) (subscriptions ds).

(** Modelled from the spec: [subscribe], [unsubscribe], [listSubscriptions]. *)
Definition store_subscribe (ds : DataStore) (s : Subscription.t) : DataStore :=
  mkStore (roots ds) (validated ds) (subscriptions ds ++ [s]).

Definition store_unsubscribe (ds : DataStore) (tree_id : bytes32) : DataStore :=
  mkStore (roots ds) (validated ds)
          (filter (fun s => Subscription.tree_id s ≠ tree_id) (subscriptions ds)).

(** ** The collaborators that stay abstract

    The wallet RPC client answers from the ledger; the downloader and the tree
    engine of the store (insertion, deletion, tree creation) act on the store.
    Each may raise. *)
Record Env := mkEnv {
  create_new_dl : bytes32 -> Z -> result (list TransactionRecord * bytes32);
  dl_update_root : bytes32 -> bytes32 -> Z -> result (option TransactionRecord);
  dl_latest_singleton : bytes32 -> bool -> result (option SingletonRecord.t);
  dl_history : bytes32 -> Z -> result (list SingletonRecord.t);
  dl_track_new : bytes32 -> result unit;
  dl_stop_tracking : bytes32 -> result unit;
  download_data : DataStore -> Subscription.t -> bytes32 -> result bool * DataStore;
  create_tree : bytes32 -> DataStore -> result (option bool) * DataStore;
  insert : PyVal -> PyVal -> bytes32 -> PyVal -> PyVal -> DataStore -> result unit * DataStore;
  autoinsert : PyVal -> PyVal -> bytes32 -> DataStore -> result unit * DataStore;
  delete : PyVal -> bytes32 -> DataStore -> result unit * DataStore
}.

(** ** Calls observed from outside *)

Inductive LogLevel := INFO | WARNING | ERROR | FATAL.

Inductive LogMsg :=
| MsgFailedCreatingStore
| MsgNoSingletonRecord (tree_id : bytes32)
| MsgNoDataOnChain (tree_id : bytes32)
| MsgGenerationMatching (tree_id : bytes32)
| MsgFastForwarded (tree_id : bytes32) (generation : Z)
| MsgDownloading (tree_id : bytes32) (current target : Z)
| MsgDownloaded (tree_id : bytes32)
| MsgValidatedChainHash (hash : option bytes32) (wallet_generation : Z)
| MsgLightValidationFailed (tree_id : bytes32)
| MsgFinished (tree_id : bytes32) (generation : Z) (hash : bytes32)
| MsgSubscribed (tree_id : bytes32)
| MsgUnsubscribed (tree_id : bytes32)
| MsgException (e : Exn).

Inductive Event :=
| EvCreateNewDl (root : bytes32) (fee : Z)
| EvDlUpdateRoot (tree_id : bytes32) (node_hash : bytes32) (fee : Z)
| EvDlLatestSingleton (tree_id : bytes32)
| EvDlHistory (tree_id : bytes32) (min_generation : Z)
| EvDlTrackNew (tree_id : bytes32)
| EvDlStopTracking (tree_id : bytes32)
| EvDownloadData (s : Subscription.t) (target : bytes32)
| EvCreateTree (tree_id : bytes32)
| EvInsert (key value : PyVal) (tree_id : bytes32) (reference_node_hash side : PyVal)
| EvAutoinsert (key value : PyVal) (tree_id : bytes32)
| EvDelete (key : PyVal) (tree_id : bytes32)
| EvGetTreeRoot (tree_id : bytes32)
| EvGetLastTreeRootByHash (tree_id : bytes32) (hash : bytes32) (max_generation : Z)
| EvGetValidated (tree_id : bytes32)
| EvSetValidated (tree_id : bytes32) (generation : Z)
| EvStoreSubscribe (s : Subscription.t)
| EvStoreUnsubscribe (tree_id : bytes32)
| EvGetSubscriptions
| EvCallValidateBatch (tree_id : bytes32) (to_check : list SingletonRecord.t)
                      (min_generation max_generation : Z)
| EvReturnValidateBatch (is_valid : bool)
| EvLog (level : LogLevel) (msg : LogMsg).

#[global] Instance Exn_eq_dec : EqDecision Exn.
Proof. solve_decision. Defined.

#[global] Instance LogLevel_eq_dec : EqDecision LogLevel.
Proof. solve_decision. Defined.

#[global] Instance LogMsg_eq_dec : EqDecision LogMsg.
Proof. solve_decision. Defined.

#[global] Instance Event_eq_dec : EqDecision Event.
Proof. solve_decision. Defined.

(** ** The monad of the coroutines *)

(** The mutable fields of a [DataLayer] object. *)
Record State := mkState {
  data_store : DataStore;
  initialized : bool
}.

(** A computation maps the state before to a result (a value or a raised
    exception), the state after, and the calls it made, in order. *)
Definition M (A : Type) : Type := State -> result A * State * list Event.

Definition ret {A} (a : A) : M A := fun s => (Ok a, s, []).

Definition raise {A} (e : Exn) : M A := fun s => (Raise e, s, []).

Definition bind {A B} (m : M A) (k : A -> M B) : M B :=
  fun s =>
    match m s with
    | (Ok a, s1, t1) =>
        match k a s1 with
        | (r, s2, t2) => (r, s2, t1 ++ t2)
        end
    | (Raise e, s1, t1) => (Raise e, s1, t1)
    end.

Notation "x <- c ;; k" := (bind c (fun x => k))
  (at level 100, c at next level, right associativity).
Notation "c ;;; k" := (bind c (fun _ => k))
  (at level 100, right associativity).

(** [try: m except Exception: pass], for a computation whose value is kept
    when there is one. *)
Definition try_pass {A} (m : M A) : M (option A) :=
  fun s =>
    match m s with
    | (Ok a, s1, t1) => (Ok (Some a), s1, t1)
    | (Raise _, s1, t1) => (Ok None, s1, t1)
    end.

Definition emit (e : Event) : M unit := fun s => (Ok tt, s, [e]).

Definition log (level : LogLevel) (msg : LogMsg) : M unit := emit (EvLog level msg).

Definition lift {A} (r : result A) : M A := fun s => (r, s, []).

Definition py_assert (b : bool) : M unit :=
  if b then ret tt else raise AssertionError.

(** A call that reads the store. *)
Definition query {A} (e : Event) (f : DataStore -> result A) : M A :=
  fun s => (f (data_store s), s, [e]).

(** A call that may change the store. *)
Definition update {A} (e : Event) (f : DataStore -> result A * DataStore) : M A :=
  fun s =>
    match f (data_store s) with
    | (r, ds) => (r, mkState ds (initialized s), [e])
    end.

Definition set_initialized (b : bool) : M unit :=
  fun s => (Ok tt, mkState (data_store s) b, []).

(** [uint32(v)]: the value, or [ValueError] when it does not fit. *)
Definition uint32 (v : Z) : result Z :=
  if (0 <=? v) && (v <? 2 ^ 32) then Ok v else Raise ValueError.

(** [int(v)] for an optional integer: [int(None)] is a [TypeError]. *)
Definition py_int (v : option Z) : result Z :=
  match v with
  | Some z => Ok z
  | None => Raise TypeError
  end.

(** [l[0]] and [l.pop(0)]: an [IndexError] on the empty list. *)
Definition index0 {A} (l : list A) : result A :=
  match l with
  | x :: _ => Ok x
  | [] => Raise IndexError
  end.

Definition pop0 {A} (l : list A) : result (list A) :=
  match l with
  | _ :: rest => Ok rest
  | [] => Raise IndexError
  end.

(** ** The class [DataLayer] *)

Section DataLayer.

Context (env : Env).

(** *** Calls to [self.wallet_rpc] *)

Definition wallet {A} (e : Event) (r : result A) : M A := fun s => (r, s, [e]).

Definition wallet_rpc_create_new_dl (root : bytes32) (fee : Z) :=
  wallet (EvCreateNewDl root fee) (create_new_dl env root fee).

Definition wallet_rpc_dl_update_root (tree_id node_hash : bytes32) (fee : Z) :=
  wallet (EvDlUpdateRoot tree_id node_hash fee) (dl_update_root env tree_id node_hash fee).

Definition wallet_rpc_dl_latest_singleton (tree_id : bytes32) (only_confirmed : bool) :=
  wallet (EvDlLatestSingleton tree_id) (dl_latest_singleton env tree_id only_confirmed).

Definition wallet_rpc_dl_history (launcher_id : bytes32) (min_generation : Z) :=
  wallet (EvDlHistory launcher_id min_generation) (dl_history env launcher_id min_generation).

Definition wallet_rpc_dl_track_new (tree_id : bytes32) :=
  wallet (EvDlTrackNew tree_id) (dl_track_new env tree_id).

Definition wallet_rpc_dl_stop_tracking (tree_id : bytes32) :=
  wallet (EvDlStopTracking tree_id) (dl_stop_tracking env tree_id).

(** *** Calls to [self.data_store] and to [download_data] *)

Definition data_store_create_tree (tree_id : bytes32) :=
  update (EvCreateTree tree_id) (create_tree env tree_id).

Definition data_store_insert (key value : PyVal) (tree_id : bytes32)
    (reference_node_hash side : PyVal) :=
  update (EvInsert key value tree_id reference_node_hash side)
         (insert env key value tree_id reference_node_hash side).

Definition data_store_autoinsert (key value : PyVal) (tree_id : bytes32) :=
  update (EvAutoinsert key value tree_id) (autoinsert env key value tree_id).

Definition data_store_delete (key : PyVal) (tree_id : bytes32) :=
  update (EvDelete key tree_id) (delete env key tree_id).

Definition data_store_get_tree_root (tree_id : bytes32) : M Root.t :=
  query (EvGetTreeRoot tree_id) (fun ds => store_get_tree_root ds tree_id).

Definition data_store_get_last_tree_root_by_hash
    (tree_id hash : bytes32) (max_generation : Z) : M (option Root.t) :=
  query (EvGetLastTreeRootByHash tree_id hash max_generation)
        (fun ds => Ok (store_get_last_tree_root_by_hash ds tree_id hash max_generation)).

Definition data_store_get_validated_wallet_generation (tree_id : bytes32) : M (option Z) :=
  query (EvGetValidated tree_id)
        (fun ds => Ok (store_get_validated_wallet_generation ds tree_id)).

Definition data_store_set_validated_wallet_generation
    (tree_id : bytes32) (generation : Z) : M unit :=
  update (EvSetValidated tree_id generation)
         (fun ds => (Ok tt, store_set_validated_wallet_generation ds tree_id generation)).

Definition data_store_subscribe (s : Subscription.t) : M unit :=
  update (EvStoreSubscribe s) (fun ds => (Ok tt, store_subscribe ds s)).

Definition data_store_unsubscribe (tree_id : bytes32) : M unit :=
  update (EvStoreUnsubscribe tree_id) (fun ds => (Ok tt, store_unsubscribe ds tree_id)).

Definition data_store_get_subscriptions : M (list Subscription.t) :=
  query EvGetSubscriptions (fun ds => Ok (subscriptions ds)).

Definition call_download_data (s : Subscription.t) (target : bytes32) : M bool :=
  update (EvDownloadData s target) (fun ds => download_data env ds s target).

(** *** [_validate_batch] *)

(** The [for record in to_check] loop; [last_checked_hash] and
    [max_generation] are the loop's variables. *)
Fixpoint validate_batch_loop (tree_id : bytes32) (to_check : list SingletonRecord.t)
    (min_generation max_generation : Z) (last_checked_hash : option bytes32) : M bool :=
  match to_check with
  | [] => ret true
  | record :: rest =>
      if match last_checked_hash with
         | Some h => bool_decide (SingletonRecord.root record = h)
         | None => false
         end
      then validate_batch_loop tree_id rest min_generation max_generation last_checked_hash
      else
        root <- data_store_get_last_tree_root_by_hash
                  tree_id (SingletonRecord.root record) max_generation ;;
        match root with
        | None => ret false
        | Some root =>
            if Root.generation root <? min_generation then ret false
            else
              log INFO (MsgValidatedChainHash (Some (SingletonRecord.root record))
                                              (SingletonRecord.generation record)) ;;;
              validate_batch_loop tree_id rest min_generation (Root.generation root)
                                  (Some (SingletonRecord.root record))
        end
  end.

Definition _validate_batch (tree_id : bytes32) (to_check : list SingletonRecord.t)
    (min_generation max_generation : Z) : M bool :=
  emit (EvCallValidateBatch tree_id to_check min_generation max_generation) ;;;
  is_valid <- validate_batch_loop tree_id to_check min_generation max_generation None ;;
  emit (EvReturnValidateBatch is_valid) ;;;
  ret is_valid.

(** *** [fetch_and_validate] *)

(** Lines 195-201: the records to check, by download mode. *)
Definition build_to_check (subscription : Subscription.t)
    (singleton_record : SingletonRecord.t) (wallet_current_generation : Z)
  : M (list SingletonRecord.t) :=
  match Subscription.mode subscription with
  | LATEST => ret [singleton_record]
  | HISTORY =>
      min_generation <- lift (uint32 (wallet_current_generation + 1)) ;;
      wallet_rpc_dl_history (Subscription.tree_id subscription) min_generation
  end.

(** Lines 204-209: the condition of the fast-forward branch.
    [to_check[0]] is read only once the old root is known to have a hash. *)
Definition fast_forward_check (old_root : option Root.t)
    (to_check : list SingletonRecord.t) : result bool :=
  match old_root with
  | None => Ok false
  | Some old_root =>
      match Root.node_hash old_root with
      | None => Ok false
      | Some old_hash =>
          match to_check with
          | [] => Raise IndexError
          | first :: _ =>
              Ok (bool_decide (SingletonRecord.root first = old_hash)
                  && bool_decide
                       (size (list_to_set (SingletonRecord.root <$> to_check) : gset Z)
                        = 1%nat))
          end
      end
  end.

(** Lines 218-219: [while to_check[-1].root == old_hash: to_check.pop()], on
    the list read from its end. *)
Fixpoint pop_identical (old_hash : bytes32) (reversed : list SingletonRecord.t)
  : result (list SingletonRecord.t) :=
  match reversed with
  | [] => Raise IndexError
  | last :: rest =>
      if bool_decide (SingletonRecord.root last = old_hash)
      then pop_identical old_hash rest
      else Ok reversed
  end.

(** Lines 217-219. *)
Definition trim_identical (old_root : option Root.t)
    (to_check : list SingletonRecord.t) : result (list SingletonRecord.t) :=
  match old_root with
  | None => Ok to_check
  | Some old_root =>
      match Root.node_hash old_root with
      | None => Ok to_check
      | Some old_hash =>
          match pop_identical old_hash (rev to_check) with
          | Ok reversed => Ok (rev reversed)
          | Raise e => Raise e
          end
      end
  end.

(** Lines 221-269: download, check of the downloaded root, light validation,
    fallback to the whole history, and the write of the checkpoint. *)
Definition download_and_validate (subscription : Subscription.t)
    (singleton_record : SingletonRecord.t) (old_root : option Root.t)
    (wallet_current_generation : Z) (to_check : list SingletonRecord.t) : M unit :=
  let tree_id := Subscription.tree_id subscription in
  log INFO (MsgDownloading tree_id wallet_current_generation
                           (SingletonRecord.generation singleton_record)) ;;;
  downloaded <- call_download_data subscription (SingletonRecord.root singleton_record) ;;
  if negb downloaded then raise (RuntimeError "Could not download the data.")
  else
    log INFO (MsgDownloaded tree_id) ;;;
    root <- data_store_get_tree_root tree_id ;;
    match Root.node_hash root with
    | None => raise (RuntimeError "Can't find data on chain in our datastore.")
    | Some node_hash =>
        first <- lift (index0 to_check) ;;
        if bool_decide (node_hash = SingletonRecord.root first)
        then log INFO (MsgValidatedChainHash (Root.node_hash root)
                                             (SingletonRecord.generation first))
        else raise (RuntimeError "Can't find data on chain in our datastore.")
    end ;;;
    to_check <- lift (pop0 to_check) ;;
    let min_generation :=
      match old_root with
      | None => 0
      | Some old_root => Root.generation old_root
      end + 1 in
    let max_generation := Root.generation root in
    is_valid <- _validate_batch tree_id to_check min_generation max_generation ;;
    (if negb is_valid then
       log WARNING (MsgLightValidationFailed tree_id) ;;;
       min_generation <- lift (uint32 1) ;;
       to_check <- wallet_rpc_dl_history tree_id min_generation ;;
       first <- lift (index0 to_check) ;;
       log INFO (MsgValidatedChainHash (Root.node_hash root)
                                       (SingletonRecord.generation first)) ;;;
       to_check <- lift (pop0 to_check) ;;
       is_valid <- _validate_batch tree_id to_check 0 max_generation ;;
       if negb is_valid then raise (RuntimeError "Could not validate on-chain data.")
       else ret tt
     else ret tt) ;;;
    log INFO (MsgFinished tree_id (SingletonRecord.generation singleton_record)
                          (SingletonRecord.root singleton_record)) ;;;
    data_store_set_validated_wallet_generation
      tree_id (SingletonRecord.generation singleton_record).

Definition fetch_and_validate (subscription : Subscription.t) : M unit :=
  let tree_id := Subscription.tree_id subscription in
  singleton_record <- wallet_rpc_dl_latest_singleton tree_id true ;;
  match singleton_record with
  | None => log INFO (MsgNoSingletonRecord tree_id)
  | Some singleton_record =>
      if SingletonRecord.generation singleton_record =? 0
      then log INFO (MsgNoDataOnChain tree_id)
      else
        old_root <- try_pass (data_store_get_tree_root tree_id) ;;
        wallet_current_generation <- data_store_get_validated_wallet_generation tree_id ;;
        current <- lift (py_int wallet_current_generation) ;;
        py_assert (current <=? SingletonRecord.generation singleton_record) ;;;
        unchanged <- match wallet_current_generation with
                     | None => ret false
                     | Some generation =>
                         generation <- lift (uint32 generation) ;;
                         ret (generation =? SingletonRecord.generation singleton_record)
                     end ;;
        if unchanged then log INFO (MsgGenerationMatching tree_id)
        else
          to_check <- build_to_check subscription singleton_record current ;;
          fast_forward <- lift (fast_forward_check old_root to_check) ;;
          if fast_forward then
            data_store_set_validated_wallet_generation
              tree_id (SingletonRecord.generation singleton_record) ;;;
            log INFO (MsgFastForwarded tree_id (SingletonRecord.generation singleton_record))
          else
            to_check <- lift (trim_identical old_root to_check) ;;
            download_and_validate subscription singleton_record old_root current to_check
  end.

(** *** [create_store] *)

Definition create_store (fee : Z) (root : bytes32)
  : M (list TransactionRecord * bytes32) :=
  created <- wallet_rpc_create_new_dl root fee ;;
  let '(txs, tree_id) := created in
  res <- data_store_create_tree tree_id ;;
  match res with
  | None => log FATAL MsgFailedCreatingStore
  | Some _ => ret tt
  end ;;;
  set_initialized true ;;;
  ret (txs, tree_id).

(** *** [batch_update] *)

(** [change[key]] raises [KeyError] on a missing key; [change.get(key)]
    answers [None]. *)
Definition getitem (change : gmap string PyVal) (key : string) : result PyVal :=
  match change !! key with
  | Some v => Ok v
  | None => Raise (KeyError key)
  end.

Definition dict_get (change : gmap string PyVal) (key : string) : PyVal :=
  default PyNone (change !! key).

Fixpoint for_each {A} (body : A -> M unit) (l : list A) : M unit :=
  match l with
  | [] => ret tt
  | x :: rest => body x ;;; for_each body rest
  end.

(** The body of [for change in changelist]. *)
Definition apply_change (tree_id : bytes32) (change : gmap string PyVal) : M unit :=
  action <- lift (getitem change "action") ;;
  if bool_decide (action = PyStr "insert") then
    key <- lift (getitem change "key") ;;
    value <- lift (getitem change "value") ;;
    let reference_node_hash := dict_get change "reference_node_hash" in
    let side := dict_get change "side" in
    (if truthy (py_or reference_node_hash side)
     then data_store_insert key value tree_id reference_node_hash side
     else ret tt) ;;;
    data_store_autoinsert key value tree_id
  else
    action <- lift (getitem change "action") ;;
    py_assert (bool_decide (action = PyStr "delete")) ;;;
    key <- lift (getitem change "key") ;;
    data_store_delete key tree_id.

Definition batch_update (tree_id : bytes32) (changelist : list (gmap string PyVal))
    (fee : Z) : M TransactionRecord :=
  for_each (apply_change tree_id) changelist ;;;
  data_store_get_tree_root tree_id ;;;
  root <- data_store_get_tree_root tree_id ;;
  let node_hash :=
    match Root.node_hash root with
    | Some node_hash => node_hash
    | None => 0
    end in
  transaction_record <- wallet_rpc_dl_update_root tree_id node_hash fee ;;
  match transaction_record with
  | Some transaction_record => ret transaction_record
  | None => raise AssertionError
  end.

(** *** [subscribe], [unsubscribe], [get_subscriptions] *)

Definition get_subscriptions : M (list Subscription.t) :=
  data_store_get_subscriptions.

Definition subscribe (store_id : bytes32) (mode : DownloadMode) (ip : string) (port : Z)
  : M unit :=
  let subscription := Subscription.mk store_id mode ip port in
  subscriptions <- get_subscriptions ;;
  if bool_decide (Subscription.tree_id subscription ∈ Subscription.tree_id <$> subscriptions)
  then ret tt
  else
    wallet_rpc_dl_track_new (Subscription.tree_id subscription) ;;;
    data_store_subscribe subscription ;;;
    log INFO (MsgSubscribed (Subscription.tree_id subscription)).

Definition unsubscribe (tree_id : bytes32) : M unit :=
  subscriptions <- get_subscriptions ;;
  if negb (bool_decide (tree_id ∈ Subscription.tree_id <$> subscriptions))
  then ret tt
  else
    data_store_unsubscribe tree_id ;;;
    wallet_rpc_dl_stop_tracking tree_id ;;;
    log INFO (MsgUnsubscribed tree_id).

(** *** One turn of the loop of [periodically_fetch_data] (lines 297-303) *)

Definition try_except {A} (m : M A) (handler : Exn -> M A) : M A :=
  fun s =>
    match m s with
    | (Ok a, s1, t1) => (Ok a, s1, t1)
    | (Raise e, s1, t1) =>
        match handler e s1 with
        | (r, s2, t2) => (r, s2, t1 ++ t2)
        end
    end.

Definition fetch_data_cycle : M unit :=
  subscriptions <- data_store_get_subscriptions ;;
  for_each (fun subscription =>
              try_except (fetch_and_validate subscription)
                         (fun e => log ERROR (MsgException e)))
           subscriptions.

End DataLayer.

(** ** Vocabulary of the statements *)

(** What [uint32] accepts. *)
Definition fits_uint32 (v : Z) : Prop := 0 ≤ v < 2 ^ 32.

(** The old root as [fetch_and_validate] sees it: [None] when
    [get_tree_root] raises. *)
Definition old_root_of (ds : DataStore) (tree_id : bytes32) : option Root.t :=
  match store_get_tree_root ds tree_id with
  | Ok r => Some r
  | Raise _ => None
  end.

Definition is_download (e : Event) : bool :=
  match e with EvDownloadData _ _ => true | _ => false end.

Definition is_set_validated (e : Event) : bool :=
  match e with EvSetValidated _ _ => true | _ => false end.

Definition is_validate_batch (e : Event) : bool :=
  match e with
  | EvCallValidateBatch _ _ _ _ | EvReturnValidateBatch _ => true
  | _ => false
  end.

(** An event that is neither a call of the downloader, nor a write of the
    checkpoint, nor a call or return of [_validate_batch]. *)
Definition is_plain (e : Event) : bool :=
  negb (is_download e) && negb (is_set_validated e) && negb (is_validate_batch e).


(** The records to check as a function of the mode, and the wallet call that
    building them makes. *)
Definition candidates (env : Env) (subscription : Subscription.t)
    (singleton_record : SingletonRecord.t) (stored : Z) : result (list SingletonRecord.t) :=
  match Subscription.mode subscription with
  | LATEST => Ok [singleton_record]
  | HISTORY =>
      match uint32 (stored + 1) with
      | Ok min_generation => dl_history env (Subscription.tree_id subscription) min_generation
      | Raise e => Raise e
      end
  end.

Definition candidate_events (subscription : Subscription.t) (stored : Z) : list Event :=
  match Subscription.mode subscription with
  | LATEST => []
  | HISTORY => [EvDlHistory (Subscription.tree_id subscription) (stored + 1)]
  end.

(** The run gets as far as the list of records to check: the ledger has a
    latest record, the stored validated generation fits [uint32] and is below
    the generation of that record, and the list could be built. *)
Definition reaches_candidates (env : Env) (subscription : Subscription.t) (s : State)
    (singleton_record : SingletonRecord.t) (stored : Z)
    (to_check : list SingletonRecord.t) : Prop :=
  dl_latest_singleton env (Subscription.tree_id subscription) true = Ok (Some singleton_record)
  ∧ validated (data_store s) !! Subscription.tree_id subscription = Some stored
  ∧ fits_uint32 stored
  ∧ stored < SingletonRecord.generation singleton_record
  ∧ candidates env subscription singleton_record stored = Ok to_check.

(** The calls made up to the list of records to check. *)
Definition prefix_events (subscription : Subscription.t) (stored : Z) : list Event :=
  [EvDlLatestSingleton (Subscription.tree_id subscription);
   EvGetTreeRoot (Subscription.tree_id subscription);
   EvGetValidated (Subscription.tree_id subscription)]
  ++ candidate_events subscription stored.

(** What [fetch_and_validate] does once the records to check are known. *)
Definition after_candidates (env : Env) (subscription : Subscription.t) (s : State)
    (singleton_record : SingletonRecord.t) (stored : Z)
    (to_check : list SingletonRecord.t) : result unit * State * list Event :=
  let tree_id := Subscription.tree_id subscription in
  let generation := SingletonRecord.generation singleton_record in
  let old_root := old_root_of (data_store s) tree_id in
  match fast_forward_check old_root to_check with
  | Raise e => (Raise e, s, prefix_events subscription stored)
  | Ok true =>
      (Ok tt,
       mkState (store_set_validated_wallet_generation (data_store s) tree_id generation)
               (initialized s),
       prefix_events subscription stored
       ++ [EvSetValidated tree_id generation; EvLog INFO (MsgFastForwarded tree_id generation)])
  | Ok false =>
      match trim_identical old_root to_check with
      | Raise e => (Raise e, s, prefix_events subscription stored)
      | Ok kept =>
          match download_and_validate env subscription singleton_record old_root stored kept s with
          | (r, s', tr) => (r, s', prefix_events subscription stored ++ tr)
          end
      end
  end.

(** [tr] ends with [suffix], and nothing before the suffix writes the
    checkpoint. *)
Definition ends_with (suffix tr : list Event) : Prop :=
  exists pre, tr = pre ++ suffix ∧ Forall (fun e => is_set_validated e = false) pre.

(** The conditions under which [fetch_and_validate] has nothing to do. *)
Definition nothing_new (env : Env) (subscription : Subscription.t) (s : State) : Prop :=
  let tree_id := Subscription.tree_id subscription in
  dl_latest_singleton env tree_id true = Ok None
  ∨ exists singleton_record,
      dl_latest_singleton env tree_id true = Ok (Some singleton_record)
      ∧ (SingletonRecord.generation singleton_record = 0
         ∨ (fits_uint32 (SingletonRecord.generation singleton_record)
            ∧ validated (data_store s) !! tree_id
              = Some (SingletonRecord.generation singleton_record))).

(** The store calls expected of one change of a change list: for an insert,
    a reference-relative insert when one of the two hints is true, then an
    auto-placement insert; for a delete, the delete. *)
Definition hinted (change : gmap string PyVal) : bool :=
  truthy (dict_get change "reference_node_hash") || truthy (dict_get change "side").

Definition expected_calls (tree_id : bytes32) (change : gmap string PyVal) : list Event :=
  let key := dict_get change "key" in
  let value := dict_get change "value" in
  if bool_decide (change !! "action" = Some (PyStr "insert")) then
    (if hinted change
     then [EvInsert key value tree_id (dict_get change "reference_node_hash")
                    (dict_get change "side")]
     else [])
    ++ [EvAutoinsert key value tree_id]
  else [EvDelete key tree_id].

(** Calls on the subscription registry, run one after the other; a call that
    raises leaves the state it reached. *)
Inductive RegistryCall :=
| CallSubscribe (store_id : bytes32) (mode : DownloadMode) (ip : string) (port : Z)
| CallUnsubscribe (tree_id : bytes32).

Definition run_call (env : Env) (call : RegistryCall) (s : State) : State :=
  match call with
  | CallSubscribe store_id mode ip port => snd (fst (subscribe env store_id mode ip port s))
  | CallUnsubscribe tree_id => snd (fst (unsubscribe env tree_id s))
  end.

Definition run_calls (env : Env) (calls : list RegistryCall) (s : State) : State :=
  foldl (fun s call => run_call env call s) s calls.

Definition subscribed (s : State) : list bytes32 :=
  Subscription.tree_id <$> subscriptions (data_store s).

(** No stored validated generation is lost or lowered from [ds] to [ds']. *)
Definition checkpoints_le (ds ds' : DataStore) : Prop :=
  forall t g, validated ds !! t = Some g ->
              exists g', validated ds' !! t = Some g' ∧ g ≤ g'.

(** The downloader leaves the stored validated generations alone. *)
Definition downloader_keeps_checkpoints (env : Env) : Prop :=
  forall ds sub target, validated (snd (download_data env ds sub target)) = validated ds.

(** Turns of the polling loop, one after the other, each with the answers the
    collaborators give during that turn. *)
Definition run_cycles (envs : list Env) (s : State) : State :=
  foldl (fun s env => snd (fst (fetch_data_cycle env s))) s envs.

(** ** Sample collaborators and states, for running the definitions *)

Module Sample.

(** An environment with a fixed latest record, a fixed history, and a
    downloader and a [create_tree] given as functions. *)
Definition env (latest : option SingletonRecord.t) (history : list SingletonRecord.t)
    (download : DataStore -> result bool * DataStore)
    (created : option bool) : Env :=
  mkEnv (fun _ _ => Ok ([mkTx 77], 5))
        (fun _ _ _ => Ok (Some (mkTx 78)))
        (fun _ _ => Ok latest)
        (fun _ _ => Ok history)
        (fun _ => Ok tt)
        (fun _ => Ok tt)
        (fun ds _ _ => download ds)
        (fun _ ds => (Ok created, ds))
        (fun _ _ _ _ _ ds => (Ok tt, ds))
        (fun _ _ _ ds => (Ok tt, ds))
        (fun _ _ ds => (Ok tt, ds)).

Definition tree : bytes32 := 5.
Definition A : bytes32 := 10.
Definition B : bytes32 := 20.
Definition C : bytes32 := 30.

Definition history_ABC : list Root.t :=
  [Root.mk (Some A) 1 COMMITTED; Root.mk (Some B) 2 COMMITTED; Root.mk (Some C) 3 COMMITTED].

Definition store (history : list Root.t) (checkpoint : Z) : DataStore :=
  mkStore {[ tree := history ]} {[ tree := checkpoint ]} [].

Definition state (history : list Root.t) (checkpoint : Z) : State :=
  mkState (store history checkpoint) false.

Definition keep (ok : bool) (ds : DataStore) : result bool * DataStore := (Ok ok, ds).

(** A downloader that appends one root to the tree. *)
Definition append_root (r : Root.t) (ds : DataStore) : result bool * DataStore :=
  (Ok true, mkStore (<[ tree := tree_roots ds tree ++ [r] ]> (roots ds))
                    (validated ds) (subscriptions ds)).

Definition latest_sub : Subscription.t := Subscription.mk tree LATEST "ip" 1234.
Definition history_sub : Subscription.t := Subscription.mk tree HISTORY "ip" 1234.

(** Change records. *)
Definition key1 : PyVal := PyBytes [Byte.x01].
Definition value1 : PyVal := PyBytes [Byte.x02].

Definition insert_plain : gmap string PyVal :=
  list_to_map [("action", PyStr "insert"); ("key", key1); ("value", value1)].

Definition insert_at (reference_node_hash : list Byte.byte) (side : Z)
  : gmap string PyVal :=
  list_to_map [("action", PyStr "insert"); ("key", key1); ("value", value1);
               ("reference_node_hash", PyBytes reference_node_hash);
               ("side", PyInt side)].

(** An insert with a side and no reference node; the side is 0. *)
Definition insert_side_zero : gmap string PyVal :=
  list_to_map [("action", PyStr "insert"); ("key", key1); ("value", value1);
               ("side", PyInt 0)].

Definition delete_key1 : gmap string PyVal :=
  list_to_map [("action", PyStr "delete"); ("key", key1)].

(** The ledger has moved from [A] at generation 1 to [B] at generation 2,
    and the downloader brings the root [B]. *)
Definition env_AB : Env :=
  env (Some (SingletonRecord.mk B 2)) [SingletonRecord.mk B 2; SingletonRecord.mk A 1]
      (append_root (Root.mk (Some B) 2 COMMITTED)) None.

Definition state_A : State := state [Root.mk (Some A) 1 COMMITTED] 1.

(** The ledger has repeated [A] at generations 2 and 3. *)
Definition env_AA : Env :=
  env (Some (SingletonRecord.mk A 3)) [SingletonRecord.mk A 3; SingletonRecord.mk A 2]
      (keep true) None.

(** As [env_AB], with a downloader that reports a failure, and with one that
    reports a success but brings the root [C]. *)
Definition env_AB_failing : Env :=
  env (Some (SingletonRecord.mk B 2)) [SingletonRecord.mk B 2; SingletonRecord.mk A 1]
      (keep false) None.

Definition env_AB_wrong : Env :=
  env (Some (SingletonRecord.mk B 2)) [SingletonRecord.mk B 2; SingletonRecord.mk A 1]
      (append_root (Root.mk (Some C) 2 COMMITTED)) None.

End Sample.


(** ** Vocabulary of the further properties *)

(** The answer of [_validate_batch]'s loop as a function of the store: the
    same steps as [validate_batch_loop], without the trace. *)
Fixpoint chain_valid (ds : DataStore) (tree_id : bytes32) (to_check : list SingletonRecord.t)
    (min_generation max_generation : Z) (last_checked_hash : option bytes32) : bool :=
  match to_check with
  | [] => true
  | record :: rest =>
      if match last_checked_hash with
         | Some h => bool_decide (SingletonRecord.root record = h)
         | None => false
         end
      then chain_valid ds tree_id rest min_generation max_generation last_checked_hash
      else
        match store_get_last_tree_root_by_hash ds tree_id (SingletonRecord.root record)
                max_generation with
        | None => false
        | Some root =>
            if Root.generation root <? min_generation then false
            else chain_valid ds tree_id rest min_generation (Root.generation root)
                             (Some (SingletonRecord.root record))
        end
  end.

(** Roots whose generations start at or below [bound] and never rise. *)
Fixpoint descending (bound : Z) (chain : list Root.t) : Prop :=
  match chain with
  | [] => True
  | r :: rest => Root.generation r ≤ bound ∧ descending (Root.generation r) rest
  end.

(** The records that [_validate_batch] looks up: a record whose hash is that
    of the record checked just before it is left out. *)
Fixpoint squash (last_checked_hash : option bytes32) (to_check : list SingletonRecord.t)
  : list SingletonRecord.t :=
  match to_check with
  | [] => []
  | record :: rest =>
      if match last_checked_hash with
         | Some h => bool_decide (SingletonRecord.root record = h)
         | None => false
         end
      then squash last_checked_hash rest
      else record :: squash (Some (SingletonRecord.root record)) rest
  end.

Definition is_lookup (e : Event) : bool :=
  match e with EvGetLastTreeRootByHash _ _ _ => true | _ => false end.

(** The root lookups of a trace, in order. *)
Definition lookups (tr : list Event) : list Event := filter (fun e => is_lookup e = true) tr.

(** The run gets as far as the light validation: the fast-forward check is
    false, the trim leaves [first :: rest], the downloader returns true and
    leaves the store [ds1], whose root for the tree has the hash of [first]. *)
Definition reaches_validation (env : Env) (subscription : Subscription.t) (s : State)
    (singleton_record : SingletonRecord.t) (stored : Z)
    (first : SingletonRecord.t) (rest : list SingletonRecord.t)
    (ds1 : DataStore) (new_root : Root.t) : Prop :=
  let tree_id := Subscription.tree_id subscription in
  let old_root := old_root_of (data_store s) tree_id in
  exists to_check,
    reaches_candidates env subscription s singleton_record stored to_check
    ∧ fast_forward_check old_root to_check = Ok false
    ∧ trim_identical old_root to_check = Ok (first :: rest)
    ∧ download_data env (data_store s) subscription (SingletonRecord.root singleton_record)
      = (Ok true, ds1)
    ∧ store_get_tree_root ds1 tree_id = Ok new_root
    ∧ Root.node_hash new_root = Some (SingletonRecord.root first).

(** [min_generation] of the light validation (line 242). *)
Definition light_min_generation (ds : DataStore) (tree_id : bytes32) : Z :=
  match old_root_of ds tree_id with
  | None => 0
  | Some old_root => Root.generation old_root
  end + 1.

Definition is_validate_call (e : Event) : bool :=
  match e with EvCallValidateBatch _ _ _ _ => true | _ => false end.

(** The calls of [_validate_batch] of a trace, in order. *)
Definition validate_calls (tr : list Event) : list Event :=
  filter (fun e => is_validate_call e = true) tr.

(** The calls of the downloader of a trace, in order. *)
Definition downloads (tr : list Event) : list Event :=
  filter (fun e => is_download e = true) tr.

(** Further sample collaborators and states. *)
Module Sample2.

(** The ledger holds [C], [B], [A] (newest first) and the downloader brings
    the root [C] at the local generation [generation]. *)
Definition env_CBA (generation : Z) : Env :=
  Sample.env (Some (SingletonRecord.mk Sample.C 3))
             [SingletonRecord.mk Sample.C 3; SingletonRecord.mk Sample.B 2;
              SingletonRecord.mk Sample.A 1]
             (Sample.append_root (Root.mk (Some Sample.C) generation COMMITTED)) None.

(** A local history with [A] at generation 1 and [B] at generation 5. *)
Definition state_A_B : State :=
  Sample.state [Root.mk (Some Sample.A) 1 COMMITTED; Root.mk (Some Sample.B) 5 COMMITTED] 1.

(** An environment whose wallet has no history to give. *)
Definition env_empty_history : Env :=
  Sample.env (Some (SingletonRecord.mk Sample.B 2)) []
             (Sample.append_root (Root.mk (Some Sample.B) 2 COMMITTED)) None.

(** A store without any root for the tree. *)
Definition state_no_tree : State := Sample.state [] 1.

(** A store without a validated generation for the tree. *)
Definition state_no_checkpoint : State :=
  mkState (mkStore {[ Sample.tree := Sample.history_ABC ]} ∅ []) false.

(** A wallet that refuses to track or to stop tracking. *)
Definition env_refusing : Env :=
  mkEnv (fun _ _ => Raise (CollaboratorError 1))
        (fun _ _ _ => Ok None)
        (fun _ _ => Ok None)
        (fun _ _ => Ok [])
        (fun _ => Raise (CollaboratorError 2))
        (fun _ => Raise (CollaboratorError 3))
        (fun ds _ _ => (Ok true, ds))
        (fun _ ds => (Ok None, ds))
        (fun _ _ _ _ _ ds => (Ok tt, ds))
        (fun _ _ _ ds => (Ok tt, ds))
        (fun _ _ ds => (Ok tt, ds)).

(** A tree engine whose [delete] fails, and which records each insert as a
    new root. *)
Definition env_failing_delete : Env :=
  mkEnv (fun _ _ => Raise (CollaboratorError 1))
        (fun _ _ _ => Ok (Some (mkTx 78)))
        (fun _ _ => Ok None)
        (fun _ _ => Ok [])
        (fun _ => Ok tt)
        (fun _ => Ok tt)
        (fun ds _ _ => (Ok true, ds))
        (fun _ ds => (Ok None, ds))
        (fun _ _ _ _ _ ds => (Ok tt, ds))
        (fun _ _ tree_id ds =>
           (Ok tt, mkStore (<[ tree_id := tree_roots ds tree_id
                                          ++ [Root.mk (Some 99) 9 PENDING] ]> (roots ds))
                           (validated ds) (subscriptions ds)))
        (fun _ _ ds => (Raise (CollaboratorError 4), ds)).

End Sample2.

Definition is_latest_query (e : Event) : bool :=
  match e with EvDlLatestSingleton _ => true | _ => false end.

(** The trees whose latest singleton record a trace asks the wallet for, in
    order. *)
Definition latest_queries (tr : list Event) : list bytes32 :=
  omap (fun e => match e with EvDlLatestSingleton t => Some t | _ => None end) tr.

Definition is_lookup_or_log (e : Event) : bool :=
  match e with
  | EvGetLastTreeRootByHash _ _ _ | EvLog _ _ => true
  | _ => false
  end.

(** A state with one subscription, for the tree whose local root is [A]. *)
Definition state_subscribed : State :=
  mkState (mkStore {[ Sample.tree := [Root.mk (Some Sample.A) 1 COMMITTED] ]}
                   {[ Sample.tree := 1 ]} [Sample.latest_sub]) false.

(** ** [check_git_ref] of [chia/plotters/plotters_util.py]

    A [str] is the list of its code points.  [re.match] matches at the
    beginning of the string only.  The class [\w] of Unicode word characters
    is a parameter. *)

Section GitRef.

Context (is_word : Z -> bool).

(** [$]: the end of the string, or just before a newline that ends it. *)
Definition at_end (s : list Z) : bool :=
  match s with
  | [] => true
  | [c] => c =? 10
  | _ => false
  end.

(** [re.match(r"[^\w.@/-]", s)]: a first character that is neither a word
    character nor one of [.], [@], [/], [-]. *)
Definition match_unusual (s : list Z) : bool :=
  match s with
  | c :: _ => negb (is_word c || (c =? 46) || (c =? 64) || (c =? 47) || (c =? 45))
  | [] => false
  end.

(** [re.match(r"\.\.", s)]. *)
Definition match_dot_dot (s : list Z) : bool :=
  match s with
  | c1 :: c2 :: _ => (c1 =? 46) && (c2 =? 46)
  | _ => false
  end.

(** [re.match(r"\.$", s)]. *)
Definition match_dot_end (s : list Z) : bool :=
  match s with
  | c :: rest => (c =? 46) && at_end rest
  | [] => false
  end.

(** [re.match(r"@\{", s)]. *)
Definition match_at_brace (s : list Z) : bool :=
  match s with
  | c1 :: c2 :: _ => (c1 =? 64) && (c2 =? 123)
  | _ => false
  end.

(** [re.match(r"^@$", s)]. *)
Definition match_at_end (s : list Z) : bool :=
  match s with
  | c :: rest => (c =? 64) && at_end rest
  | [] => false
  end.

Definition check_git_ref (git_ref : list Z) : bool :=
  if (50 <? length git_ref)%nat then false
  else
    let test :=
      match_unusual git_ref
      || match_dot_dot git_ref
      || match_dot_end git_ref
      || match_at_brace git_ref
      || match_at_end git_ref in
    if test then false else true.

End GitRef.

(** The code points of a string of one-byte characters, and the word
    characters among them. *)
Definition codes (s : string) : list Z :=
  (fun a => Z.of_N (Ascii.N_of_ascii a)) <$> list_ascii_of_string s.

Definition ascii_word (c : Z) : bool :=
  ((48 <=? c) && (c <=? 57)) || ((65 <=? c) && (c <=? 90))
  || ((97 <=? c) && (c <=? 122)) || (c =? 95).

Definition is_history (e : Event) : bool :=
  match e with EvDlHistory _ _ => true | _ => false end.

(** ** Proof helpers *)

Ltac unfold_calls :=
  unfold get_subscriptions, wallet_rpc_create_new_dl, wallet_rpc_dl_update_root,
    wallet_rpc_dl_latest_singleton, wallet_rpc_dl_history, wallet_rpc_dl_track_new,
    wallet_rpc_dl_stop_tracking, data_store_create_tree, data_store_insert,
    data_store_autoinsert, data_store_delete, data_store_get_tree_root,
    data_store_get_last_tree_root_by_hash, data_store_get_validated_wallet_generation,
    data_store_set_validated_wallet_generation, data_store_subscribe,
    data_store_unsubscribe, data_store_get_subscriptions,
    call_download_data, log, emit, lift, wallet, query, update, try_pass, py_assert,
    set_initialized, raise, ret, bind in *.

Lemma uint32_fits v : fits_uint32 v -> uint32 v = Ok v.
Proof.
  unfold fits_uint32, uint32. intros [H0 H1].
  destruct (0 <=? v) eqn:E0; [| lia].
  destruct (v <? 2 ^ 32) eqn:E1; [reflexivity | lia].
Qed.

Lemma uint32_value v u : uint32 v = Ok u -> u = v ∧ fits_uint32 v.
Proof.
  unfold uint32, fits_uint32.
  destruct (0 <=? v) eqn:E0; destruct (v <? 2 ^ 32) eqn:E1; simpl; intros H;
    inversion H; subst. split; [reflexivity | lia].
Qed.

(** ** The ledger behind the checkpoint *)

(** C10 (as amended): when the latest record's generation is not zero and is
    strictly below the stored validated generation, [fetch_and_validate] fails
    with an [AssertionError]; up to then it has only read the latest record,
    the tree root and the stored generation, and the state is unchanged. *)
Theorem fetch_and_validate_ledger_behind
    (env : Env) (subscription : Subscription.t) (s : State)
    (singleton_record : SingletonRecord.t) (stored : Z) :
  let tree_id := Subscription.tree_id subscription in
  dl_latest_singleton env tree_id true = Ok (Some singleton_record) ->
  SingletonRecord.generation singleton_record ≠ 0 ->
  validated (data_store s) !! tree_id = Some stored ->
  SingletonRecord.generation singleton_record < stored ->
  fetch_and_validate env subscription s
  = (Raise AssertionError, s,
     [EvDlLatestSingleton tree_id; EvGetTreeRoot tree_id; EvGetValidated tree_id]).
Proof.
  intros tree_id Hlatest Hnz Hstored Hlt. subst tree_id.
  unfold fetch_and_validate. unfold_calls.
  rewrite Hlatest.
  destruct (SingletonRecord.generation singleton_record =? 0) eqn:Ez; [lia |].
  assert (Ele : (stored <=? SingletonRecord.generation singleton_record) = false) by lia.
  destruct (store_get_tree_root (data_store s) _);
    unfold store_get_validated_wallet_generation; rewrite Hstored; simpl;
    rewrite Ele; reflexivity.
Qed.

Lemma fetch_and_validate_ledger_behind_witness :
  fetch_and_validate
    (Sample.env (Some (SingletonRecord.mk Sample.C 2)) [] (Sample.keep true) None)
    Sample.latest_sub (Sample.state Sample.history_ABC 3)
  = (Raise AssertionError, Sample.state Sample.history_ABC 3,
     [EvDlLatestSingleton Sample.tree; EvGetTreeRoot Sample.tree;
      EvGetValidated Sample.tree]).
Proof.
  apply (fetch_and_validate_ledger_behind
           (Sample.env (Some (SingletonRecord.mk Sample.C 2)) [] (Sample.keep true) None)
           Sample.latest_sub (Sample.state Sample.history_ABC 3)
           (SingletonRecord.mk Sample.C 2) 3).
  - reflexivity.
  - simpl. lia.
  - reflexivity.
  - simpl. lia.
Defined.

(** C10 (as stated) fails when the latest record has generation 0: with a
    stored generation of 1 the ledger is behind the checkpoint, and the call
    returns normally as a no-op. *)
Lemma fetch_and_validate_ledger_behind_at_zero :
  let env := Sample.env (Some (SingletonRecord.mk Sample.A 0)) [] (Sample.keep true) None in
  let s := Sample.state Sample.history_ABC 1 in
  dl_latest_singleton env Sample.tree true = Ok (Some (SingletonRecord.mk Sample.A 0))
  ∧ validated (data_store s) !! Sample.tree = Some 1
  ∧ SingletonRecord.generation (SingletonRecord.mk Sample.A 0) < 1
  ∧ fetch_and_validate env Sample.latest_sub s
    = (Ok tt, s, [EvDlLatestSingleton Sample.tree; EvLog INFO (MsgNoDataOnChain Sample.tree)])
  ∧ fst (fst (fetch_and_validate env Sample.latest_sub s)) ≠ Raise AssertionError.
Proof.
  repeat split; try reflexivity; try (simpl; lia). vm_compute. discriminate.
Qed.

(** ** Shared lemmas on the steps of [fetch_and_validate] *)

Lemma same_root_size (h : bytes32) (l : list SingletonRecord.t) :
  l ≠ [] ->
  Forall (fun c => SingletonRecord.root c = h) l ->
  size (list_to_set (SingletonRecord.root <$> l) : gset Z) = 1%nat.
Proof.
  intros Hne Hall.
  assert (Hset : (list_to_set (SingletonRecord.root <$> l) : gset Z) = {[ h ]}).
  { apply set_eq. intros x. rewrite elem_of_list_to_set, list_elem_of_fmap, elem_of_singleton.
    split.
    - intros (c & -> & Hc). rewrite Forall_forall in Hall. apply Hall. exact Hc.
    - intros ->. destruct l as [| c l']; [congruence |].
      exists c. split; [| left]. inversion Hall; subst; reflexivity. }
  rewrite Hset. apply size_singleton.
Qed.

Lemma size_same_root (first : SingletonRecord.t) (rest : list SingletonRecord.t) :
  size (list_to_set (SingletonRecord.root <$> first :: rest) : gset Z) = 1%nat ->
  Forall (fun c => SingletonRecord.root c = SingletonRecord.root first) (first :: rest).
Proof.
  intros Hsize. apply Forall_forall. intros c Hc.
  apply (size_singleton_inv _ _ _ Hsize); apply elem_of_list_to_set.
  - apply list_elem_of_fmap_2. exact Hc.
  - apply list_elem_of_fmap_2. left.
Qed.

(** The fast-forward condition holds exactly when every record carries the
    old root's hash. *)
Lemma fast_forward_check_true (old_root : Root.t) (h : bytes32)
    (first : SingletonRecord.t) (rest : list SingletonRecord.t) :
  Root.node_hash old_root = Some h ->
  fast_forward_check (Some old_root) (first :: rest) = Ok true
  <-> Forall (fun c => SingletonRecord.root c = h) (first :: rest).
Proof.
  intros Hh. unfold fast_forward_check. rewrite Hh. split.
  - intros H. inversion H as [Hb]. apply andb_prop in Hb as [H1 H2].
    apply bool_decide_eq_true in H1. apply bool_decide_eq_true in H2.
    rewrite <- H1. apply size_same_root. exact H2.
  - intros Hall. f_equal. apply andb_true_intro. split; apply bool_decide_eq_true.
    + inversion Hall; subst; reflexivity.
    + apply (same_root_size h); [discriminate | exact Hall].
Qed.

Lemma build_to_check_runs env subscription s singleton_record stored to_check :
  reaches_candidates env subscription s singleton_record stored to_check ->
  build_to_check env subscription singleton_record stored s
  = (Ok to_check, s, candidate_events subscription stored).
Proof.
  intros (_ & _ & Hfit & Hstored & Hc).
  unfold build_to_check, candidates, candidate_events in *.
  destruct (Subscription.mode subscription).
  - inversion Hc; subst. reflexivity.
  - unfold_calls. destruct (uint32 (stored + 1)) as [m | e] eqn:Hm; [| discriminate].
    apply uint32_value in Hm as [-> _]. rewrite Hc. reflexivity.
Qed.

Lemma fetch_and_validate_after_candidates env subscription s singleton_record stored to_check :
  reaches_candidates env subscription s singleton_record stored to_check ->
  fetch_and_validate env subscription s
  = after_candidates env subscription s singleton_record stored to_check.
Proof.
  intros Hreach.
  pose proof (build_to_check_runs _ _ _ _ _ _ Hreach) as Hbuild.
  destruct Hreach as (Hlatest & Hval & Hfit & Hstored & Hc).
  unfold fetch_and_validate, after_candidates, old_root_of, prefix_events.
  unfold_calls. unfold store_get_validated_wallet_generation, py_int.
  rewrite Hlatest.
  assert (Ez : (SingletonRecord.generation singleton_record =? 0) = false)
    by (unfold fits_uint32 in *; lia).
  assert (Ele : (stored <=? SingletonRecord.generation singleton_record) = true) by lia.
  assert (Eeq : (stored =? SingletonRecord.generation singleton_record) = false) by lia.
  assert (Hu : uint32 stored = Ok stored) by (apply uint32_fits; exact Hfit).
  rewrite Ez.
  destruct (store_get_tree_root (data_store s) (Subscription.tree_id subscription))
    as [old | e]; cbn beta iota zeta; rewrite Hval; cbn beta iota zeta;
    rewrite Ele; cbn beta iota zeta; rewrite Hu; cbn beta iota zeta; rewrite Eeq;
    rewrite Hbuild.
  - destruct (fast_forward_check (Some old) to_check) as [[|] | e]; cbn beta iota zeta.
    + reflexivity.
    + destruct (trim_identical (Some old) to_check) as [kept | e]; cbn beta iota zeta.
      * destruct (download_and_validate env subscription singleton_record (Some old)
                    stored kept s) as [[r s'] tr].
        reflexivity.
      * rewrite !app_nil_r. reflexivity.
    + rewrite !app_nil_r. reflexivity.
  - unfold fast_forward_check, trim_identical. cbn beta iota zeta.
    destruct (download_and_validate env subscription singleton_record None
                stored to_check s) as [[r s'] tr].
    reflexivity.
Qed.

(** [_validate_batch] always returns, leaves the state as it is, and only
    looks roots up and logs between its call and its return. *)
Lemma validate_batch_loop_runs tree_id to_check min_generation max_generation last s :
  exists b tr,
    validate_batch_loop tree_id to_check min_generation max_generation last s = (Ok b, s, tr)
    ∧ Forall (fun e => is_plain e = true) tr.
Proof.
  revert max_generation last.
  induction to_check as [| record rest IH]; intros max_generation last; simpl.
  - exists true, []. split; [reflexivity | constructor].
  - destruct (match last with
              | Some h => bool_decide (SingletonRecord.root record = h)
              | None => false
              end).
    + apply IH.
    + unfold_calls.
      destruct (store_get_last_tree_root_by_hash (data_store s) tree_id
                  (SingletonRecord.root record) max_generation) as [root |].
      * destruct (Root.generation root <? min_generation).
        -- exists false, [EvGetLastTreeRootByHash tree_id (SingletonRecord.root record)
                            max_generation].
           split; [reflexivity | repeat constructor].
        -- destruct (IH (Root.generation root) (Some (SingletonRecord.root record)))
             as (b & tr & Hrun & Htr).
           rewrite Hrun. eexists _, _. split; [reflexivity |].
           repeat constructor. exact Htr.
      * exists false, [EvGetLastTreeRootByHash tree_id (SingletonRecord.root record)
                         max_generation].
        split; [reflexivity | repeat constructor].
Qed.

Lemma validate_batch_runs tree_id to_check min_generation max_generation s :
  exists b tr,
    _validate_batch tree_id to_check min_generation max_generation s
    = (Ok b, s,
       EvCallValidateBatch tree_id to_check min_generation max_generation
       :: tr ++ [EvReturnValidateBatch b])
    ∧ Forall (fun e => is_plain e = true) tr.
Proof.
  destruct (validate_batch_loop_runs tree_id to_check min_generation max_generation None s)
    as (b & tr & Hrun & Htr).
  exists b, tr. split; [| exact Htr].
  unfold _validate_batch. unfold_calls. rewrite Hrun. reflexivity.
Qed.

Ltac use_validate_batch :=
  match goal with
  | |- context [_validate_batch ?t ?l ?a ?b ?s] =>
      let H := fresh "Hvb" in
      let Hp := fresh "Hplain" in
      destruct (validate_batch_runs t l a b s) as (? & ? & H & Hp);
      rewrite H; clear H
  end.

Ltac break_match :=
  match goal with
  | |- context [match ?x with _ => _ end] =>
      lazymatch x with
      | context [match _ with _ => _ end] => fail
      | _ => destruct x eqn:?
      end
  end.

Ltac crunch := repeat (cbn beta iota zeta; first [use_validate_batch | break_match]).

Lemma plain_no_write (l : list Event) :
  Forall (fun e => is_plain e = true) l -> Forall (fun e => is_set_validated e = false) l.
Proof.
  intros H. eapply Forall_impl; [exact H |]. intros e He. unfold is_plain in He.
  destruct (is_set_validated e); [| reflexivity].
  rewrite andb_false_r in He. discriminate.
Qed.

Lemma ends_with_refl suffix : ends_with suffix suffix.
Proof. exists []. split; [reflexivity | constructor]. Qed.

Lemma ends_with_cons suffix e tr :
  is_set_validated e = false -> ends_with suffix tr -> ends_with suffix (e :: tr).
Proof.
  intros He (pre & -> & Hpre). exists (e :: pre). split; [reflexivity |].
  constructor; assumption.
Qed.

Lemma ends_with_app suffix l tr :
  Forall (fun e => is_set_validated e = false) l ->
  ends_with suffix tr -> ends_with suffix (l ++ tr).
Proof.
  intros Hl (pre & -> & Hpre). exists (l ++ pre). split.
  - rewrite app_assoc. reflexivity.
  - apply Forall_app. split; assumption.
Qed.

Ltac no_write :=
  repeat first
    [ apply Forall_nil_2
    | apply plain_no_write; assumption
    | apply Forall_app; split
    | constructor; [reflexivity |] ].

Ltac ends :=
  rewrite <- ?app_assoc; cbn [app];
  repeat first
    [ apply ends_with_refl
    | apply ends_with_cons; [reflexivity |]
    | apply ends_with_app; [apply plain_no_write; assumption |] ].

(** Every way [download_and_validate] can end: with an exception and the
    store as the downloader left it, or normally, after a [_validate_batch]
    that returned true, with the checkpoint written last. *)
Lemma download_and_validate_outcome env subscription singleton_record old_root stored kept s
    r s' tr :
  download_and_validate env subscription singleton_record old_root stored kept s = (r, s', tr) ->
  let tree_id := Subscription.tree_id subscription in
  let generation := SingletonRecord.generation singleton_record in
  let downloaded :=
    download_data env (data_store s) subscription (SingletonRecord.root singleton_record) in
  ((exists e, r = Raise e)
   ∧ s' = mkState (snd downloaded) (initialized s)
   ∧ Forall (fun e => is_set_validated e = false) tr)
  ∨ (r = Ok tt
     ∧ fst downloaded = Ok true
     ∧ s' = mkState (store_set_validated_wallet_generation (snd downloaded) tree_id generation)
                    (initialized s)
     ∧ ends_with [EvReturnValidateBatch true;
                  EvLog INFO (MsgFinished tree_id generation
                                          (SingletonRecord.root singleton_record));
                  EvSetValidated tree_id generation] tr).
Proof.
  unfold download_and_validate. unfold_calls. unfold index0, pop0.
  crunch.
  all: intros H; inversion H; subst; clear H; cbn beta iota zeta.
  all: try (left; split; [eexists; reflexivity | split; [reflexivity | no_write]]; fail).
  all: right.
  all: repeat match goal with
         | H : negb ?b = false |- _ => destruct b; [clear H | discriminate H]
         end.
  all: split; [reflexivity | split; [reflexivity | split; [reflexivity | ends]]].
Qed.

Ltac rewrite_facts :=
  repeat (cbn beta iota zeta;
          match goal with
          | H : ?l = _ |- context [?l] => rewrite H
          end);
  cbn beta iota zeta.

(** Runs [fetch_and_validate] in hypothesis [Hrun] on the facts at hand, for
    the runs that stop before the records to check are known. *)
Ltac run_early Hrun :=
  revert Hrun; unfold fetch_and_validate, build_to_check; unfold_calls;
  unfold store_get_validated_wallet_generation, py_int;
  rewrite_facts;
  try (destruct (store_get_tree_root _ _));
  rewrite_facts;
  intros Hrun; inversion Hrun; subst; clear Hrun.

Ltac plain :=
  repeat first [ apply Forall_nil_2 | constructor; [reflexivity |] ].

(** Every run of [fetch_and_validate] either stops before the records to
    check are known, with the state unchanged and neither a download nor a
    write, or continues as [after_candidates] describes. *)
Lemma fetch_and_validate_cases env subscription s r s' tr :
  fetch_and_validate env subscription s = (r, s', tr) ->
  (s' = s
   ∧ Forall (fun e => is_plain e = true) tr
   ∧ (r = Ok tt -> nothing_new env subscription s))
  ∨ (exists singleton_record stored to_check,
       reaches_candidates env subscription s singleton_record stored to_check
       ∧ (r, s', tr) = after_candidates env subscription s singleton_record stored to_check).
Proof.
  intros Hrun.
  destruct (dl_latest_singleton env (Subscription.tree_id subscription) true)
    as [[singleton_record |] | e] eqn:Hlatest.
  - destruct (SingletonRecord.generation singleton_record =? 0) eqn:Ez.
    { left. run_early Hrun. split; [reflexivity | split; [plain |]].
      intros _. right. exists singleton_record. split; [exact Hlatest | left; lia]. }
    destruct (validated (data_store s) !! Subscription.tree_id subscription)
      as [stored |] eqn:Hval.
    2: { left. run_early Hrun; (split; [reflexivity | split; [plain | discriminate]]). }
    destruct (stored <=? SingletonRecord.generation singleton_record) eqn:Ele.
    2: { left. run_early Hrun; (split; [reflexivity | split; [plain | discriminate]]). }
    destruct (uint32 stored) as [u | e] eqn:Hu.
    2: { left. run_early Hrun; (split; [reflexivity | split; [plain | discriminate]]). }
    destruct (uint32_value _ _ Hu) as [-> Hfit].
    destruct (stored =? SingletonRecord.generation singleton_record) eqn:Eeq.
    { left. run_early Hrun; (split; [reflexivity | split; [plain |]]).
      all: intros _; right; exists singleton_record; split; [exact Hlatest | right].
      all: apply Z.eqb_eq in Eeq; subst stored; split; [exact Hfit | exact Hval]. }
    destruct (candidates env subscription singleton_record stored) as [to_check | e] eqn:Hc.
    + right. exists singleton_record, stored, to_check.
      assert (Hreach : reaches_candidates env subscription s singleton_record stored to_check).
      { unfold reaches_candidates. repeat split; try assumption; try apply Hfit. lia. }
      split; [exact Hreach |].
      rewrite <- Hrun. apply fetch_and_validate_after_candidates. exact Hreach.
    + left. unfold candidates in Hc.
      destruct (Subscription.mode subscription) eqn:Hmode; [discriminate |].
      destruct (uint32 (stored + 1)) as [m | e'] eqn:Hm.
      * run_early Hrun; (split; [reflexivity | split; [plain | discriminate]]).
      * inversion Hc; subst.
        run_early Hrun; (split; [reflexivity | split; [plain | discriminate]]).
  - left. run_early Hrun. split; [reflexivity | split; [plain |]].
    intros _. left. exact Hlatest.
  - left. run_early Hrun. split; [reflexivity | split; [plain | discriminate]].
Qed.

(** ** The checkpoint *)

Lemma prefix_events_plain subscription stored :
  Forall (fun e => is_plain e = true) (prefix_events subscription stored).
Proof.
  unfold prefix_events, candidate_events.
  destruct (Subscription.mode subscription); plain.
Qed.

Lemma lookup_set_validated ds tree_id generation t :
  validated (store_set_validated_wallet_generation ds tree_id generation) !! t
  = if decide (tree_id = t) then Some generation else validated ds !! t.
Proof. unfold store_set_validated_wallet_generation. simpl. apply lookup_insert. Qed.

(** C1: over one call of [fetch_and_validate], with a downloader that leaves
    the stored validated generations alone, the validated generation of every
    tree is non-decreasing.  The call writes it at most once, as its last
    store operation and only when it returns normally: the value written is
    the generation of the latest singleton record, it is not below the value
    stored before, and the write follows either a fast-forward check that
    held or a [_validate_batch] that returned true.  A call that raises
    writes nothing. *)
Theorem fetch_and_validate_checkpoint
    (env : Env) (subscription : Subscription.t) (s s' : State)
    (r : result unit) (tr : list Event) :
  downloader_keeps_checkpoints env ->
  fetch_and_validate env subscription s = (r, s', tr) ->
  let tree_id := Subscription.tree_id subscription in
  checkpoints_le (data_store s) (data_store s')
  ∧ ((Forall (fun e => is_set_validated e = false) tr
      ∧ validated (data_store s') = validated (data_store s))
     ∨ (exists singleton_record stored,
          r = Ok tt
          ∧ dl_latest_singleton env tree_id true = Ok (Some singleton_record)
          ∧ validated (data_store s) !! tree_id = Some stored
          ∧ stored ≤ SingletonRecord.generation singleton_record
          ∧ validated (data_store s')
            = <[tree_id := SingletonRecord.generation singleton_record]>
                (validated (data_store s))
          ∧ ((exists to_check,
                candidates env subscription singleton_record stored = Ok to_check
                ∧ fast_forward_check (old_root_of (data_store s) tree_id) to_check = Ok true
                ∧ tr = prefix_events subscription stored
                       ++ [EvSetValidated tree_id (SingletonRecord.generation singleton_record);
                           EvLog INFO (MsgFastForwarded tree_id
                                         (SingletonRecord.generation singleton_record))])
             ∨ ends_with
                 [EvReturnValidateBatch true;
                  EvLog INFO (MsgFinished tree_id (SingletonRecord.generation singleton_record)
                                          (SingletonRecord.root singleton_record));
                  EvSetValidated tree_id (SingletonRecord.generation singleton_record)]
                 tr))).
Proof.
  intros Hframe Hrun tree_id.
  unfold downloader_keeps_checkpoints in Hframe. unfold checkpoints_le.
  assert (Hsame : validated (data_store s') = validated (data_store s) ->
                  forall t g, validated (data_store s) !! t = Some g ->
                              exists g', validated (data_store s') !! t = Some g' ∧ g ≤ g').
  { intros -> t g Hg. exists g. split; [exact Hg | lia]. }
  assert (Hset : forall singleton_record stored,
             validated (data_store s) !! tree_id = Some stored ->
             stored ≤ SingletonRecord.generation singleton_record ->
             validated (data_store s')
             = <[tree_id := SingletonRecord.generation singleton_record]>
                 (validated (data_store s)) ->
             forall t g, validated (data_store s) !! t = Some g ->
                         exists g', validated (data_store s') !! t = Some g' ∧ g ≤ g').
  { intros singleton_record stored Hstored Hle -> t g Hg.
    rewrite lookup_insert. destruct (decide (tree_id = t)) as [<- | Hne].
    - eexists. split; [reflexivity |]. rewrite Hstored in Hg. inversion Hg; subst. exact Hle.
    - exists g. split; [exact Hg | lia]. }
  destruct (fetch_and_validate_cases _ _ _ _ _ _ Hrun)
    as [(-> & Hplain & _) | (singleton_record & stored & to_check & Hreach & Hafter)].
  { split; [apply Hsame; reflexivity |].
    left. split; [apply plain_no_write; exact Hplain | reflexivity]. }
  pose proof Hreach as (Hlatest & Hval & Hfit & Hlt & Hc).
  pose proof (plain_no_write _ (prefix_events_plain subscription stored)) as Hprefix.
  unfold after_candidates in Hafter. fold tree_id in Hafter.
  destruct (fast_forward_check (old_root_of (data_store s) tree_id) to_check)
    as [[|] | e] eqn:Hff.
  - inversion Hafter; subst r s' tr; clear Hafter. cbn [data_store] in *.
    split.
    + apply (Hset singleton_record stored); [exact Hval | lia | reflexivity].
    + right. exists singleton_record, stored.
      repeat split; try assumption; try lia.
      left. exists to_check. repeat split; assumption.
  - destruct (trim_identical (old_root_of (data_store s) tree_id) to_check)
      as [kept | e] eqn:Htrim.
    + destruct (download_and_validate env subscription singleton_record
                  (old_root_of (data_store s) tree_id) stored kept s)
        as [[r1 s1] tr1] eqn:Hdl.
      inversion Hafter; subst r s' tr; clear Hafter.
      destruct (download_and_validate_outcome _ _ _ _ _ _ _ _ _ _ Hdl)
        as [((e & ->) & -> & Hno) | (-> & _ & -> & Hends)]; cbn [data_store] in *.
      * split; [apply Hsame; apply Hframe |].
        left. split; [| apply Hframe].
        apply (proj2 (Forall_app _ (prefix_events subscription stored) tr1)).
        split; assumption.
      * assert (Hv : <[tree_id := SingletonRecord.generation singleton_record]>
                       (validated (snd (download_data env (data_store s) subscription
                                          (SingletonRecord.root singleton_record))))
                     = <[tree_id := SingletonRecord.generation singleton_record]>
                         (validated (data_store s))) by (rewrite Hframe; reflexivity).
        split.
        -- apply (Hset singleton_record stored); [exact Hval | lia | exact Hv].
        -- right. exists singleton_record, stored.
           repeat split; try assumption; try lia.
           right. apply (ends_with_app _ (prefix_events subscription stored) tr1); assumption.
    + inversion Hafter; subst r s' tr; clear Hafter.
      split; [apply Hsame; reflexivity |].
      left. split; [exact Hprefix | reflexivity].
  - inversion Hafter; subst r s' tr; clear Hafter.
    split; [apply Hsame; reflexivity |].
    left. split; [exact Hprefix | reflexivity].
Qed.

Lemma fetch_and_validate_checkpoint_witness :
  let run := fetch_and_validate Sample.env_AB Sample.latest_sub Sample.state_A in
  exists g', validated (data_store (snd (fst run))) !! Sample.tree = Some g' ∧ 1 ≤ g'.
Proof.
  intros run.
  destruct (fetch_and_validate_checkpoint
              Sample.env_AB Sample.latest_sub Sample.state_A
              (snd (fst run)) (fst (fst run)) (snd run)) as [Hmono _].
  - intros ds sub target. reflexivity.
  - vm_compute. reflexivity.
  - unfold checkpoints_le in Hmono. apply (Hmono Sample.tree 1). reflexivity.
Defined.

(** ** Fast-forward *)

(** C4: when the run reaches a list of records to check, the local root
    exists with a hash [h], and the first record and every other record of the
    list carry [h], then [fetch_and_validate] writes the generation of the
    latest singleton record as the validated generation and returns; it calls
    neither the downloader nor [_validate_batch]. *)
Theorem fetch_and_validate_fast_forward
    (env : Env) (subscription : Subscription.t) (s : State)
    (singleton_record : SingletonRecord.t) (stored : Z)
    (first : SingletonRecord.t) (rest : list SingletonRecord.t)
    (old_root : Root.t) (h : bytes32) :
  let tree_id := Subscription.tree_id subscription in
  let generation := SingletonRecord.generation singleton_record in
  let tr := prefix_events subscription stored
            ++ [EvSetValidated tree_id generation;
                EvLog INFO (MsgFastForwarded tree_id generation)] in
  let s' := mkState (store_set_validated_wallet_generation (data_store s) tree_id generation)
                    (initialized s) in
  reaches_candidates env subscription s singleton_record stored (first :: rest) ->
  store_get_tree_root (data_store s) tree_id = Ok old_root ->
  Root.node_hash old_root = Some h ->
  SingletonRecord.root first = h ->
  Forall (fun c => SingletonRecord.root c = SingletonRecord.root first) rest ->
  fetch_and_validate env subscription s = (Ok tt, s', tr)
  ∧ validated (data_store s') !! tree_id = Some generation
  ∧ Forall (fun e => is_download e = false ∧ is_validate_batch e = false) tr.
Proof.
  intros tree_id generation tr s' Hreach Hroot Hhash Hfirst Hrest.
  assert (Hff : fast_forward_check (old_root_of (data_store s) tree_id) (first :: rest)
                = Ok true).
  { unfold old_root_of. rewrite Hroot. apply (fast_forward_check_true old_root h); [exact Hhash |].
    constructor; [exact Hfirst |]. rewrite <- Hfirst. exact Hrest. }
  split; [| split].
  - rewrite (fetch_and_validate_after_candidates _ _ _ _ _ _ Hreach).
    unfold after_candidates. fold tree_id. rewrite Hff. reflexivity.
  - unfold s'. cbn [data_store]. rewrite lookup_set_validated.
    destruct (decide (tree_id = tree_id)); [reflexivity | contradiction].
  - unfold tr, prefix_events, candidate_events.
    destruct (Subscription.mode subscription); repeat constructor.
Qed.

(** ** The trim loop *)

Lemma pop_identical_keeps (h : bytes32) (reversed : list SingletonRecord.t) :
  ¬ Forall (fun c => SingletonRecord.root c = h) reversed ->
  exists dropped last kept,
    pop_identical h reversed = Ok (last :: kept)
    ∧ reversed = dropped ++ last :: kept
    ∧ Forall (fun c => SingletonRecord.root c = h) dropped
    ∧ SingletonRecord.root last ≠ h.
Proof.
  induction reversed as [| c l IH]; intros Hnot.
  - exfalso. apply Hnot. constructor.
  - simpl. destruct (bool_decide (SingletonRecord.root c = h)) eqn:Ec.
    + apply bool_decide_eq_true in Ec.
      destruct IH as (dropped & last & kept & Hpop & Heq & Hdropped & Hlast).
      { intros Hall. apply Hnot. constructor; assumption. }
      exists (c :: dropped), last, kept. rewrite Hpop, Heq.
      repeat split; try assumption. constructor; assumption.
    + apply bool_decide_eq_false in Ec.
      exists [], c, l. repeat split; [constructor | exact Ec].
Qed.

(** The trim step on a non-empty list for which the fast-forward condition is
    false: only trailing records with the old root's hash are dropped, and at
    least one record is kept. *)
Lemma trim_identical_keeps (old_root : option Root.t) (to_check : list SingletonRecord.t) :
  to_check ≠ [] ->
  fast_forward_check old_root to_check = Ok false ->
  exists first rest dropped,
    trim_identical old_root to_check = Ok (first :: rest)
    ∧ to_check = (first :: rest) ++ dropped
    ∧ forall old h, old_root = Some old -> Root.node_hash old = Some h ->
        Forall (fun c => SingletonRecord.root c = h) dropped
        ∧ exists c, c ∈ to_check ∧ SingletonRecord.root c ≠ h.
Proof.
  intros Hne Hff.
  destruct to_check as [| first rest]; [congruence |].
  destruct old_root as [old |].
  2: { exists first, rest, []. simpl. rewrite app_nil_r.
       repeat split; discriminate. }
  destruct (Root.node_hash old) as [h |] eqn:Hh.
  2: { exists first, rest, []. unfold trim_identical. rewrite Hh, app_nil_r.
       repeat split; congruence. }
  assert (Hnot : ¬ Forall (fun c => SingletonRecord.root c = h) (rev (first :: rest))).
  { intros Hall. apply Forall_rev in Hall. rewrite rev_involutive in Hall.
    apply (fast_forward_check_true old h) in Hall; [| exact Hh]. congruence. }
  destruct (pop_identical_keeps h _ Hnot) as (dropped & last & kept & Hpop & Heq & Hdropped & Hlast).
  assert (Hlist : first :: rest = rev (last :: kept) ++ rev dropped).
  { rewrite <- rev_app_distr, <- Heq, rev_involutive. reflexivity. }
  destruct (rev (last :: kept)) as [| first' rest'] eqn:Hrev.
  { apply (f_equal (@length _)) in Hrev. rewrite length_rev in Hrev. discriminate. }
  exists first', rest', (rev dropped).
  split; [| split].
  - unfold trim_identical. rewrite Hh, Hpop, Hrev. reflexivity.
  - exact Hlist.
  - intros old' h' Hold Hh'. inversion Hold; subst old'.
    rewrite Hh in Hh'. inversion Hh'; subst h'.
    split; [apply Forall_rev; exact Hdropped |].
    exists last. split; [| exact Hlast].
    rewrite Hlist, <- Hrev. apply list_elem_of_In, in_or_app. left.
    apply in_rev. rewrite rev_involutive. left. reflexivity.
Qed.

(** C9: when [fetch_and_validate] reaches the trim step with a non-empty list
    of records and the fast-forward branch is not taken, some record's hash
    differs from the old root's hash, the trim loop ends without reading an
    empty list, it drops only trailing records, the list it leaves is not
    empty, so that its first element can be read and popped, and the run goes
    on to the download with that list. *)
Theorem fetch_and_validate_trim_keeps
    (env : Env) (subscription : Subscription.t) (s : State)
    (singleton_record : SingletonRecord.t) (stored : Z)
    (to_check : list SingletonRecord.t) :
  let tree_id := Subscription.tree_id subscription in
  let old_root := old_root_of (data_store s) tree_id in
  reaches_candidates env subscription s singleton_record stored to_check ->
  to_check ≠ [] ->
  fast_forward_check old_root to_check = Ok false ->
  exists first rest dropped,
    trim_identical old_root to_check = Ok (first :: rest)
    ∧ to_check = (first :: rest) ++ dropped
    ∧ (forall old h, old_root = Some old -> Root.node_hash old = Some h ->
         Forall (fun c => SingletonRecord.root c = h) dropped
         ∧ exists c, c ∈ to_check ∧ SingletonRecord.root c ≠ h)
    ∧ index0 (first :: rest) = Ok first
    ∧ pop0 (first :: rest) = Ok rest
    ∧ fetch_and_validate env subscription s
      = match download_and_validate env subscription singleton_record old_root stored
                (first :: rest) s with
        | (r, s', tr) => (r, s', prefix_events subscription stored ++ tr)
        end.
Proof.
  intros tree_id old_root Hreach Hne Hff.
  destruct (trim_identical_keeps old_root to_check Hne Hff)
    as (first & rest & dropped & Htrim & Hlist & Hdiff).
  exists first, rest, dropped.
  split; [exact Htrim |]. split; [exact Hlist |]. split; [exact Hdiff |].
  split; [reflexivity |]. split; [reflexivity |].
  rewrite (fetch_and_validate_after_candidates _ _ _ _ _ _ Hreach).
  unfold after_candidates. fold tree_id. fold old_root. rewrite Hff, Htrim. reflexivity.
Qed.

Ltac reach :=
  unfold reaches_candidates, fits_uint32;
  repeat split; try reflexivity; try (simpl; lia); try discriminate.

Lemma fetch_and_validate_fast_forward_witness :
  validated
    (data_store
       (snd (fst (fetch_and_validate Sample.env_AA Sample.history_sub Sample.state_A))))
  !! Sample.tree = Some 3.
Proof.
  destruct (fetch_and_validate_fast_forward
              Sample.env_AA Sample.history_sub Sample.state_A
              (SingletonRecord.mk Sample.A 3) 1
              (SingletonRecord.mk Sample.A 3) [SingletonRecord.mk Sample.A 2]
              (Root.mk (Some Sample.A) 1 COMMITTED) Sample.A)
    as (Hrun & Hval & _).
  - reach.
  - reflexivity.
  - reflexivity.
  - reflexivity.
  - repeat constructor.
  - rewrite Hrun. exact Hval.
Defined.

Lemma fetch_and_validate_trim_keeps_witness :
  exists first rest dropped,
    trim_identical (old_root_of (data_store Sample.state_A) Sample.tree)
                   [SingletonRecord.mk Sample.B 2; SingletonRecord.mk Sample.A 1]
    = Ok (first :: rest)
    ∧ [SingletonRecord.mk Sample.B 2; SingletonRecord.mk Sample.A 1]
      = (first :: rest) ++ dropped.
Proof.
  destruct (fetch_and_validate_trim_keeps
              Sample.env_AB Sample.history_sub Sample.state_A
              (SingletonRecord.mk Sample.B 2) 1
              [SingletonRecord.mk Sample.B 2; SingletonRecord.mk Sample.A 1])
    as (first & rest & dropped & Htrim & Hlist & _).
  - reach.
  - discriminate.
  - reflexivity.
  - exists first, rest, dropped. split; assumption.
Defined.

(** ** Rejection of a failed or mismatching download *)

(** C3: when the run reaches the download (the fast-forward check is false and
    the trim leaves [kept]) and the downloader, which leaves the stored
    validated generations alone, returns false, [fetch_and_validate] raises
    [RuntimeError]; when the downloader returns true and the hash of the local
    root read after it differs from the hash of the first record of [kept],
    [fetch_and_validate] raises [RuntimeError] too.  In both cases nothing
    writes the validated generation, which is the same after as before. *)
Theorem fetch_and_validate_rejects
    (env : Env) (subscription : Subscription.t) (s : State)
    (singleton_record : SingletonRecord.t) (stored : Z)
    (to_check kept : list SingletonRecord.t)
    (downloaded : bool) (ds' : DataStore) :
  let tree_id := Subscription.tree_id subscription in
  let old_root := old_root_of (data_store s) tree_id in
  let called := prefix_events subscription stored
                ++ [EvLog INFO (MsgDownloading tree_id stored
                                  (SingletonRecord.generation singleton_record));
                    EvDownloadData subscription (SingletonRecord.root singleton_record)] in
  reaches_candidates env subscription s singleton_record stored to_check ->
  fast_forward_check old_root to_check = Ok false ->
  trim_identical old_root to_check = Ok kept ->
  download_data env (data_store s) subscription (SingletonRecord.root singleton_record)
  = (Ok downloaded, ds') ->
  validated ds' = validated (data_store s) ->
  (downloaded = false ->
   fetch_and_validate env subscription s
   = (Raise (RuntimeError "Could not download the data."),
      mkState ds' (initialized s), called))
  ∧ (downloaded = true ->
     forall new_root first rest,
       store_get_tree_root ds' tree_id = Ok new_root ->
       kept = first :: rest ->
       Root.node_hash new_root ≠ Some (SingletonRecord.root first) ->
       fetch_and_validate env subscription s
       = (Raise (RuntimeError "Can't find data on chain in our datastore."),
          mkState ds' (initialized s),
          called ++ [EvLog INFO (MsgDownloaded tree_id); EvGetTreeRoot tree_id]))
  ∧ Forall (fun e => is_set_validated e = false)
           (called ++ [EvLog INFO (MsgDownloaded tree_id); EvGetTreeRoot tree_id])
  ∧ validated (data_store (mkState ds' (initialized s))) !! tree_id
    = validated (data_store s) !! tree_id.
Proof.
  intros tree_id old_root called Hreach Hff Htrim Hdl Hframe.
  pose proof (fetch_and_validate_after_candidates _ _ _ _ _ _ Hreach) as Hrun.
  unfold after_candidates in Hrun. fold tree_id in Hrun. fold old_root in Hrun.
  rewrite Hff, Htrim in Hrun.
  split; [| split; [| split]].
  - intros ->. rewrite Hrun. unfold download_and_validate. unfold_calls.
    rewrite Hdl. cbn [negb]. cbn beta iota zeta. unfold called.
    rewrite <- ?app_assoc. reflexivity.
  - intros -> new_root first rest Hroot -> Hne. rewrite Hrun.
    unfold download_and_validate. unfold_calls. fold tree_id.
    rewrite Hdl. cbn [negb]. cbn beta iota zeta. cbn [data_store]. rewrite Hroot.
    cbn beta iota zeta. unfold called.
    destruct (Root.node_hash new_root) as [node_hash |].
    + unfold index0. cbn beta iota zeta.
      destruct (bool_decide (node_hash = SingletonRecord.root first)) eqn:Eh.
      * apply bool_decide_eq_true in Eh. congruence.
      * cbn beta iota zeta. rewrite <- ?app_assoc. reflexivity.
    + cbn beta iota zeta. rewrite <- ?app_assoc. reflexivity.
  - unfold called. apply Forall_app. split; [apply Forall_app; split |].
    + apply plain_no_write, prefix_events_plain.
    + repeat constructor.
    + repeat constructor.
  - cbn [data_store]. rewrite Hframe. reflexivity.
Qed.

Lemma fetch_and_validate_rejects_witness :
  fetch_and_validate Sample.env_AB_failing Sample.latest_sub Sample.state_A
  = (Raise (RuntimeError "Could not download the data."), Sample.state_A,
     [EvDlLatestSingleton Sample.tree; EvGetTreeRoot Sample.tree; EvGetValidated Sample.tree;
      EvLog INFO (MsgDownloading Sample.tree 1 2);
      EvDownloadData Sample.latest_sub Sample.B])
  ∧ fst (fst (fetch_and_validate Sample.env_AB_wrong Sample.latest_sub Sample.state_A))
    = Raise (RuntimeError "Can't find data on chain in our datastore.").
Proof.
  split.
  - destruct (fetch_and_validate_rejects
                Sample.env_AB_failing Sample.latest_sub Sample.state_A
                (SingletonRecord.mk Sample.B 2) 1
                [SingletonRecord.mk Sample.B 2] [SingletonRecord.mk Sample.B 2]
                false (data_store Sample.state_A)) as (Hfalse & _).
    + reach.
    + reflexivity.
    + reflexivity.
    + reflexivity.
    + reflexivity.
    + apply Hfalse. reflexivity.
  - destruct (fetch_and_validate_rejects
                Sample.env_AB_wrong Sample.latest_sub Sample.state_A
                (SingletonRecord.mk Sample.B 2) 1
                [SingletonRecord.mk Sample.B 2] [SingletonRecord.mk Sample.B 2]
                true
                (snd (Sample.append_root (Root.mk (Some Sample.C) 2 COMMITTED)
                        (data_store Sample.state_A)))) as (_ & Htrue & _).
    + reach.
    + reflexivity.
    + reflexivity.
    + reflexivity.
    + reflexivity.
    + rewrite (Htrue eq_refl (Root.mk (Some Sample.C) 2 COMMITTED)
                 (SingletonRecord.mk Sample.B 2) []).
      * reflexivity.
      * vm_compute. reflexivity.
      * reflexivity.
      * simpl. unfold Sample.C, Sample.B. congruence.
Defined.

(** ** Nothing new on the ledger *)








(** ** The window of the light validation *)

Lemma lookup_by_hash_ABC (ds : DataStore) (tree_id a b c : bytes32) (sa sb sc : Status) :
  a ≠ b -> b ≠ c -> a ≠ c ->
  roots ds !! tree_id = Some [Root.mk (Some a) 1 sa; Root.mk (Some b) 2 sb; Root.mk (Some c) 3 sc] ->
  store_get_last_tree_root_by_hash ds tree_id b 3 = Some (Root.mk (Some b) 2 sb)
  ∧ store_get_last_tree_root_by_hash ds tree_id c 3 = Some (Root.mk (Some c) 3 sc)
  ∧ store_get_last_tree_root_by_hash ds tree_id c 2 = None.
Proof.
  intros Hab Hbc Hac Hroots.
  unfold store_get_last_tree_root_by_hash, tree_roots. rewrite Hroots.
  cbn [default id].
  repeat split.
  - rewrite filter_cons_False by (cbn; intros [Heq _]; congruence).
    rewrite filter_cons_True by (cbn; split; [reflexivity | lia]).
    rewrite filter_cons_False by (cbn; intros [Heq _]; congruence).
    reflexivity.
  - rewrite filter_cons_False by (cbn; intros [Heq _]; congruence).
    rewrite filter_cons_False by (cbn; intros [Heq _]; congruence).
    rewrite filter_cons_True by (cbn; split; [reflexivity | lia]).
    reflexivity.
  - rewrite filter_cons_False by (cbn; intros [Heq _]; congruence).
    rewrite filter_cons_False by (cbn; intros [Heq _]; congruence).
    rewrite filter_cons_False by (cbn; intros [_ Hle]; lia).
    reflexivity.
Qed.

(** C2 (as amended): with a local history of roots at generations 1, 2, 3
    with pairwise distinct hashes [a], [b], [c], [_validate_batch] on the
    records [b], [c] in this order returns false with [min_generation = 2]
    and [max_generation = 3] (after [b] resolves at generation 2 the window
    ends at 2, and [c] is at generation 3), and returns false with
    [min_generation = 3] ([b] is at generation 2); on the records [c], [b],
    newest first, with [min_generation = 2] and [max_generation = 3] it
    returns true. *)
Theorem validate_batch_window
    (s : State) (tree_id a b c : bytes32) (sa sb sc : Status) (gb gc : Z) :
  a ≠ b -> b ≠ c -> a ≠ c ->
  roots (data_store s) !! tree_id
  = Some [Root.mk (Some a) 1 sa; Root.mk (Some b) 2 sb; Root.mk (Some c) 3 sc] ->
  let rb := SingletonRecord.mk b gb in
  let rc := SingletonRecord.mk c gc in
  _validate_batch tree_id [rb; rc] 2 3 s
  = (Ok false, s,
     [EvCallValidateBatch tree_id [rb; rc] 2 3;
      EvGetLastTreeRootByHash tree_id b 3;
      EvLog INFO (MsgValidatedChainHash (Some b) gb);
      EvGetLastTreeRootByHash tree_id c 2;
      EvReturnValidateBatch false])
  ∧ _validate_batch tree_id [rb; rc] 3 3 s
    = (Ok false, s,
       [EvCallValidateBatch tree_id [rb; rc] 3 3;
        EvGetLastTreeRootByHash tree_id b 3;
        EvReturnValidateBatch false])
  ∧ _validate_batch tree_id [rc; rb] 2 3 s
    = (Ok true, s,
       [EvCallValidateBatch tree_id [rc; rb] 2 3;
        EvGetLastTreeRootByHash tree_id c 3;
        EvLog INFO (MsgValidatedChainHash (Some c) gc);
        EvGetLastTreeRootByHash tree_id b 3;
        EvLog INFO (MsgValidatedChainHash (Some b) gb);
        EvReturnValidateBatch true]).
Proof.
  intros Hab Hbc Hac Hroots rb rc.
  destruct (lookup_by_hash_ABC _ _ _ _ _ sa sb sc Hab Hbc Hac Hroots) as (Hb3 & Hc3 & Hc2).
  unfold _validate_batch, validate_batch_loop, rb, rc. unfold_calls.
  cbn [SingletonRecord.root SingletonRecord.generation].
  rewrite Hb3, Hc3. cbn beta iota zeta. cbn [Root.generation].
  change (2 <? 2) with false. change (2 <? 3) with true. change (3 <? 2) with false.
  cbn beta iota zeta.
  rewrite (bool_decide_eq_false_2 (c = b)) by congruence.
  rewrite (bool_decide_eq_false_2 (b = c)) by congruence.
  cbn beta iota zeta. rewrite Hc2, Hb3. cbn beta iota zeta. cbn [Root.generation].
  change (2 <? 2) with false. cbn beta iota zeta.
  repeat split.
Qed.

Lemma validate_batch_window_witness :
  fst (fst (_validate_batch Sample.tree
              [SingletonRecord.mk Sample.C 3; SingletonRecord.mk Sample.B 2] 2 3
              (Sample.state Sample.history_ABC 1)))
  = Ok true.
Proof.
  destruct (validate_batch_window
              (Sample.state Sample.history_ABC 1) Sample.tree Sample.A Sample.B Sample.C
              COMMITTED COMMITTED COMMITTED 2 3) as (_ & _ & Hnewest).
  - unfold Sample.A, Sample.B. lia.
  - unfold Sample.B, Sample.C. lia.
  - unfold Sample.A, Sample.C. lia.
  - reflexivity.
  - rewrite Hnewest. reflexivity.
Defined.

(** C2 (as stated) fails: on the history [A], [B], [C] at generations 1, 2, 3
    and the records [B], [C], with [min_generation = 2] and
    [max_generation = 3], [_validate_batch] returns false. *)
Lemma validate_batch_window_oldest_first :
  let s := Sample.state Sample.history_ABC 1 in
  _validate_batch Sample.tree
    [SingletonRecord.mk Sample.B 2; SingletonRecord.mk Sample.C 3] 2 3 s
  = (Ok false, s,
     [EvCallValidateBatch Sample.tree
        [SingletonRecord.mk Sample.B 2; SingletonRecord.mk Sample.C 3] 2 3;
      EvGetLastTreeRootByHash Sample.tree Sample.B 3;
      EvLog INFO (MsgValidatedChainHash (Some Sample.B) 2);
      EvGetLastTreeRootByHash Sample.tree Sample.C 2;
      EvReturnValidateBatch false])
  ∧ fst (fst (_validate_batch Sample.tree
                [SingletonRecord.mk Sample.B 2; SingletonRecord.mk Sample.C 3] 2 3 s))
    ≠ Ok true.
Proof.
  split; [vm_compute; reflexivity | vm_compute; discriminate].
Qed.

(** ** [create_store] *)

(** C6 (as amended): [create_store] sets the [initialized] flag once
    [create_tree] has returned, with or without a result.  When [create_tree]
    returns no result the failure is logged as fatal, no exception is raised,
    and the flag is set to true; when it returns a result nothing is logged
    and the flag is set to true; the flag keeps its value only when the wallet
    call or [create_tree] raises. *)
Theorem create_store_initialized
    (env : Env) (fee : Z) (root : bytes32) (s : State) :
  (forall txs tree_id ds',
     create_new_dl env root fee = Ok (txs, tree_id) ->
     create_tree env tree_id (data_store s) = (Ok None, ds') ->
     create_store env fee root s
     = (Ok (txs, tree_id), mkState ds' true,
        [EvCreateNewDl root fee; EvCreateTree tree_id; EvLog FATAL MsgFailedCreatingStore]))
  ∧ (forall txs tree_id ds' res,
       create_new_dl env root fee = Ok (txs, tree_id) ->
       create_tree env tree_id (data_store s) = (Ok (Some res), ds') ->
       create_store env fee root s
       = (Ok (txs, tree_id), mkState ds' true,
          [EvCreateNewDl root fee; EvCreateTree tree_id]))
  ∧ (forall e s' tr,
       create_store env fee root s = (Raise e, s', tr) ->
       initialized s' = initialized s
       ∧ Forall (fun ev => ev ≠ EvLog FATAL MsgFailedCreatingStore) tr).
Proof.
  unfold create_store. unfold_calls. repeat split.
  - intros txs tree_id ds' Hnew Htree. rewrite Hnew. cbn beta iota zeta.
    rewrite Htree. reflexivity.
  - intros txs tree_id ds' res Hnew Htree. rewrite Hnew. cbn beta iota zeta.
    rewrite Htree. reflexivity.
  - revert H.
    destruct (create_new_dl env root fee) as [[txs tree_id] | e']; cbn beta iota zeta.
    + destruct (create_tree env tree_id (data_store s)) as [[[res |] | e''] ds'];
        cbn beta iota zeta; intros H; inversion H; subst. reflexivity.
    + intros H; inversion H; subst. reflexivity.
  - revert H.
    destruct (create_new_dl env root fee) as [[txs tree_id] | e']; cbn beta iota zeta.
    + destruct (create_tree env tree_id (data_store s)) as [[[res |] | e''] ds'];
        cbn beta iota zeta; intros H; inversion H; subst.
      repeat constructor; discriminate.
    + intros H; inversion H; subst. repeat constructor; discriminate.
Qed.

Lemma create_store_initialized_witness :
  create_store (Sample.env None [] (Sample.keep true) None) 0 0 (Sample.state [] 0)
  = (Ok ([mkTx 77], Sample.tree), mkState (Sample.store [] 0) true,
     [EvCreateNewDl 0 0; EvCreateTree Sample.tree; EvLog FATAL MsgFailedCreatingStore]).
Proof.
  apply (proj1 (create_store_initialized
                  (Sample.env None [] (Sample.keep true) None) 0 0 (Sample.state [] 0))).
  - reflexivity.
  - reflexivity.
Defined.

(** C6 (as stated) fails: with a [create_tree] that returns no result, the
    flag, false before the call, is true after it. *)
Lemma create_store_failure_sets_initialized :
  let env := Sample.env None [] (Sample.keep true) None in
  let s := Sample.state [] 0 in
  let run := create_store env 0 0 s in
  create_tree env Sample.tree (data_store s) = (Ok None, data_store s)
  ∧ initialized s = false
  ∧ fst (fst run) = Ok ([mkTx 77], Sample.tree)
  ∧ initialized (snd (fst run)) = true
  ∧ snd run = [EvCreateNewDl 0 0; EvCreateTree Sample.tree;
               EvLog FATAL MsgFailedCreatingStore].
Proof.
  repeat split.
Qed.

(** ** [batch_update] *)

Lemma apply_change_calls env tree_id change s s' tr :
  apply_change env tree_id change s = (Ok tt, s', tr) ->
  tr = expected_calls tree_id change.
Proof.
  unfold apply_change, expected_calls, hinted, getitem, dict_get, py_or.
  unfold_calls.
  destruct (change !! "action") as [action |] eqn:Haction; cbn beta iota zeta;
    [| discriminate].
  destruct (bool_decide (action = PyStr "insert")) eqn:Ei.
  - apply bool_decide_eq_true in Ei. subst action.
    rewrite bool_decide_eq_true_2 by reflexivity.
    destruct (change !! "key") as [key |]; cbn beta iota zeta; [| discriminate].
    destruct (change !! "value") as [value |]; cbn beta iota zeta; [| discriminate].
    cbn [default].
    destruct (truthy (default PyNone (change !! "reference_node_hash"))) eqn:Eref;
      cbn [orb]; [| destruct (truthy (default PyNone (change !! "side"))) eqn:Eside ].
    all: try rewrite Eref; try rewrite Eside; cbn beta iota zeta.
    all: crunch; intros H; inversion H; subst; reflexivity.
  - apply bool_decide_eq_false in Ei.
    rewrite (bool_decide_eq_false_2 (Some action = Some (PyStr "insert")))
      by (intros Heq; apply Ei; congruence).
    destruct (bool_decide (action = PyStr "delete")); cbn beta iota zeta; [| discriminate].
    destruct (change !! "key") as [key |]; cbn beta iota zeta; [| discriminate].
    cbn [default].
    crunch; intros H; inversion H; subst; reflexivity.
Qed.

Lemma for_each_apply_change_calls env tree_id changelist s s' tr :
  for_each (apply_change env tree_id) changelist s = (Ok tt, s', tr) ->
  tr = concat (expected_calls tree_id <$> changelist).
Proof.
  revert s tr. induction changelist as [| change rest IH]; intros s tr; cbn [for_each].
  - unfold ret. intros H; inversion H; subst. reflexivity.
  - unfold bind at 1.
    destruct (apply_change env tree_id change s) as [[[[] | e] s1] t1] eqn:Hone;
      [| discriminate].
    destruct (for_each (apply_change env tree_id) rest s1) as [[r2 s2] t2] eqn:Hrest.
    intros H; inversion H; subst.
    rewrite (apply_change_calls _ _ _ _ _ _ Hone), (IH _ _ Hrest). reflexivity.
Qed.

(** C7 (as amended): for an insert change with a key and a value, when the
    reference node hash or the side is true in Python's sense, a
    reference-relative insert of (key, value) is performed and then an
    auto-placement insert of the same (key, value); when neither hint is
    supplied, only the auto-placement insert is performed.  When all changes
    have been applied, the tree root is read and submitted to the wallet, and
    the submitted transaction is returned; the store calls made for the
    changes are those of [expected_calls], in the order of the list. *)
Theorem batch_update_calls (env : Env) (tree_id : bytes32) (fee : Z) :
  (forall change s key value,
     change !! "action" = Some (PyStr "insert") ->
     change !! "key" = Some key ->
     change !! "value" = Some value ->
     let reference_node_hash := dict_get change "reference_node_hash" in
     let side := dict_get change "side" in
     (truthy reference_node_hash = true ∨ truthy side = true ->
      forall u ds1 r ds2,
        insert env key value tree_id reference_node_hash side (data_store s) = (Ok u, ds1) ->
        autoinsert env key value tree_id ds1 = (r, ds2) ->
        apply_change env tree_id change s
        = (r, mkState ds2 (initialized s),
           [EvInsert key value tree_id reference_node_hash side;
            EvAutoinsert key value tree_id]))
     ∧ (reference_node_hash = PyNone -> side = PyNone ->
        forall r ds1,
          autoinsert env key value tree_id (data_store s) = (r, ds1) ->
          apply_change env tree_id change s
          = (r, mkState ds1 (initialized s), [EvAutoinsert key value tree_id])))
  ∧ (forall changelist s s1 tr1 root tx,
       for_each (apply_change env tree_id) changelist s = (Ok tt, s1, tr1) ->
       store_get_tree_root (data_store s1) tree_id = Ok root ->
       dl_update_root env tree_id (default 0 (Root.node_hash root)) fee = Ok (Some tx) ->
       batch_update env tree_id changelist fee s
       = (Ok tx, s1,
          tr1 ++ [EvGetTreeRoot tree_id; EvGetTreeRoot tree_id;
                  EvDlUpdateRoot tree_id (default 0 (Root.node_hash root)) fee])
       ∧ tr1 = concat (expected_calls tree_id <$> changelist)).
Proof.
  split.
  - intros change s key value Haction Hkey Hvalue reference_node_hash side.
    unfold apply_change, getitem, py_or. unfold_calls.
    rewrite Haction, Hkey, Hvalue. cbn beta iota zeta.
    rewrite bool_decide_eq_true_2 by reflexivity.
    fold reference_node_hash. fold side.
    split.
    + intros Hhint u ds1 r ds2 Hinsert Hauto.
      assert (Ht : truthy (if truthy reference_node_hash then reference_node_hash else side)
                   = true).
      { destruct Hhint as [Href | Hside]; [rewrite Href; exact Href |].
        destruct (truthy reference_node_hash) eqn:Href; [exact Href | exact Hside]. }
      rewrite Ht. cbn beta iota zeta. rewrite Hinsert. cbn beta iota zeta.
      cbn [data_store initialized]. rewrite Hauto. reflexivity.
    + intros Href Hside r ds1 Hauto. rewrite Href, Hside. cbn [truthy].
      cbn beta iota zeta. rewrite Hauto. reflexivity.
  - intros changelist s s1 tr1 root tx Hloop Hroot Hupdate.
    split; [| apply (for_each_apply_change_calls _ _ _ _ _ _ Hloop)].
    unfold batch_update. unfold bind at 1. rewrite Hloop.
    unfold_calls. rewrite Hroot. cbn beta iota zeta.
    assert (Hhash : match Root.node_hash root with
                    | Some node_hash => node_hash
                    | None => 0
                    end = default 0 (Root.node_hash root)).
    { destruct (Root.node_hash root); reflexivity. }
    rewrite Hhash, Hupdate. reflexivity.
Qed.

Lemma batch_update_calls_witness :
  let env := Sample.env None [] (Sample.keep true) None in
  let s := Sample.state Sample.history_ABC 1 in
  let reference := [Byte.x0a] in
  apply_change env Sample.tree (Sample.insert_at reference 1) s
  = (Ok tt, s,
     [EvInsert Sample.key1 Sample.value1 Sample.tree (PyBytes reference) (PyInt 1);
      EvAutoinsert Sample.key1 Sample.value1 Sample.tree])
  ∧ apply_change env Sample.tree Sample.insert_plain s
    = (Ok tt, s, [EvAutoinsert Sample.key1 Sample.value1 Sample.tree])
  ∧ batch_update env Sample.tree
      [Sample.insert_at reference 1; Sample.insert_plain; Sample.delete_key1] 0 s
    = (Ok (mkTx 78), s,
       [EvInsert Sample.key1 Sample.value1 Sample.tree (PyBytes reference) (PyInt 1);
        EvAutoinsert Sample.key1 Sample.value1 Sample.tree;
        EvAutoinsert Sample.key1 Sample.value1 Sample.tree;
        EvDelete Sample.key1 Sample.tree;
        EvGetTreeRoot Sample.tree; EvGetTreeRoot Sample.tree;
        EvDlUpdateRoot Sample.tree Sample.C 0]).
Proof.
  intros env s reference.
  destruct (batch_update_calls env Sample.tree 0) as [Hchange Hbatch].
  split; [| split].
  - apply (proj1 (Hchange (Sample.insert_at reference 1) s Sample.key1 Sample.value1
                    eq_refl eq_refl eq_refl)
             (or_introl eq_refl) tt (data_store s) (Ok tt) (data_store s)
             eq_refl eq_refl).
  - apply (proj2 (Hchange Sample.insert_plain s Sample.key1 Sample.value1
                    eq_refl eq_refl eq_refl)
             eq_refl eq_refl (Ok tt) (data_store s) eq_refl).
  - apply (proj1 (Hbatch
                    [Sample.insert_at reference 1; Sample.insert_plain; Sample.delete_key1]
                    s s
                    [EvInsert Sample.key1 Sample.value1 Sample.tree
                       (PyBytes reference) (PyInt 1);
                     EvAutoinsert Sample.key1 Sample.value1 Sample.tree;
                     EvAutoinsert Sample.key1 Sample.value1 Sample.tree;
                     EvDelete Sample.key1 Sample.tree]
                    (Root.mk (Some Sample.C) 3 COMMITTED) (mkTx 78)
                    eq_refl eq_refl eq_refl)).
Defined.

(** C7 (as stated) fails for a hint that is supplied but false in Python's
    sense: an insert whose [side] is 0, without a reference node hash, is
    applied by the auto-placement insert alone. *)
Lemma apply_change_side_zero :
  let env := Sample.env None [] (Sample.keep true) None in
  let s := Sample.state Sample.history_ABC 1 in
  Sample.insert_side_zero !! "action" = Some (PyStr "insert")
  ∧ Sample.insert_side_zero !! "side" = Some (PyInt 0)
  ∧ apply_change env Sample.tree Sample.insert_side_zero s
    = (Ok tt, s, [EvAutoinsert Sample.key1 Sample.value1 Sample.tree])
  ∧ EvInsert Sample.key1 Sample.value1 Sample.tree PyNone (PyInt 0)
    ∉ snd (apply_change env Sample.tree Sample.insert_side_zero s).
Proof.
  repeat split. vm_compute. intros H. inversion H as [| ? ? ? Hin]; inversion Hin.
Qed.

(** ** The subscription registry *)

Lemma subscribe_present env store_id mode ip port s :
  store_id ∈ subscribed s ->
  subscribe env store_id mode ip port s = (Ok tt, s, [EvGetSubscriptions]).
Proof.
  intros Hin. unfold subscribe. unfold_calls. cbn [Subscription.tree_id].
  cbn beta iota zeta. rewrite bool_decide_eq_true_2 by exact Hin. reflexivity.
Qed.

Lemma subscribe_absent env store_id mode ip port s :
  store_id ∉ subscribed s ->
  subscribe env store_id mode ip port s
  = match dl_track_new env store_id with
    | Ok _ =>
        (Ok tt,
         mkState (store_subscribe (data_store s) (Subscription.mk store_id mode ip port))
                 (initialized s),
         [EvGetSubscriptions; EvDlTrackNew store_id;
          EvStoreSubscribe (Subscription.mk store_id mode ip port);
          EvLog INFO (MsgSubscribed store_id)])
    | Raise e => (Raise e, s, [EvGetSubscriptions; EvDlTrackNew store_id])
    end.
Proof.
  intros Hin. unfold subscribe. unfold_calls. cbn [Subscription.tree_id].
  cbn beta iota zeta. rewrite bool_decide_eq_false_2 by exact Hin.
  destruct (dl_track_new env store_id); reflexivity.
Qed.

Lemma unsubscribe_absent env tree_id s :
  tree_id ∉ subscribed s ->
  unsubscribe env tree_id s = (Ok tt, s, [EvGetSubscriptions]).
Proof.
  intros Hin. unfold unsubscribe. unfold_calls. cbn beta iota zeta.
  rewrite bool_decide_eq_false_2 by exact Hin. reflexivity.
Qed.

Lemma unsubscribe_present env tree_id s :
  tree_id ∈ subscribed s ->
  unsubscribe env tree_id s
  = let s' := mkState (store_unsubscribe (data_store s) tree_id) (initialized s) in
    match dl_stop_tracking env tree_id with
    | Ok _ =>
        (Ok tt, s',
         [EvGetSubscriptions; EvStoreUnsubscribe tree_id; EvDlStopTracking tree_id;
          EvLog INFO (MsgUnsubscribed tree_id)])
    | Raise e =>
        (Raise e, s', [EvGetSubscriptions; EvStoreUnsubscribe tree_id;
                       EvDlStopTracking tree_id])
    end.
Proof.
  intros Hin. unfold unsubscribe. unfold_calls. cbn beta iota zeta.
  rewrite bool_decide_eq_true_2 by exact Hin. cbn [negb].
  destruct (dl_stop_tracking env tree_id); reflexivity.
Qed.

Lemma store_unsubscribe_removes ds tree_id :
  tree_id ∉ Subscription.tree_id <$> subscriptions (store_unsubscribe ds tree_id).
Proof.
  unfold store_unsubscribe. cbn [subscriptions].
  rewrite list_elem_of_fmap. intros (sub & Heq & Hin).
  apply list_elem_of_filter in Hin as [Hne _]. congruence.
Qed.

Lemma NoDup_fmap_filter {A B} (f : A -> B) (P : A -> Prop) `{forall x, Decision (P x)}
    (l : list A) :
  NoDup (f <$> l) -> NoDup (f <$> filter P l).
Proof.
  induction l as [| x l IH]; [intros _; constructor |].
  rewrite fmap_cons, NoDup_cons. intros [Hx Hl].
  rewrite filter_cons. destruct (decide (P x)); [| apply IH; exact Hl].
  rewrite fmap_cons, NoDup_cons. split; [| apply IH; exact Hl].
  intros Hin. apply Hx. apply list_elem_of_fmap in Hin as (y & Hy & Hyin).
  apply list_elem_of_filter in Hyin as [_ Hyin].
  apply list_elem_of_fmap. exists y. split; assumption.
Qed.

Lemma run_call_unique env call s :
  NoDup (subscribed s) -> NoDup (subscribed (run_call env call s)).
Proof.
  intros Hnd. destruct call as [store_id mode ip port | tree_id]; cbn [run_call].
  - destruct (decide (store_id ∈ subscribed s)) as [Hin | Hout].
    + rewrite subscribe_present by exact Hin. exact Hnd.
    + rewrite subscribe_absent by exact Hout.
      destruct (dl_track_new env store_id); [| exact Hnd].
      unfold subscribed, store_subscribe. cbn [fst snd data_store subscriptions].
      rewrite fmap_app. apply NoDup_app. split; [exact Hnd |]. split.
      * intros x Hx Hx'. apply list_elem_of_singleton in Hx'. subst x. contradiction.
      * apply NoDup_singleton.
  - destruct (decide (tree_id ∈ subscribed s)) as [Hin | Hout].
    + rewrite unsubscribe_present by exact Hin.
      assert (Hf : NoDup (subscribed
                            (mkState (store_unsubscribe (data_store s) tree_id)
                                     (initialized s)))).
      { unfold subscribed, store_unsubscribe. cbn [data_store subscriptions].
        apply NoDup_fmap_filter. exact Hnd. }
      cbn zeta. destruct (dl_stop_tracking env tree_id); exact Hf.
    + rewrite unsubscribe_absent by exact Hout. exact Hnd.
Qed.

(** C8: [subscribe] for a tree that already has a subscription changes
    nothing and does not ask the wallet to track the tree again; [unsubscribe]
    for a tree without a subscription changes nothing; after [unsubscribe]
    the tree has no subscription; over any sequence of [subscribe] and
    [unsubscribe] calls run one after the other, a registry with at most one
    subscription per tree keeps at most one; and from an empty registry,
    [subscribe] leaves exactly one subscription, a second [subscribe] for the
    same tree leaves the list as it is, and [unsubscribe] leaves it empty. *)
Theorem subscription_registry (env : Env) (s : State) :
  (forall store_id mode ip port,
     store_id ∈ subscribed s ->
     subscribe env store_id mode ip port s = (Ok tt, s, [EvGetSubscriptions]))
  ∧ (forall tree_id,
       tree_id ∉ subscribed s ->
       unsubscribe env tree_id s = (Ok tt, s, [EvGetSubscriptions]))
  ∧ (forall tree_id, tree_id ∉ subscribed (snd (fst (unsubscribe env tree_id s))))
  ∧ (forall calls, NoDup (subscribed s) -> NoDup (subscribed (run_calls env calls s)))
  ∧ (forall store_id mode ip port,
       subscriptions (data_store s) = [] ->
       dl_track_new env store_id = Ok tt ->
       let s1 := snd (fst (subscribe env store_id mode ip port s)) in
       let s2 := snd (fst (subscribe env store_id mode ip port s1)) in
       let s3 := snd (fst (unsubscribe env store_id s2)) in
       get_subscriptions s1
       = (Ok [Subscription.mk store_id mode ip port], s1, [EvGetSubscriptions])
       ∧ subscribe env store_id mode ip port s1 = (Ok tt, s1, [EvGetSubscriptions])
       ∧ get_subscriptions s3 = (Ok [], s3, [EvGetSubscriptions])).
Proof.
  split; [| split; [| split; [| split]]].
  - intros. apply subscribe_present. assumption.
  - intros. apply unsubscribe_absent. assumption.
  - intros tree_id. destruct (decide (tree_id ∈ subscribed s)) as [Hin | Hout].
    + rewrite unsubscribe_present by exact Hin. cbn zeta.
      destruct (dl_stop_tracking env tree_id); apply store_unsubscribe_removes.
    + rewrite unsubscribe_absent by exact Hout. exact Hout.
  - intros calls. revert s. induction calls as [| call rest IH]; intros s Hnd.
    + exact Hnd.
    + cbn [run_calls foldl]. apply IH. apply run_call_unique. exact Hnd.
  - intros store_id mode ip port Hempty Htrack s1 s2 s3.
    assert (Hout : store_id ∉ subscribed s).
    { unfold subscribed. rewrite Hempty. apply not_elem_of_nil. }
    assert (Hs1 : s1 = mkState (store_subscribe (data_store s)
                                  (Subscription.mk store_id mode ip port))
                               (initialized s)).
    { unfold s1. rewrite subscribe_absent by exact Hout. rewrite Htrack. reflexivity. }
    assert (Hin : store_id ∈ subscribed s1).
    { rewrite Hs1. unfold subscribed, store_subscribe. cbn [data_store subscriptions].
      rewrite Hempty. apply list_elem_of_here. }
    assert (Hs2 : s2 = s1).
    { unfold s2. rewrite subscribe_present by exact Hin. reflexivity. }
    split; [| split].
    + unfold get_subscriptions, data_store_get_subscriptions, query.
      rewrite Hs1 at 1. unfold store_subscribe. cbn [data_store subscriptions].
      rewrite Hempty. reflexivity.
    + apply subscribe_present. exact Hin.
    + unfold get_subscriptions, data_store_get_subscriptions, query.
      assert (Hnone : subscriptions (data_store s3) = []).
      { unfold s3. rewrite Hs2. rewrite unsubscribe_present by exact Hin. cbn zeta.
        assert (Hf : subscriptions (store_unsubscribe (data_store s1) store_id) = []).
        { rewrite Hs1. unfold store_unsubscribe, store_subscribe.
          cbn [data_store subscriptions]. rewrite Hempty. cbn [app].
          rewrite filter_cons_False by (cbn; intros Hne; apply Hne; reflexivity).
          reflexivity. }
        destruct (dl_stop_tracking env store_id); exact Hf. }
      rewrite Hnone. reflexivity.
Qed.

Lemma subscription_registry_witness :
  let env := Sample.env None [] (Sample.keep true) None in
  let s := Sample.state [] 0 in
  let s1 := snd (fst (subscribe env Sample.tree LATEST "ip" 1234 s)) in
  let s3 := snd (fst (unsubscribe env Sample.tree s1)) in
  get_subscriptions s1 = (Ok [Sample.latest_sub], s1, [EvGetSubscriptions])
  ∧ subscribe env Sample.tree LATEST "ip" 1234 s1 = (Ok tt, s1, [EvGetSubscriptions])
  ∧ get_subscriptions s3 = (Ok [], s3, [EvGetSubscriptions])
  ∧ unsubscribe env Sample.tree s = (Ok tt, s, [EvGetSubscriptions])
  ∧ NoDup (subscribed
             (run_calls env [CallSubscribe Sample.tree LATEST "ip" 1234;
                             CallSubscribe Sample.tree HISTORY "ip" 1234] s)).
Proof.
  intros env s s1 s3.
  destruct (subscription_registry env s) as (_ & Habsent & _ & Hunique & Hscenario).
  destruct (Hscenario Sample.tree LATEST "ip" 1234 eq_refl eq_refl) as (H1 & H2 & H3).
  split; [exact H1 |]. split; [exact H2 |]. split; [exact H3 |]. split.
  - apply Habsent. unfold subscribed. cbn. apply not_elem_of_nil.
  - apply Hunique. unfold subscribed. cbn. apply NoDup_nil_2.
Defined.

(** ** One turn of the polling loop *)

(** A subscription whose validation raises does not stop the turn: the
    exception is logged and the turn goes on, so a turn always returns. *)
Lemma fetch_data_cycle_returns (env : Env) (s : State) :
  exists s' tr, fetch_data_cycle env s = (Ok tt, s', tr).
Proof.
  unfold fetch_data_cycle. unfold bind at 1.
  unfold data_store_get_subscriptions, query.
  generalize (subscriptions (data_store s)) at 1. intros subs.
  assert (Hloop : forall l s0, exists s' tr,
             for_each (fun subscription =>
                         try_except (fetch_and_validate env subscription)
                                    (fun e => log ERROR (MsgException e))) l s0
             = (Ok tt, s', tr)).
  { induction l as [| sub rest IH]; intros s0; cbn [for_each].
    - eexists _, _. reflexivity.
    - unfold bind at 1. unfold try_except at 1.
      destruct (fetch_and_validate env sub s0) as [[[[] | e] s1] t1].
      + destruct (IH s1) as (s' & tr & ->). eexists _, _. reflexivity.
      + change (log ERROR (MsgException e) s1)
          with (Ok tt, s1, [EvLog ERROR (MsgException e)]).
        cbn beta iota zeta.
        destruct (IH s1) as (s' & tr & ->). eexists _, _. reflexivity. }
  destruct (Hloop subs s) as (s' & tr & ->). eexists _, _. reflexivity.
Qed.

Lemma checkpoints_le_refl ds : checkpoints_le ds ds.
Proof. intros t g Hg. exists g. split; [exact Hg | lia]. Qed.

Lemma checkpoints_le_trans ds1 ds2 ds3 :
  checkpoints_le ds1 ds2 -> checkpoints_le ds2 ds3 -> checkpoints_le ds1 ds3.
Proof.
  intros H12 H23 t g Hg.
  destruct (H12 t g Hg) as (g2 & Hg2 & Hle2).
  destruct (H23 t g2 Hg2) as (g3 & Hg3 & Hle3).
  exists g3. split; [exact Hg3 | lia].
Qed.

Lemma checkpoints_le_same ds ds' : validated ds' = validated ds -> checkpoints_le ds ds'.
Proof. intros Heq t g Hg. rewrite Heq. exists g. split; [exact Hg | lia]. Qed.

Lemma checkpoints_le_set ds ds' tree_id stored generation :
  validated ds' = validated ds ->
  validated ds !! tree_id = Some stored ->
  stored ≤ generation ->
  checkpoints_le ds (store_set_validated_wallet_generation ds' tree_id generation).
Proof.
  intros Heq Hstored Hle t g Hg. rewrite lookup_set_validated, Heq.
  destruct (decide (tree_id = t)) as [<- | Hne].
  - exists generation. split; [reflexivity |]. rewrite Hstored in Hg. inversion Hg; subst. exact Hle.
  - exists g. split; [exact Hg | lia].
Qed.

(** Over one call of [fetch_and_validate], whatever its result. *)
Lemma fetch_and_validate_monotone env subscription s r s' tr :
  downloader_keeps_checkpoints env ->
  fetch_and_validate env subscription s = (r, s', tr) ->
  checkpoints_le (data_store s) (data_store s').
Proof.
  intros Hframe Hrun.
  destruct (fetch_and_validate_cases _ _ _ _ _ _ Hrun)
    as [(-> & _ & _) | (singleton_record & stored & to_check & Hreach & Hafter)];
    [apply checkpoints_le_refl |].
  destruct Hreach as (_ & Hval & _ & Hlt & _).
  unfold after_candidates in Hafter.
  destruct (fast_forward_check _ to_check) as [[|] | e].
  - inversion Hafter; subst. cbn [data_store].
    apply (checkpoints_le_set _ _ _ stored); [reflexivity | exact Hval | lia].
  - destruct (trim_identical _ to_check) as [kept | e].
    + destruct (download_and_validate _ _ _ _ _ kept s) as [[r1 s1] tr1] eqn:Hdl.
      inversion Hafter; subst.
      destruct (download_and_validate_outcome _ _ _ _ _ _ _ _ _ _ Hdl)
        as [(_ & -> & _) | (_ & _ & -> & _)]; cbn [data_store].
      * apply checkpoints_le_same, Hframe.
      * apply (checkpoints_le_set _ _ _ stored); [apply Hframe | exact Hval | lia].
    + inversion Hafter; subst. apply checkpoints_le_refl.
  - inversion Hafter; subst. apply checkpoints_le_refl.
Qed.

(** Over one turn of the polling loop, and over any number of turns. *)
Lemma fetch_data_cycle_monotone env s :
  downloader_keeps_checkpoints env ->
  checkpoints_le (data_store s) (data_store (snd (fst (fetch_data_cycle env s)))).
Proof.
  intros Hframe. unfold fetch_data_cycle. unfold bind at 1.
  unfold data_store_get_subscriptions, query.
  generalize (subscriptions (data_store s)) at 1. intros subs.
  assert (Hloop : forall l s0,
             checkpoints_le (data_store s0)
               (data_store
                  (snd (fst (for_each
                               (fun subscription =>
                                  try_except (fetch_and_validate env subscription)
                                             (fun e => log ERROR (MsgException e))) l s0))))).
  { induction l as [| sub rest IH]; intros s0; cbn [for_each].
    - apply checkpoints_le_refl.
    - unfold bind at 1. unfold try_except at 1.
      destruct (fetch_and_validate env sub s0) as [[r1 s1] t1] eqn:Hone.
      pose proof (fetch_and_validate_monotone _ _ _ _ _ _ Hframe Hone) as Hstep.
      specialize (IH s1).
      destruct r1 as [[] | e].
      + destruct (for_each _ rest s1) as [[r2 s2] t2].
        eapply checkpoints_le_trans; [exact Hstep | exact IH].
      + change (log ERROR (MsgException e) s1)
          with (Ok tt, s1, [EvLog ERROR (MsgException e)]).
        cbn beta iota zeta.
        destruct (for_each _ rest s1) as [[r2 s2] t2].
        eapply checkpoints_le_trans; [exact Hstep | exact IH]. }
  specialize (Hloop subs s).
  destruct (for_each _ subs s) as [[r2 s2] t2]. exact Hloop.
Qed.

(** X11: over any number of turns of the polling loop, whatever the wallet
    and the downloader answer in each turn and whichever validations fail, no
    stored validated generation is lost or lowered, as long as the downloader
    leaves the stored validated generations alone. *)
Theorem run_cycles_monotone (envs : list Env) (s : State) :
  Forall downloader_keeps_checkpoints envs ->
  checkpoints_le (data_store s) (data_store (run_cycles envs s)).
Proof.
  revert s. induction envs as [| env rest IH]; intros s Hall; cbn [run_cycles foldl].
  - apply checkpoints_le_refl.
  - apply Forall_cons in Hall as [Henv Hrest].
    apply (checkpoints_le_trans _ (data_store (snd (fst (fetch_data_cycle env s))))).
    + apply fetch_data_cycle_monotone. exact Henv.
    + apply IH. exact Hrest.
Qed.

Lemma run_cycles_monotone_witness :
  exists g',
    validated (data_store (run_cycles [Sample.env_AB; Sample.env_AB_failing] state_subscribed))
    !! Sample.tree = Some g'
    ∧ 1 ≤ g'.
Proof.
  apply (run_cycles_monotone [Sample.env_AB; Sample.env_AB_failing] state_subscribed).
  - repeat constructor.
  - reflexivity.
Defined.

(** ** Further properties of [_validate_batch] *)

Lemma latest_root_fold (l : list Root.t) (acc : option Root.t) :
  let step := fun (best : option Root.t) (r : Root.t) =>
                match best with
                | None => Some r
                | Some b => if Root.generation b <=? Root.generation r then Some r else Some b
                end in
  match foldl step acc l with
  | None => acc = None ∧ l = []
  | Some r =>
      (acc = Some r ∨ r ∈ l)
      ∧ (forall b, acc = Some b -> Root.generation b ≤ Root.generation r)
      ∧ (forall x, x ∈ l -> Root.generation x ≤ Root.generation r)
  end.
Proof.
  intros step. revert acc. induction l as [| x l IH]; intros acc; cbn [foldl].
  - destruct acc as [b |].
    + split; [left; reflexivity |]. split.
      * intros b' Hb'. inversion Hb'; subst. lia.
      * intros x Hx. inversion Hx.
    + split; reflexivity.
  - specialize (IH (step acc x)).
    destruct (foldl step (step acc x) l) as [r |].
    + destruct IH as (Hin & Hacc & Hall).
      assert (Hx : Root.generation x ≤ Root.generation r).
      { destruct acc as [b |]; cbn in Hacc.
        - destruct (Root.generation b <=? Root.generation x) eqn:E.
          + apply Hacc. reflexivity.
          + specialize (Hacc b eq_refl). lia.
        - apply Hacc. reflexivity. }
      split; [| split].
      * destruct Hin as [Hin | Hin]; [| right; right; exact Hin].
        destruct acc as [b |]; cbn in Hin.
        -- destruct (Root.generation b <=? Root.generation x).
           ++ inversion Hin; subst. right. left.
           ++ left. exact Hin.
        -- inversion Hin; subst. right. left.
      * intros b Hb. subst acc. cbn in Hacc.
        destruct (Root.generation b <=? Root.generation x) eqn:E.
        -- specialize (Hacc x eq_refl). lia.
        -- apply Hacc. reflexivity.
      * intros y Hy. apply elem_of_cons in Hy as [-> | Hy]; [exact Hx | apply Hall, Hy].
    + destruct IH as [Hstep _]. destruct acc as [b |]; cbn in Hstep.
      * destruct (Root.generation b <=? Root.generation x); discriminate.
      * discriminate.
Qed.

Lemma latest_root_Some (l : list Root.t) (r : Root.t) :
  latest_root l = Some r ->
  r ∈ l ∧ forall x, x ∈ l -> Root.generation x ≤ Root.generation r.
Proof.
  intros H. pose proof (latest_root_fold l None) as Hfold. cbn zeta in Hfold.
  unfold latest_root in H. rewrite H in Hfold.
  destruct Hfold as ([Hacc | Hin] & _ & Hall); [discriminate |]. split; assumption.
Qed.

Lemma latest_root_None (l : list Root.t) : latest_root l = None -> l = [].
Proof.
  intros H. pose proof (latest_root_fold l None) as Hfold. cbn zeta in Hfold.
  unfold latest_root in H. rewrite H in Hfold. apply Hfold.
Qed.

(** What a lookup by hash finds, and what it means that it finds nothing. *)
Lemma lookup_by_hash_Some ds tree_id hash max_generation r :
  store_get_last_tree_root_by_hash ds tree_id hash max_generation = Some r ->
  r ∈ tree_roots ds tree_id
  ∧ Root.node_hash r = Some hash
  ∧ Root.generation r ≤ max_generation
  ∧ forall x, x ∈ tree_roots ds tree_id -> Root.node_hash x = Some hash ->
              Root.generation x ≤ max_generation -> Root.generation x ≤ Root.generation r.
Proof.
  unfold store_get_last_tree_root_by_hash. intros H.
  apply latest_root_Some in H as [Hin Hall].
  apply list_elem_of_filter in Hin as [[Hhash Hle] Hin].
  repeat split; try assumption.
  intros x Hx Hxh Hxle. apply Hall. apply list_elem_of_filter. repeat split; assumption.
Qed.

Lemma lookup_by_hash_None ds tree_id hash max_generation x :
  store_get_last_tree_root_by_hash ds tree_id hash max_generation = None ->
  x ∈ tree_roots ds tree_id -> Root.node_hash x = Some hash ->
  max_generation < Root.generation x.
Proof.
  unfold store_get_last_tree_root_by_hash. intros H Hx Hxh.
  apply latest_root_None in H.
  destruct (decide (Root.generation x ≤ max_generation)) as [Hle | Hgt]; [| lia].
  assert (Hin : x ∈ filter (fun r => Root.node_hash r = Some hash
                                     ∧ Root.generation r ≤ max_generation)
                          (tree_roots ds tree_id)).
  { apply list_elem_of_filter. repeat split; assumption. }
  rewrite H in Hin. inversion Hin.
Qed.

(** The loop returns what [chain_valid] computes and leaves the state alone. *)
Lemma validate_batch_loop_result tree_id to_check min_generation max_generation last s :
  exists tr,
    validate_batch_loop tree_id to_check min_generation max_generation last s
    = (Ok (chain_valid (data_store s) tree_id to_check min_generation max_generation last),
       s, tr).
Proof.
  revert max_generation last.
  induction to_check as [| record rest IH]; intros max_generation last;
    cbn [validate_batch_loop chain_valid].
  - eexists. reflexivity.
  - destruct (match last with
              | Some h => bool_decide (SingletonRecord.root record = h)
              | None => false
              end); [apply IH |].
    unfold_calls.
    destruct (store_get_last_tree_root_by_hash (data_store s) tree_id
                (SingletonRecord.root record) max_generation) as [root |];
      [| eexists; reflexivity].
    destruct (Root.generation root <? min_generation); [eexists; reflexivity |].
    destruct (IH (Root.generation root) (Some (SingletonRecord.root record))) as (tr & ->).
    eexists. reflexivity.
Qed.

Lemma validate_batch_result tree_id to_check min_generation max_generation s :
  fst (fst (_validate_batch tree_id to_check min_generation max_generation s))
  = Ok (chain_valid (data_store s) tree_id to_check min_generation max_generation None).
Proof.
  unfold _validate_batch. unfold_calls.
  destruct (validate_batch_loop_result tree_id to_check min_generation max_generation None s)
    as (tr & ->).
  reflexivity.
Qed.

Lemma chain_valid_sound ds tree_id to_check min_generation max_generation last :
  (forall h, last = Some h ->
     exists previous,
       previous ∈ tree_roots ds tree_id
       ∧ Root.node_hash previous = Some h
       ∧ Root.generation previous = max_generation
       ∧ min_generation ≤ Root.generation previous) ->
  chain_valid ds tree_id to_check min_generation max_generation last = true ->
  exists chain,
    Forall2 (fun record r =>
               r ∈ tree_roots ds tree_id
               ∧ Root.node_hash r = Some (SingletonRecord.root record)
               ∧ min_generation ≤ Root.generation r)
            to_check chain
    ∧ descending max_generation chain.
Proof.
  revert max_generation last.
  induction to_check as [| record rest IH]; intros max_generation last Hlast Hvalid.
  - exists []. split; constructor.
  - cbn [chain_valid] in Hvalid.
    destruct (match last with
              | Some h => bool_decide (SingletonRecord.root record = h)
              | None => false
              end) eqn:Eskip.
    + destruct last as [h |]; [| discriminate].
      apply bool_decide_eq_true in Eskip.
      destruct (Hlast h eq_refl) as (previous & Hin & Hhash & Hgen & Hmin).
      destruct (IH max_generation (Some h) Hlast Hvalid) as (chain & Hchain & Hdesc).
      exists (previous :: chain). split.
      * constructor; [| exact Hchain]. rewrite Eskip. repeat split; assumption.
      * cbn [descending]. rewrite Hgen. split; [lia | exact Hdesc].
    + destruct (store_get_last_tree_root_by_hash ds tree_id (SingletonRecord.root record)
                  max_generation) as [r |] eqn:Hlookup; [| discriminate].
      destruct (Root.generation r <? min_generation) eqn:Emin; [discriminate |].
      apply lookup_by_hash_Some in Hlookup as (Hin & Hhash & Hle & _).
      destruct (IH (Root.generation r) (Some (SingletonRecord.root record))) as (chain & Hchain & Hdesc).
      { intros h Hh. inversion Hh; subst h. exists r. repeat split; try assumption. lia. }
      { exact Hvalid. }
      exists (r :: chain). split.
      * constructor; [| exact Hchain]. repeat split; try assumption. lia.
      * cbn [descending]. split; assumption.
Qed.

(** X1: when [_validate_batch] returns true, the records resolve, in order, to
    local roots of the tree with the records' hashes, whose generations are
    at least [min_generation], at most [max_generation], and never rise from
    one record to the next. *)
Theorem validate_batch_sound
    (tree_id : bytes32) (to_check : list SingletonRecord.t)
    (min_generation max_generation : Z) (s : State) :
  fst (fst (_validate_batch tree_id to_check min_generation max_generation s)) = Ok true ->
  exists chain,
    Forall2 (fun record r =>
               r ∈ tree_roots (data_store s) tree_id
               ∧ Root.node_hash r = Some (SingletonRecord.root record)
               ∧ min_generation ≤ Root.generation r)
            to_check chain
    ∧ descending max_generation chain.
Proof.
  rewrite validate_batch_result. intros H. inversion H as [Hvalid].
  apply (chain_valid_sound _ _ _ _ _ None); [discriminate | exact Hvalid].
Qed.

Lemma validate_batch_sound_witness :
  exists chain,
    Forall2 (fun record r =>
               r ∈ tree_roots (Sample.store Sample.history_ABC 1) Sample.tree
               ∧ Root.node_hash r = Some (SingletonRecord.root record)
               ∧ 2 ≤ Root.generation r)
            [SingletonRecord.mk Sample.C 3; SingletonRecord.mk Sample.B 2] chain
    ∧ descending 3 chain.
Proof.
  apply (validate_batch_sound Sample.tree
           [SingletonRecord.mk Sample.C 3; SingletonRecord.mk Sample.B 2] 2 3
           (Sample.state Sample.history_ABC 1)).
  vm_compute. reflexivity.
Defined.

Lemma validate_batch_loop_squash tree_id to_check min_generation max_generation last s :
  validate_batch_loop tree_id to_check min_generation max_generation last s
  = validate_batch_loop tree_id (squash last to_check) min_generation max_generation last s.
Proof.
  revert max_generation last.
  induction to_check as [| record rest IH]; intros max_generation last; [reflexivity |].
  cbn [validate_batch_loop squash].
  destruct (match last with
            | Some h => bool_decide (SingletonRecord.root record = h)
            | None => false
            end) eqn:Eskip; [apply IH |].
  cbn [validate_batch_loop]. rewrite Eskip. unfold_calls.
  destruct (store_get_last_tree_root_by_hash (data_store s) tree_id
              (SingletonRecord.root record) max_generation) as [root |]; [| reflexivity].
  destruct (Root.generation root <? min_generation); [reflexivity |].
  rewrite IH. reflexivity.
Qed.

(** X2: a record whose hash equals that of the record checked just before it
    costs nothing: [_validate_batch] gives the same answer, leaves the same
    state and makes the same lookups and logs on the list without such
    records; the two traces differ in the recorded argument only. *)
Theorem validate_batch_skips_repeats
    (tree_id : bytes32) (to_check : list SingletonRecord.t)
    (min_generation max_generation : Z) (s : State) :
  exists r s' tr,
    _validate_batch tree_id to_check min_generation max_generation s
    = (r, s', EvCallValidateBatch tree_id to_check min_generation max_generation :: tr)
    ∧ _validate_batch tree_id (squash None to_check) min_generation max_generation s
      = (r, s',
         EvCallValidateBatch tree_id (squash None to_check) min_generation max_generation
         :: tr).
Proof.
  unfold _validate_batch. unfold_calls.
  rewrite <- validate_batch_loop_squash.
  destruct (validate_batch_loop tree_id to_check min_generation max_generation None s)
    as [[[b | e] s1] t1].
  - eexists _, _, _. split; reflexivity.
  - eexists _, _, _. split; reflexivity.
Qed.

Lemma chain_valid_widen ds tree_id to_check min_generation min_generation'
    max_generation max_generation' last :
  min_generation' ≤ min_generation ->
  max_generation ≤ max_generation' ->
  chain_valid ds tree_id to_check min_generation max_generation last = true ->
  chain_valid ds tree_id to_check min_generation' max_generation' last = true.
Proof.
  intros Hmin. revert max_generation max_generation' last.
  induction to_check as [| record rest IH]; intros max_generation max_generation' last Hmax;
    cbn [chain_valid]; [reflexivity |].
  destruct (match last with
            | Some h => bool_decide (SingletonRecord.root record = h)
            | None => false
            end); [apply IH; exact Hmax |].
  destruct (store_get_last_tree_root_by_hash ds tree_id (SingletonRecord.root record)
              max_generation) as [r |] eqn:Hr; [| discriminate].
  destruct (Root.generation r <? min_generation) eqn:Emin; [discriminate |].
  apply lookup_by_hash_Some in Hr as (Hin & Hhash & Hle & _).
  destruct (store_get_last_tree_root_by_hash ds tree_id (SingletonRecord.root record)
              max_generation') as [r' |] eqn:Hr'.
  - apply lookup_by_hash_Some in Hr' as (_ & _ & _ & Hbest).
    specialize (Hbest r Hin Hhash ltac:(lia)).
    destruct (Root.generation r' <? min_generation') eqn:Emin'; [lia |].
    apply IH. exact Hbest.
  - pose proof (lookup_by_hash_None _ _ _ _ r Hr' Hin Hhash). lia.
Qed.

(** X3: widening the window never turns a success into a failure: when
    [_validate_batch] returns true for a window, it returns true for every
    window with a lower or equal [min_generation] and a higher or equal
    [max_generation]. *)
Theorem validate_batch_widen
    (tree_id : bytes32) (to_check : list SingletonRecord.t)
    (min_generation min_generation' max_generation max_generation' : Z) (s : State) :
  min_generation' ≤ min_generation ->
  max_generation ≤ max_generation' ->
  fst (fst (_validate_batch tree_id to_check min_generation max_generation s)) = Ok true ->
  fst (fst (_validate_batch tree_id to_check min_generation' max_generation' s)) = Ok true.
Proof.
  intros Hmin Hmax. rewrite !validate_batch_result. intros H. inversion H as [Hvalid].
  rewrite Hvalid.
  rewrite (chain_valid_widen _ _ _ _ _ _ _ _ Hmin Hmax Hvalid). reflexivity.
Qed.

Lemma validate_batch_widen_witness :
  fst (fst (_validate_batch Sample.tree
              [SingletonRecord.mk Sample.C 3; SingletonRecord.mk Sample.B 2] 0 5
              (Sample.state Sample.history_ABC 1)))
  = Ok true.
Proof.
  apply (validate_batch_widen Sample.tree
           [SingletonRecord.mk Sample.C 3; SingletonRecord.mk Sample.B 2] 2 0 3 5
           (Sample.state Sample.history_ABC 1)).
  - lia.
  - lia.
  - vm_compute. reflexivity.
Defined.

Lemma validate_batch_loop_stops tree_id l1 l2 min_generation max_generation last s :
  chain_valid (data_store s) tree_id l1 min_generation max_generation last = false ->
  validate_batch_loop tree_id (l1 ++ l2) min_generation max_generation last s
  = validate_batch_loop tree_id l1 min_generation max_generation last s.
Proof.
  revert max_generation last.
  induction l1 as [| record rest IH]; intros max_generation last; [discriminate |].
  cbn [chain_valid validate_batch_loop app].
  destruct (match last with
            | Some h => bool_decide (SingletonRecord.root record = h)
            | None => false
            end); [apply IH |].
  unfold_calls.
  destruct (store_get_last_tree_root_by_hash (data_store s) tree_id
              (SingletonRecord.root record) max_generation) as [root |]; [| reflexivity].
  destruct (Root.generation root <? min_generation); [reflexivity |].
  intros Hfalse. rewrite (IH _ _ Hfalse). reflexivity.
Qed.

Lemma chain_valid_prefix ds tree_id l1 l2 min_generation max_generation last :
  chain_valid ds tree_id (l1 ++ l2) min_generation max_generation last = true ->
  chain_valid ds tree_id l1 min_generation max_generation last = true.
Proof.
  revert max_generation last.
  induction l1 as [| record rest IH]; intros max_generation last; [reflexivity |].
  cbn [chain_valid app].
  destruct (match last with
            | Some h => bool_decide (SingletonRecord.root record = h)
            | None => false
            end); [apply IH |].
  destruct (store_get_last_tree_root_by_hash ds tree_id (SingletonRecord.root record)
              max_generation) as [root |]; [| discriminate].
  destruct (Root.generation root <? min_generation); [discriminate | apply IH].
Qed.

(** X4: [_validate_batch] stops at the first record that does not resolve.
    When it returns false on a list, it returns false on every extension of
    the list, after the same lookups; and when it returns true on a list, it
    returns true on every prefix of it. *)
Theorem validate_batch_stops
    (tree_id : bytes32) (l1 l2 : list SingletonRecord.t)
    (min_generation max_generation : Z) (s : State) :
  (fst (fst (_validate_batch tree_id l1 min_generation max_generation s)) = Ok false ->
   fst (fst (_validate_batch tree_id (l1 ++ l2) min_generation max_generation s)) = Ok false
   ∧ lookups (snd (_validate_batch tree_id (l1 ++ l2) min_generation max_generation s))
     = lookups (snd (_validate_batch tree_id l1 min_generation max_generation s)))
  ∧ (fst (fst (_validate_batch tree_id (l1 ++ l2) min_generation max_generation s)) = Ok true ->
     fst (fst (_validate_batch tree_id l1 min_generation max_generation s)) = Ok true).
Proof.
  split.
  - rewrite validate_batch_result. intros H. inversion H as [Hfalse].
    pose proof (validate_batch_loop_stops tree_id l1 l2 _ _ None s Hfalse) as Hloop.
    unfold _validate_batch. unfold_calls. rewrite Hloop.
    destruct (validate_batch_loop_result tree_id l1 min_generation max_generation None s)
      as (tr & ->).
    rewrite Hfalse. split; reflexivity.
  - rewrite !validate_batch_result. intros H. inversion H as [Htrue].
    rewrite Htrue. rewrite (chain_valid_prefix _ _ _ _ _ _ _ Htrue). reflexivity.
Qed.

Lemma validate_batch_stops_witness :
  let s := Sample.state Sample.history_ABC 1 in
  let l1 := [SingletonRecord.mk Sample.B 2; SingletonRecord.mk Sample.C 3] in
  let l2 := [SingletonRecord.mk Sample.A 1] in
  (fst (fst (_validate_batch Sample.tree (l1 ++ l2) 2 3 s)) = Ok false
   ∧ lookups (snd (_validate_batch Sample.tree (l1 ++ l2) 2 3 s))
     = lookups (snd (_validate_batch Sample.tree l1 2 3 s)))
  ∧ fst (fst (_validate_batch Sample.tree [SingletonRecord.mk Sample.C 3] 2 3 s)) = Ok true.
Proof.
  intros s l1 l2. split.
  - apply (proj1 (validate_batch_stops Sample.tree l1 l2 2 3 s)).
    vm_compute. reflexivity.
  - apply (proj2 (validate_batch_stops Sample.tree
                    [SingletonRecord.mk Sample.C 3] [SingletonRecord.mk Sample.B 2] 2 3 s)).
    vm_compute. reflexivity.
Defined.

(** ** Further properties of [fetch_and_validate] *)

(** Between its call and its return [_validate_batch] makes no call of its
    own kind. *)
Lemma validate_calls_plain (tr : list Event) :
  Forall (fun e => is_plain e = true) tr -> validate_calls tr = [].
Proof.
  induction tr as [| e tr IH]; intros H; [reflexivity |].
  apply Forall_cons in H as [He Htr]. unfold validate_calls.
  rewrite filter_cons_False; [apply IH; exact Htr |].
  unfold is_plain in He. destruct e; cbn in *; congruence.
Qed.

Lemma validate_batch_answer tree_id to_check min_generation max_generation s b :
  fst (fst (_validate_batch tree_id to_check min_generation max_generation s)) = Ok b ->
  exists tr,
    _validate_batch tree_id to_check min_generation max_generation s
    = (Ok b, s,
       EvCallValidateBatch tree_id to_check min_generation max_generation
       :: tr ++ [EvReturnValidateBatch b])
    ∧ Forall (fun e => is_plain e = true) tr.
Proof.
  intros Hb.
  destruct (validate_batch_runs tree_id to_check min_generation max_generation s)
    as (b' & tr & Hrun & Hplain).
  rewrite Hrun in Hb. inversion Hb; subst b'. exists tr. split; assumption.
Qed.

(** Runs [fetch_and_validate] up to the call of the light validation, on the
    facts of [reaches_validation]. *)
Ltac run_to_validation Hreach Hff Htrim Hdl Hroot Hhash :=
  rewrite (fetch_and_validate_after_candidates _ _ _ _ _ _ Hreach);
  unfold after_candidates; rewrite Hff, Htrim;
  unfold download_and_validate, light_min_generation in *; unfold_calls;
  rewrite Hdl; cbn [negb]; cbn beta iota zeta; cbn [data_store];
  rewrite Hroot; cbn beta iota zeta; rewrite Hhash;
  unfold index0, pop0; cbn beta iota zeta;
  rewrite bool_decide_eq_true_2 by reflexivity; cbn beta iota zeta.

(** X5: when the run has reached the light validation and [_validate_batch]
    returns true on the remaining records, [fetch_and_validate] returns
    normally, the validated generation of the tree is the generation of the
    latest singleton record, the rest of the store is as the downloader left
    it, and [_validate_batch] was called once: the whole history is not
    fetched again. *)
Theorem fetch_and_validate_commits
    (env : Env) (subscription : Subscription.t) (s : State)
    (singleton_record : SingletonRecord.t) (stored : Z)
    (first : SingletonRecord.t) (rest : list SingletonRecord.t)
    (ds1 : DataStore) (new_root : Root.t) :
  let tree_id := Subscription.tree_id subscription in
  let generation := SingletonRecord.generation singleton_record in
  let light_min := light_min_generation (data_store s) tree_id in
  reaches_validation env subscription s singleton_record stored first rest ds1 new_root ->
  fst (fst (_validate_batch tree_id rest light_min (Root.generation new_root)
              (mkState ds1 (initialized s)))) = Ok true ->
  exists tr,
    fetch_and_validate env subscription s
    = (Ok tt,
       mkState (store_set_validated_wallet_generation ds1 tree_id generation) (initialized s),
       tr)
    ∧ validate_calls tr
      = [EvCallValidateBatch tree_id rest light_min (Root.generation new_root)]
    ∧ ends_with [EvReturnValidateBatch true;
                 EvLog INFO (MsgFinished tree_id generation
                                         (SingletonRecord.root singleton_record));
                 EvSetValidated tree_id generation] tr.
Proof.
  intros tree_id generation light_min (to_check & Hreach & Hff & Htrim & Hdl & Hroot & Hhash)
    Hlight.
  apply validate_batch_answer in Hlight as (trv & Hlight & Hplain).
  unfold light_min, tree_id, generation in *.
  run_to_validation Hreach Hff Htrim Hdl Hroot Hhash.
  rewrite Hlight. cbn [negb]. cbn beta iota zeta.
  eexists. split; [reflexivity |]. split.
  - unfold validate_calls, prefix_events, candidate_events.
    rewrite !filter_app.
    destruct (Subscription.mode subscription); cbn [app].
    all: repeat (rewrite filter_cons_False by (cbn; congruence)).
    all: rewrite filter_nil; cbn [app].
    all: repeat (rewrite filter_cons_False by (cbn; congruence)).
    all: rewrite filter_cons_True by reflexivity.
    all: rewrite !filter_app.
    all: change (filter (fun e => is_validate_call e = true) trv) with (validate_calls trv).
    all: rewrite (validate_calls_plain _ Hplain).
    all: repeat (rewrite filter_cons_False by (cbn; congruence)).
    all: rewrite ?filter_nil; reflexivity.
  - apply ends_with_app; [apply plain_no_write, prefix_events_plain |].
    ends. ends.
Qed.

Ltac sample_validation to_check :=
  exists to_check; repeat split; try reflexivity; try (unfold fits_uint32; simpl; lia).

Lemma fetch_and_validate_commits_witness :
  exists tr,
    fetch_and_validate Sample.env_AB Sample.latest_sub Sample.state_A
    = (Ok tt,
       mkState (store_set_validated_wallet_generation
                  (snd (Sample.append_root (Root.mk (Some Sample.B) 2 COMMITTED)
                          (data_store Sample.state_A)))
                  Sample.tree 2) false,
       tr)
    ∧ validate_calls tr = [EvCallValidateBatch Sample.tree [] 2 2].
Proof.
  destruct (fetch_and_validate_commits
              Sample.env_AB Sample.latest_sub Sample.state_A
              (SingletonRecord.mk Sample.B 2) 1 (SingletonRecord.mk Sample.B 2) []
              (snd (Sample.append_root (Root.mk (Some Sample.B) 2 COMMITTED)
                      (data_store Sample.state_A)))
              (Root.mk (Some Sample.B) 2 COMMITTED)) as (tr & Hrun & Hcalls & _).
  - sample_validation [SingletonRecord.mk Sample.B 2].
  - vm_compute. reflexivity.
  - exists tr. split; [exact Hrun | exact Hcalls].
Defined.

(** X6: when the run has reached the light validation and [_validate_batch]
    returns false on the remaining records, the whole history is fetched from
    generation 1 and, without its first record, validated with
    [min_generation = 0] and the same [max_generation].  If that returns
    true, [fetch_and_validate] returns normally with the validated generation
    written; if it returns false, [fetch_and_validate] raises [RuntimeError]
    and writes nothing; if the history is empty, it raises [IndexError] and
    writes nothing. *)
Theorem fetch_and_validate_falls_back
    (env : Env) (subscription : Subscription.t) (s : State)
    (singleton_record : SingletonRecord.t) (stored : Z)
    (first : SingletonRecord.t) (rest : list SingletonRecord.t)
    (ds1 : DataStore) (new_root : Root.t) :
  let tree_id := Subscription.tree_id subscription in
  let generation := SingletonRecord.generation singleton_record in
  let light_min := light_min_generation (data_store s) tree_id in
  let max_generation := Root.generation new_root in
  let s1 := mkState ds1 (initialized s) in
  reaches_validation env subscription s singleton_record stored first rest ds1 new_root ->
  fst (fst (_validate_batch tree_id rest light_min max_generation s1)) = Ok false ->
  (forall history_first history_rest,
     dl_history env tree_id 1 = Ok (history_first :: history_rest) ->
     (fst (fst (_validate_batch tree_id history_rest 0 max_generation s1)) = Ok true ->
      exists tr,
        fetch_and_validate env subscription s
        = (Ok tt,
           mkState (store_set_validated_wallet_generation ds1 tree_id generation)
                   (initialized s),
           tr)
        ∧ validate_calls tr
          = [EvCallValidateBatch tree_id rest light_min max_generation;
             EvCallValidateBatch tree_id history_rest 0 max_generation])
     ∧ (fst (fst (_validate_batch tree_id history_rest 0 max_generation s1)) = Ok false ->
        exists tr,
          fetch_and_validate env subscription s
          = (Raise (RuntimeError "Could not validate on-chain data."), s1, tr)
          ∧ Forall (fun e => is_set_validated e = false) tr))
  ∧ (dl_history env tree_id 1 = Ok [] ->
     exists tr,
       fetch_and_validate env subscription s = (Raise IndexError, s1, tr)
       ∧ Forall (fun e => is_set_validated e = false) tr).
Proof.
  intros tree_id generation light_min max_generation s1
    (to_check & Hreach & Hff & Htrim & Hdl & Hroot & Hhash) Hlight.
  apply validate_batch_answer in Hlight as (trl & Hlight & Hplain).
  pose proof (plain_no_write _ (prefix_events_plain subscription stored)) as Hprefix.
  pose proof (plain_no_write _ Hplain) as Hplain'.
  unfold light_min, tree_id, generation, max_generation, s1 in *.
  split; [intros history_first history_rest Hhistory; split; intros Hfull |
          intros Hhistory].
  - apply validate_batch_answer in Hfull as (trf & Hfull & Hplainf).
    run_to_validation Hreach Hff Htrim Hdl Hroot Hhash.
    rewrite Hlight. cbn [negb]. cbn beta iota zeta.
    change (uint32 1) with (Ok 1 : result Z). cbn beta iota zeta.
    rewrite Hhistory. cbn beta iota zeta. rewrite Hfull. cbn [negb]. cbn beta iota zeta.
    eexists. split; [reflexivity |].
    unfold validate_calls, prefix_events, candidate_events.
    rewrite !filter_app.
    destruct (Subscription.mode subscription); cbn [app].
    all: repeat (rewrite filter_cons_False by (cbn; congruence)).
    all: rewrite filter_nil; cbn [app].
    all: repeat (rewrite filter_cons_False by (cbn; congruence)).
    all: rewrite filter_cons_True by reflexivity.
    all: rewrite !filter_app.
    all: change (filter (fun e => is_validate_call e = true) trl) with (validate_calls trl).
    all: rewrite (validate_calls_plain _ Hplain).
    all: repeat (rewrite filter_cons_False by (cbn; congruence)).
    all: rewrite filter_cons_True by reflexivity.
    all: rewrite !filter_app.
    all: change (filter (fun e => is_validate_call e = true) trf) with (validate_calls trf).
    all: rewrite (validate_calls_plain _ Hplainf).
    all: repeat (rewrite filter_cons_False by (cbn; congruence)).
    all: rewrite ?filter_nil; reflexivity.
  - apply validate_batch_answer in Hfull as (trf & Hfull & Hplainf).
    pose proof (plain_no_write _ Hplainf) as Hplainf'.
    run_to_validation Hreach Hff Htrim Hdl Hroot Hhash.
    rewrite Hlight. cbn [negb]. cbn beta iota zeta.
    change (uint32 1) with (Ok 1 : result Z). cbn beta iota zeta.
    rewrite Hhistory. cbn beta iota zeta. rewrite Hfull. cbn [negb]. cbn beta iota zeta.
    eexists. split; [reflexivity |].
    apply Forall_app. split; [exact Hprefix |]. no_write.
  - run_to_validation Hreach Hff Htrim Hdl Hroot Hhash.
    rewrite Hlight. cbn [negb]. cbn beta iota zeta.
    change (uint32 1) with (Ok 1 : result Z). cbn beta iota zeta.
    rewrite Hhistory. cbn beta iota zeta.
    eexists. split; [reflexivity |].
    apply Forall_app. split; [exact Hprefix |]. no_write.
Qed.

Lemma fetch_and_validate_falls_back_witness :
  (exists tr,
     fetch_and_validate (Sample2.env_CBA 6) Sample.history_sub Sample2.state_A_B
     = (Ok tt,
        mkState (store_set_validated_wallet_generation
                   (snd (Sample.append_root (Root.mk (Some Sample.C) 6 COMMITTED)
                           (data_store Sample2.state_A_B)))
                   Sample.tree 3) false,
        tr)
     ∧ validate_calls tr
       = [EvCallValidateBatch Sample.tree
            [SingletonRecord.mk Sample.B 2; SingletonRecord.mk Sample.A 1] 6 6;
          EvCallValidateBatch Sample.tree
            [SingletonRecord.mk Sample.B 2; SingletonRecord.mk Sample.A 1] 0 6])
  ∧ (exists tr,
       fetch_and_validate (Sample2.env_CBA 2) Sample.history_sub Sample.state_A
       = (Raise (RuntimeError "Could not validate on-chain data."),
          mkState (snd (Sample.append_root (Root.mk (Some Sample.C) 2 COMMITTED)
                          (data_store Sample.state_A))) false,
          tr)
       ∧ Forall (fun e => is_set_validated e = false) tr).
Proof.
  split.
  - destruct (fetch_and_validate_falls_back
                (Sample2.env_CBA 6) Sample.history_sub Sample2.state_A_B
                (SingletonRecord.mk Sample.C 3) 1 (SingletonRecord.mk Sample.C 3)
                [SingletonRecord.mk Sample.B 2; SingletonRecord.mk Sample.A 1]
                (snd (Sample.append_root (Root.mk (Some Sample.C) 6 COMMITTED)
                        (data_store Sample2.state_A_B)))
                (Root.mk (Some Sample.C) 6 COMMITTED)) as [Hhistory _].
    + sample_validation [SingletonRecord.mk Sample.C 3; SingletonRecord.mk Sample.B 2;
                         SingletonRecord.mk Sample.A 1].
    + vm_compute. reflexivity.
    + apply (proj1 (Hhistory (SingletonRecord.mk Sample.C 3)
                      [SingletonRecord.mk Sample.B 2; SingletonRecord.mk Sample.A 1]
                      eq_refl)).
      vm_compute. reflexivity.
  - destruct (fetch_and_validate_falls_back
                (Sample2.env_CBA 2) Sample.history_sub Sample.state_A
                (SingletonRecord.mk Sample.C 3) 1 (SingletonRecord.mk Sample.C 3)
                [SingletonRecord.mk Sample.B 2]
                (snd (Sample.append_root (Root.mk (Some Sample.C) 2 COMMITTED)
                        (data_store Sample.state_A)))
                (Root.mk (Some Sample.C) 2 COMMITTED)) as [Hhistory _].
    + sample_validation [SingletonRecord.mk Sample.C 3; SingletonRecord.mk Sample.B 2;
                         SingletonRecord.mk Sample.A 1].
    + vm_compute. reflexivity.
    + apply (proj2 (Hhistory (SingletonRecord.mk Sample.C 3)
                      [SingletonRecord.mk Sample.B 2; SingletonRecord.mk Sample.A 1]
                      eq_refl)).
      vm_compute. reflexivity.
Defined.

(** X7: an empty history from the wallet (HISTORY mode) ends in an
    [IndexError].  When the local root has a hash, the error comes from the
    fast-forward test, before any download, and the state is unchanged.  When
    there is no local root, or it has no hash, the downloader is called first:
    once it has returned true and the local root has a hash, the error comes
    from the comparison with the first record, and the validated generation
    is not written. *)
Theorem fetch_and_validate_empty_history
    (env : Env) (subscription : Subscription.t) (s : State)
    (singleton_record : SingletonRecord.t) (stored : Z) :
  let tree_id := Subscription.tree_id subscription in
  reaches_candidates env subscription s singleton_record stored [] ->
  (forall old h,
     store_get_tree_root (data_store s) tree_id = Ok old ->
     Root.node_hash old = Some h ->
     fetch_and_validate env subscription s
     = (Raise IndexError, s, prefix_events subscription stored))
  ∧ (forall ds1 new_root h,
       (forall old, old_root_of (data_store s) tree_id = Some old ->
                    Root.node_hash old = None) ->
       download_data env (data_store s) subscription (SingletonRecord.root singleton_record)
       = (Ok true, ds1) ->
       store_get_tree_root ds1 tree_id = Ok new_root ->
       Root.node_hash new_root = Some h ->
       fetch_and_validate env subscription s
       = (Raise IndexError, mkState ds1 (initialized s),
          prefix_events subscription stored
          ++ [EvLog INFO (MsgDownloading tree_id stored
                            (SingletonRecord.generation singleton_record));
              EvDownloadData subscription (SingletonRecord.root singleton_record);
              EvLog INFO (MsgDownloaded tree_id);
              EvGetTreeRoot tree_id])).
Proof.
  intros tree_id Hreach. unfold tree_id.
  rewrite (fetch_and_validate_after_candidates _ _ _ _ _ _ Hreach).
  unfold after_candidates, old_root_of. split.
  - intros old h Hold Hh. rewrite Hold. unfold fast_forward_check. rewrite Hh. reflexivity.
  - intros ds1 new_root h Hnone Hdl Hroot Hh.
    assert (Hskip : forall old_root,
               old_root_of (data_store s) (Subscription.tree_id subscription) = old_root ->
               fast_forward_check old_root [] = Ok false
               ∧ trim_identical old_root [] = Ok []).
    { intros [old |] Hold.
      - unfold fast_forward_check, trim_identical. rewrite (Hnone old Hold). split; reflexivity.
      - split; reflexivity. }
    destruct (Hskip _ eq_refl) as [Hff Htrim]. unfold old_root_of in Hff, Htrim.
    rewrite Hff, Htrim.
    unfold download_and_validate. unfold_calls. rewrite Hdl. cbn [negb].
    cbn beta iota zeta. cbn [data_store]. rewrite Hroot. cbn beta iota zeta. rewrite Hh.
    unfold index0. cbn beta iota zeta. rewrite <- ?app_assoc. reflexivity.
Qed.

Lemma fetch_and_validate_empty_history_witness :
  fetch_and_validate Sample2.env_empty_history Sample.history_sub Sample.state_A
  = (Raise IndexError, Sample.state_A,
     [EvDlLatestSingleton Sample.tree; EvGetTreeRoot Sample.tree;
      EvGetValidated Sample.tree; EvDlHistory Sample.tree 2])
  ∧ fst (fst (fetch_and_validate Sample2.env_empty_history Sample.history_sub
                Sample2.state_no_tree))
    = Raise IndexError
  ∧ downloads (snd (fetch_and_validate Sample2.env_empty_history Sample.history_sub
                      Sample2.state_no_tree))
    = [EvDownloadData Sample.history_sub Sample.B].
Proof.
  split.
  - apply (proj1 (fetch_and_validate_empty_history
                    Sample2.env_empty_history Sample.history_sub Sample.state_A
                    (SingletonRecord.mk Sample.B 2) 1 ltac:(reach))
             (Root.mk (Some Sample.A) 1 COMMITTED) Sample.A eq_refl eq_refl).
  - rewrite (proj2 (fetch_and_validate_empty_history
                      Sample2.env_empty_history Sample.history_sub Sample2.state_no_tree
                      (SingletonRecord.mk Sample.B 2) 1 ltac:(reach))
               (snd (Sample.append_root (Root.mk (Some Sample.B) 2 COMMITTED)
                       (data_store Sample2.state_no_tree)))
               (Root.mk (Some Sample.B) 2 COMMITTED) Sample.B
               ltac:(intros old Hold; vm_compute in Hold; discriminate)
               eq_refl ltac:(vm_compute; reflexivity) eq_refl).
    split; reflexivity.
Defined.

(** X8: when the store has no validated generation for the tree (it answers
    [None]) and the latest singleton record has a generation other than 0,
    [fetch_and_validate] raises [TypeError] on [int(None)] in the assertion
    of line 190: the test for [None] two lines below it is never reached with
    [None].  Nothing is downloaded or written. *)
Theorem fetch_and_validate_no_checkpoint
    (env : Env) (subscription : Subscription.t) (s : State)
    (singleton_record : SingletonRecord.t) :
  let tree_id := Subscription.tree_id subscription in
  dl_latest_singleton env tree_id true = Ok (Some singleton_record) ->
  SingletonRecord.generation singleton_record ≠ 0 ->
  validated (data_store s) !! tree_id = None ->
  fetch_and_validate env subscription s
  = (Raise TypeError, s,
     [EvDlLatestSingleton tree_id; EvGetTreeRoot tree_id; EvGetValidated tree_id]).
Proof.
  intros tree_id Hlatest Hnz Hnone. unfold tree_id in *.
  assert (Ez : (SingletonRecord.generation singleton_record =? 0) = false) by lia.
  destruct (fetch_and_validate env subscription s) as [[r s'] tr] eqn:Hrun.
  run_early Hrun; reflexivity.
Qed.

Lemma fetch_and_validate_no_checkpoint_witness :
  fetch_and_validate Sample.env_AB Sample.latest_sub Sample2.state_no_checkpoint
  = (Raise TypeError, Sample2.state_no_checkpoint,
     [EvDlLatestSingleton Sample.tree; EvGetTreeRoot Sample.tree;
      EvGetValidated Sample.tree]).
Proof.
  apply (fetch_and_validate_no_checkpoint
           Sample.env_AB Sample.latest_sub Sample2.state_no_checkpoint
           (SingletonRecord.mk Sample.B 2)).
  - reflexivity.
  - simpl. lia.
  - reflexivity.
Defined.

(** ** What the traces of [fetch_and_validate] contain *)

Lemma validate_batch_loop_reads tree_id to_check min_generation max_generation last s :
  exists b tr,
    validate_batch_loop tree_id to_check min_generation max_generation last s = (Ok b, s, tr)
    ∧ Forall (fun e => is_lookup_or_log e = true) tr.
Proof.
  revert max_generation last.
  induction to_check as [| record rest IH]; intros max_generation last; simpl.
  - exists true, []. split; [reflexivity | constructor].
  - destruct (match last with
              | Some h => bool_decide (SingletonRecord.root record = h)
              | None => false
              end); [apply IH |].
    unfold_calls.
    destruct (store_get_last_tree_root_by_hash (data_store s) tree_id
                (SingletonRecord.root record) max_generation) as [root |].
    + destruct (Root.generation root <? min_generation).
      * eexists _, _. split; [reflexivity | repeat constructor].
      * destruct (IH (Root.generation root) (Some (SingletonRecord.root record)))
          as (b & tr & Hrun & Htr).
        rewrite Hrun. eexists _, _. split; [reflexivity |].
        repeat constructor. exact Htr.
    + eexists _, _. split; [reflexivity | repeat constructor].
Qed.

Lemma validate_batch_reads tree_id to_check min_generation max_generation s :
  exists b tr,
    _validate_batch tree_id to_check min_generation max_generation s
    = (Ok b, s,
       EvCallValidateBatch tree_id to_check min_generation max_generation
       :: tr ++ [EvReturnValidateBatch b])
    ∧ Forall (fun e => is_lookup_or_log e = true) tr.
Proof.
  destruct (validate_batch_loop_reads tree_id to_check min_generation max_generation None s)
    as (b & tr & Hrun & Htr).
  exists b, tr. split; [| exact Htr].
  unfold _validate_batch. unfold_calls. rewrite Hrun. reflexivity.
Qed.

Lemma reads_no_download (tr : list Event) :
  Forall (fun e => is_lookup_or_log e = true) tr -> downloads tr = [].
Proof.
  induction tr as [| e tr IH]; intros H; [reflexivity |].
  apply Forall_cons in H as [He Htr]. unfold downloads.
  rewrite filter_cons_False; [apply IH; exact Htr |].
  destruct e; cbn in *; congruence.
Qed.

Lemma reads_no_latest_query (tr : list Event) :
  Forall (fun e => is_lookup_or_log e = true) tr -> latest_queries tr = [].
Proof.
  induction tr as [| e tr IH]; intros H; [reflexivity |].
  apply Forall_cons in H as [He Htr]. unfold latest_queries. cbn [omap list_omap].
  destruct e; cbn in *; try congruence; apply IH; exact Htr.
Qed.

Lemma latest_queries_app (l1 l2 : list Event) :
  latest_queries (l1 ++ l2) = latest_queries l1 ++ latest_queries l2.
Proof. unfold latest_queries. apply omap_app. Qed.

Lemma latest_queries_skip (e : Event) (l : list Event) :
  is_latest_query e = false -> latest_queries (e :: l) = latest_queries l.
Proof. destruct e; cbn; intros H; try discriminate H; reflexivity. Qed.

Lemma latest_queries_here (t : bytes32) (l : list Event) :
  latest_queries (EvDlLatestSingleton t :: l) = t :: latest_queries l.
Proof. reflexivity. Qed.

Ltac use_validate_reads :=
  match goal with
  | |- context [_validate_batch ?t ?l ?a ?b ?s] =>
      let H := fresh "Hvb" in
      let Hp := fresh "Hreads" in
      destruct (validate_batch_reads t l a b s) as (? & ? & H & Hp);
      rewrite H; clear H
  end.

Ltac crunch_reads := repeat (cbn beta iota zeta; first [use_validate_reads | break_match]).

(** Computes [downloads] and [latest_queries] of a trace whose unknown parts
    come from [_validate_batch]. *)
Ltac count_events :=
  unfold downloads;
  repeat first
    [ rewrite filter_app
    | rewrite latest_queries_app
    | rewrite latest_queries_skip by reflexivity
    | rewrite latest_queries_here
    | rewrite filter_nil
    | rewrite filter_cons_True by reflexivity
    | rewrite filter_cons_False by (cbn; congruence)
    | match goal with
      | H : Forall (fun e => is_lookup_or_log e = true) ?t |- context [filter _ ?t] =>
          change (filter (fun e => is_download e = true) t) with (downloads t);
          rewrite (reads_no_download t H)
      | H : Forall (fun e => is_lookup_or_log e = true) ?t |- context [latest_queries ?t] =>
          rewrite (reads_no_latest_query t H)
      end ];
  cbn [app]; change (latest_queries []) with (@nil Z).

Lemma download_and_validate_trace env subscription singleton_record old_root stored kept s
    r s' tr :
  download_and_validate env subscription singleton_record old_root stored kept s = (r, s', tr) ->
  downloads tr = [EvDownloadData subscription (SingletonRecord.root singleton_record)]
  ∧ latest_queries tr = [].
Proof.
  unfold download_and_validate. unfold_calls. unfold index0, pop0.
  crunch_reads.
  all: intros H; inversion H; subst; clear H.
  all: split; count_events; reflexivity.
Qed.

(** A call of [fetch_and_validate] asks the wallet for the latest singleton
    record once, for the tree of the subscription. *)
Lemma fetch_and_validate_queries env subscription s r s' tr :
  fetch_and_validate env subscription s = (r, s', tr) ->
  latest_queries tr = [Subscription.tree_id subscription].
Proof.
  unfold fetch_and_validate, build_to_check. unfold_calls.
  unfold store_get_validated_wallet_generation, py_int.
  crunch_reads.
  all: intros H; inversion H; subst; clear H.
  all: repeat match goal with
         | H : download_and_validate _ _ _ _ _ _ _ = _ |- _ =>
             apply download_and_validate_trace in H as [_ H]
         end.
  all: count_events.
  all: repeat match goal with
         | H : latest_queries ?t = [] |- _ => rewrite H
         end.
  all: reflexivity.
Qed.

Lemma plain_no_download (tr : list Event) :
  Forall (fun e => is_plain e = true) tr -> downloads tr = [].
Proof.
  induction tr as [| e tr IH]; intros H; [reflexivity |].
  apply Forall_cons in H as [He Htr]. unfold downloads.
  rewrite filter_cons_False; [apply IH; exact Htr |].
  unfold is_plain in He. destruct (is_download e); [discriminate He | congruence].
Qed.

(** X9: a call of [fetch_and_validate] calls the downloader at most once.
    Without a call of the downloader, the roots and the subscriptions of the
    store are untouched.  With one, it is a call for the subscription at hand
    and the root of the latest singleton record, and the roots and the
    subscriptions of the store are as that call left them.  The
    [initialized] flag is never touched. *)
Theorem fetch_and_validate_downloads_once
    (env : Env) (subscription : Subscription.t) (s s' : State)
    (r : result unit) (tr : list Event) :
  fetch_and_validate env subscription s = (r, s', tr) ->
  let tree_id := Subscription.tree_id subscription in
  ((downloads tr = []
    ∧ roots (data_store s') = roots (data_store s)
    ∧ subscriptions (data_store s') = subscriptions (data_store s))
   ∨ (exists singleton_record,
        let after := snd (download_data env (data_store s) subscription
                            (SingletonRecord.root singleton_record)) in
        dl_latest_singleton env tree_id true = Ok (Some singleton_record)
        ∧ downloads tr = [EvDownloadData subscription (SingletonRecord.root singleton_record)]
        ∧ roots (data_store s') = roots after
        ∧ subscriptions (data_store s') = subscriptions after))
  ∧ initialized s' = initialized s.
Proof.
  intros Hrun tree_id.
  destruct (fetch_and_validate_cases _ _ _ _ _ _ Hrun)
    as [(-> & Hplain & _) | (singleton_record & stored & to_check & Hreach & Hafter)].
  { split; [| reflexivity]. left. split; [apply plain_no_download; exact Hplain |].
    split; reflexivity. }
  pose proof Hreach as (Hlatest & _).
  pose proof (plain_no_download _ (prefix_events_plain subscription stored)) as Hprefix.
  assert (Hpre : forall tail,
             downloads (prefix_events subscription stored ++ tail) = downloads tail).
  { intros tail. unfold downloads in *. rewrite filter_app, Hprefix. reflexivity. }
  unfold after_candidates in Hafter. fold tree_id in Hafter.
  destruct (fast_forward_check (old_root_of (data_store s) tree_id) to_check) as [[|] | e].
  - injection Hafter as -> -> ->. split; [| reflexivity].
    left. split; [| split; reflexivity].
    etransitivity; [apply Hpre | reflexivity].
  - destruct (trim_identical (old_root_of (data_store s) tree_id) to_check) as [kept | e].
    + destruct (download_and_validate env subscription singleton_record
                  (old_root_of (data_store s) tree_id) stored kept s)
        as [[r1 s1] tr1] eqn:Hdl.
      injection Hafter as -> -> ->.
      destruct (download_and_validate_trace _ _ _ _ _ _ _ _ _ _ Hdl) as [Hdown _].
      assert (Hcount : downloads (prefix_events subscription stored ++ tr1)
                       = [EvDownloadData subscription
                            (SingletonRecord.root singleton_record)]).
      { rewrite Hpre. exact Hdown. }
      destruct (download_and_validate_outcome _ _ _ _ _ _ _ _ _ _ Hdl)
        as [(_ & -> & _) | (_ & _ & -> & _)]; (split; [| reflexivity]); right;
        exists singleton_record; cbn zeta; (split; [exact Hlatest |]);
        (split; [exact Hcount |]); split; reflexivity.
    + injection Hafter as -> -> ->. split; [| reflexivity].
      left. split; [exact Hprefix | split; reflexivity].
  - injection Hafter as -> -> ->. split; [| reflexivity].
    left. split; [exact Hprefix | split; reflexivity].
Qed.

Lemma fetch_and_validate_downloads_once_witness :
  let run := fetch_and_validate Sample.env_AB Sample.latest_sub Sample.state_A in
  downloads (snd run) = [EvDownloadData Sample.latest_sub Sample.B]
  ∧ initialized (snd (fst run)) = false.
Proof.
  intros run.
  destruct (fetch_and_validate_downloads_once
              Sample.env_AB Sample.latest_sub Sample.state_A
              (snd (fst run)) (fst (fst run)) (snd run)
              ltac:(vm_compute; reflexivity)) as [[(Hnone & _) | Hone] Hflag].
  - vm_compute in Hnone. discriminate Hnone.
  - destruct Hone as (singleton_record & Hlatest & Hdown & _).
    inversion Hlatest; subst singleton_record. split; [exact Hdown | exact Hflag].
Defined.

(** The loop over the subscriptions of one turn of the polling loop. *)
Lemma fetch_loop_queries env (l : list Subscription.t) (s0 : State) :
  exists s' tr,
    for_each (fun subscription =>
                try_except (fetch_and_validate env subscription)
                           (fun e => log ERROR (MsgException e))) l s0
    = (Ok tt, s', tr)
    ∧ latest_queries tr = Subscription.tree_id <$> l.
Proof.
  revert s0. induction l as [| sub rest IH]; intros s0; cbn [for_each].
  - eexists _, _. split; reflexivity.
  - unfold bind at 1. unfold try_except at 1.
    destruct (fetch_and_validate env sub s0) as [[[[] | e] s1] t1] eqn:Hone.
    + destruct (IH s1) as (s' & tr & -> & Htr). eexists _, _. split; [reflexivity |].
      rewrite latest_queries_app, Htr, (fetch_and_validate_queries _ _ _ _ _ _ Hone).
      reflexivity.
    + change (log ERROR (MsgException e) s1)
        with (Ok tt, s1, [EvLog ERROR (MsgException e)]).
      cbn beta iota zeta.
      destruct (IH s1) as (s' & tr & -> & Htr). eexists _, _. split; [reflexivity |].
      rewrite !latest_queries_app, Htr, (fetch_and_validate_queries _ _ _ _ _ _ Hone).
      reflexivity.
Qed.

(** X10: one turn of the polling loop reads the subscriptions once and then
    asks the wallet for the latest singleton record of every subscribed tree,
    in the order of the list, whatever happens to the trees before it: an
    exception raised for one subscription is caught, and the turn itself
    always returns normally. *)
Theorem fetch_data_cycle_isolates (env : Env) (s : State) :
  exists s' tr,
    fetch_data_cycle env s = (Ok tt, s', tr)
    ∧ latest_queries tr = subscribed s.
Proof.
  unfold fetch_data_cycle, subscribed. unfold bind at 1.
  unfold data_store_get_subscriptions, query.
  destruct (fetch_loop_queries env (subscriptions (data_store s)) s)
    as (s' & tr & Hloop & Htr).
  rewrite Hloop. eexists _, _. split; [reflexivity |].
  rewrite latest_queries_app, Htr. reflexivity.
Qed.

Lemma fetch_data_cycle_queries env s :
  latest_queries (snd (fetch_data_cycle env s)) = subscribed s.
Proof.
  unfold fetch_data_cycle, subscribed. unfold bind at 1.
  unfold data_store_get_subscriptions, query.
  destruct (fetch_loop_queries env (subscriptions (data_store s)) s)
    as (s' & tr & Hloop & Htr).
  rewrite Hloop. cbn [snd]. rewrite latest_queries_app, Htr. reflexivity.
Qed.

(** X19: the polling loop follows the registry.  After [unsubscribe], a turn
    of the loop does not ask the wallet about the tree any more, even when
    the call to the wallet in [unsubscribe] has raised; after a [subscribe]
    that the wallet accepted, the next turn asks about the tree. *)
Theorem polling_follows_registry (env cycle_env : Env) (s : State) :
  (forall tree_id,
     tree_id ∉ latest_queries
                 (snd (fetch_data_cycle cycle_env (snd (fst (unsubscribe env tree_id s))))))
  ∧ (forall store_id mode ip port,
       dl_track_new env store_id = Ok tt ->
       store_id ∈ latest_queries
                    (snd (fetch_data_cycle cycle_env
                            (snd (fst (subscribe env store_id mode ip port s)))))).
Proof.
  split.
  - intros tree_id. rewrite fetch_data_cycle_queries.
    destruct (decide (tree_id ∈ subscribed s)) as [Hin | Hout].
    + rewrite unsubscribe_present by exact Hin. cbn zeta.
      destruct (dl_stop_tracking env tree_id); apply store_unsubscribe_removes.
    + rewrite unsubscribe_absent by exact Hout. exact Hout.
  - intros store_id mode ip port Htrack. rewrite fetch_data_cycle_queries.
    destruct (decide (store_id ∈ subscribed s)) as [Hin | Hout].
    + rewrite subscribe_present by exact Hin. exact Hin.
    + rewrite subscribe_absent by exact Hout. rewrite Htrack.
      unfold subscribed, store_subscribe. cbn [fst snd data_store subscriptions].
      rewrite fmap_app. apply elem_of_app. right. apply list_elem_of_here.
Qed.

Lemma polling_follows_registry_witness :
  6 ∈ latest_queries
        (snd (fetch_data_cycle Sample.env_AB
                (snd (fst (subscribe Sample.env_AB 6 HISTORY "ip" 1234 state_subscribed))))).
Proof.
  apply (proj2 (polling_follows_registry Sample.env_AB Sample.env_AB state_subscribed)).
  reflexivity.
Defined.

(** ** Further properties of [batch_update] *)

Lemma for_each_app {A} (body : A -> M unit) (l1 l2 : list A) (s : State) :
  for_each body (l1 ++ l2) s = (for_each body l1 ;;; for_each body l2) s.
Proof.
  revert s. induction l1 as [| x l1 IH]; intros s; cbn [for_each app].
  - unfold bind, ret. destruct (for_each body l2 s) as [[r s'] tr]. reflexivity.
  - unfold bind.
    destruct (body x s) as [[[[] | e] s1] t1]; cbn beta iota zeta; [| reflexivity].
    rewrite IH. unfold bind.
    destruct (for_each body l1 s1) as [[[[] | e] s2] t2]; cbn beta iota zeta;
      [| reflexivity].
    destruct (for_each body l2 s2) as [[r3 s3] t3].
    rewrite app_assoc. reflexivity.
Qed.

(** X12: [batch_update] is not atomic.  When the changes of [l1] have been
    applied and the next change raises, [batch_update] raises the same
    exception with the store as those changes left it: they are not undone,
    the changes after the failing one are not attempted, the root is not read
    and nothing is submitted to the wallet.  When all changes have been
    applied and the wallet returns no transaction, [batch_update] raises
    [AssertionError], again with the changes in the store. *)
Theorem batch_update_not_atomic
    (env : Env) (tree_id : bytes32) (fee : Z) (s s1 : State) (t1 : list Event) :
  (forall l1 change l2 e s2 t2,
     for_each (apply_change env tree_id) l1 s = (Ok tt, s1, t1) ->
     apply_change env tree_id change s1 = (Raise e, s2, t2) ->
     batch_update env tree_id (l1 ++ change :: l2) fee s = (Raise e, s2, t1 ++ t2))
  ∧ (forall changelist root,
       for_each (apply_change env tree_id) changelist s = (Ok tt, s1, t1) ->
       store_get_tree_root (data_store s1) tree_id = Ok root ->
       dl_update_root env tree_id (default 0 (Root.node_hash root)) fee = Ok None ->
       batch_update env tree_id changelist fee s
       = (Raise AssertionError, s1,
          t1 ++ [EvGetTreeRoot tree_id; EvGetTreeRoot tree_id;
                 EvDlUpdateRoot tree_id (default 0 (Root.node_hash root)) fee])).
Proof.
  split.
  - intros l1 change l2 e s2 t2 Hl1 Hchange.
    unfold batch_update. unfold bind at 1. rewrite for_each_app.
    unfold bind at 1. rewrite Hl1. cbn [for_each]. unfold bind at 1.
    rewrite Hchange. reflexivity.
  - intros changelist root Hloop Hroot Hupdate.
    unfold batch_update. unfold bind at 1. rewrite Hloop.
    unfold_calls. rewrite Hroot. cbn beta iota zeta.
    assert (Hhash : match Root.node_hash root with
                    | Some node_hash => node_hash
                    | None => 0
                    end = default 0 (Root.node_hash root)).
    { destruct (Root.node_hash root); reflexivity. }
    rewrite Hhash, Hupdate. reflexivity.
Qed.

Lemma batch_update_not_atomic_witness :
  let s := Sample.state Sample.history_ABC 1 in
  let s1 := snd (fst (apply_change Sample2.env_failing_delete Sample.tree
                        Sample.insert_plain s)) in
  batch_update Sample2.env_failing_delete Sample.tree
    [Sample.insert_plain; Sample.delete_key1; Sample.insert_plain] 0 s
  = (Raise (CollaboratorError 4), s1,
     [EvAutoinsert Sample.key1 Sample.value1 Sample.tree;
      EvDelete Sample.key1 Sample.tree])
  ∧ tree_roots (data_store s1) Sample.tree
    = Sample.history_ABC ++ [Root.mk (Some 99) 9 PENDING].
Proof.
  intros s s1. split; [| vm_compute; reflexivity].
  apply (proj1 (batch_update_not_atomic Sample2.env_failing_delete Sample.tree 0 s s1
                  [EvAutoinsert Sample.key1 Sample.value1 Sample.tree])
           [Sample.insert_plain] Sample.delete_key1 [Sample.insert_plain]
           (CollaboratorError 4) s1 [EvDelete Sample.key1 Sample.tree]).
  - vm_compute. reflexivity.
  - vm_compute. reflexivity.
Defined.

(** X13: a malformed change raises before the store is called for it, and
    leaves the state as it is: a change without ["action"] raises [KeyError];
    an action that is neither ["insert"] nor ["delete"] raises
    [AssertionError]; an insert without ["key"], or with a key and without
    ["value"], and a delete without ["key"], raise [KeyError]. *)
Theorem apply_change_malformed
    (env : Env) (tree_id : bytes32) (change : gmap string PyVal) (s : State) :
  (change !! "action" = None ->
   apply_change env tree_id change s = (Raise (KeyError "action"), s, []))
  ∧ (forall action,
       change !! "action" = Some action ->
       action ≠ PyStr "insert" -> action ≠ PyStr "delete" ->
       apply_change env tree_id change s = (Raise AssertionError, s, []))
  ∧ (change !! "action" = Some (PyStr "insert") ->
     change !! "key" = None ->
     apply_change env tree_id change s = (Raise (KeyError "key"), s, []))
  ∧ (forall key,
       change !! "action" = Some (PyStr "insert") ->
       change !! "key" = Some key ->
       change !! "value" = None ->
       apply_change env tree_id change s = (Raise (KeyError "value"), s, []))
  ∧ (change !! "action" = Some (PyStr "delete") ->
     change !! "key" = None ->
     apply_change env tree_id change s = (Raise (KeyError "key"), s, [])).
Proof.
  unfold apply_change, getitem. unfold_calls.
  split; [| split; [| split; [| split]]].
  - intros ->. reflexivity.
  - intros action -> Hi Hd. cbn beta iota zeta.
    rewrite (bool_decide_eq_false_2 (action = PyStr "insert")) by exact Hi.
    rewrite (bool_decide_eq_false_2 (action = PyStr "delete")) by exact Hd.
    reflexivity.
  - intros -> ->. reflexivity.
  - intros key -> -> ->. reflexivity.
  - intros -> ->. reflexivity.
Qed.

Lemma apply_change_malformed_witness :
  let env := Sample.env None [] (Sample.keep true) None in
  let s := Sample.state Sample.history_ABC 1 in
  apply_change env Sample.tree ∅ s = (Raise (KeyError "action"), s, [])
  ∧ apply_change env Sample.tree (list_to_map [("action", PyStr "upsert")]) s
    = (Raise AssertionError, s, [])
  ∧ apply_change env Sample.tree (list_to_map [("action", PyStr "insert")]) s
    = (Raise (KeyError "key"), s, [])
  ∧ apply_change env Sample.tree
      (list_to_map [("action", PyStr "insert"); ("key", Sample.key1)]) s
    = (Raise (KeyError "value"), s, [])
  ∧ apply_change env Sample.tree (list_to_map [("action", PyStr "delete")]) s
    = (Raise (KeyError "key"), s, []).
Proof.
  intros env s.
  split; [| split; [| split; [| split]]].
  - apply (proj1 (apply_change_malformed env Sample.tree ∅ s)). reflexivity.
  - apply (proj1 (proj2 (apply_change_malformed env Sample.tree
                           (list_to_map [("action", PyStr "upsert")]) s))
             (PyStr "upsert")); [reflexivity | discriminate | discriminate].
  - apply (proj1 (proj2 (proj2 (apply_change_malformed env Sample.tree
                                  (list_to_map [("action", PyStr "insert")]) s))));
      reflexivity.
  - apply (proj1 (proj2 (proj2 (proj2 (apply_change_malformed env Sample.tree
             (list_to_map [("action", PyStr "insert"); ("key", Sample.key1)]) s))))
             Sample.key1); reflexivity.
  - apply (proj2 (proj2 (proj2 (proj2 (apply_change_malformed env Sample.tree
             (list_to_map [("action", PyStr "delete")]) s)))));
      reflexivity.
Defined.

(** ** Further properties of [subscribe] and [unsubscribe] *)

(** X14: the two calls fail differently.  [subscribe] asks the wallet first:
    when the wallet raises, nothing is recorded and the state is unchanged.
    [unsubscribe] changes the store first: when the wallet raises, the
    subscription is already removed, and a second [unsubscribe] for the tree
    returns at once, without asking the wallet to stop tracking. *)
Theorem registry_failures (env : Env) (s : State) (e : Exn) :
  (forall store_id mode ip port,
     store_id ∉ subscribed s ->
     dl_track_new env store_id = Raise e ->
     subscribe env store_id mode ip port s
     = (Raise e, s, [EvGetSubscriptions; EvDlTrackNew store_id]))
  ∧ (forall tree_id,
       tree_id ∈ subscribed s ->
       dl_stop_tracking env tree_id = Raise e ->
       let s' := mkState (store_unsubscribe (data_store s) tree_id) (initialized s) in
       unsubscribe env tree_id s
       = (Raise e, s',
          [EvGetSubscriptions; EvStoreUnsubscribe tree_id; EvDlStopTracking tree_id])
       ∧ (tree_id ∉ subscribed s')
       ∧ unsubscribe env tree_id s' = (Ok tt, s', [EvGetSubscriptions])).
Proof.
  split.
  - intros store_id mode ip port Hout Htrack.
    rewrite subscribe_absent by exact Hout. rewrite Htrack. reflexivity.
  - intros tree_id Hin Hstop s'.
    assert (Hout : tree_id ∉ subscribed s').
    { unfold subscribed, s'. cbn [data_store]. apply store_unsubscribe_removes. }
    split; [| split; [exact Hout |]].
    + rewrite unsubscribe_present by exact Hin. cbn zeta. rewrite Hstop. reflexivity.
    + apply unsubscribe_absent. exact Hout.
Qed.

Lemma registry_failures_witness :
  subscribe Sample2.env_refusing Sample.tree LATEST "ip" 1234 (Sample.state [] 0)
  = (Raise (CollaboratorError 2), Sample.state [] 0,
     [EvGetSubscriptions; EvDlTrackNew Sample.tree])
  ∧ fst (fst (unsubscribe Sample2.env_refusing Sample.tree state_subscribed))
    = Raise (CollaboratorError 3)
  ∧ subscriptions
      (data_store (snd (fst (unsubscribe Sample2.env_refusing Sample.tree state_subscribed))))
    = [].
Proof.
  split.
  - apply (proj1 (registry_failures Sample2.env_refusing (Sample.state [] 0)
                    (CollaboratorError 2))).
    + unfold subscribed. cbn. apply not_elem_of_nil.
    + reflexivity.
  - destruct (proj2 (registry_failures Sample2.env_refusing state_subscribed
                       (CollaboratorError 3)) Sample.tree) as (Hrun & _ & _).
    + unfold subscribed. cbn. apply list_elem_of_here.
    + reflexivity.
    + rewrite Hrun. split; reflexivity.
Defined.

Lemma filter_other_tree (tree_id : bytes32) (subs : list Subscription.t) :
  tree_id ∉ Subscription.tree_id <$> subs ->
  filter (fun sub => Subscription.tree_id sub ≠ tree_id) subs = subs.
Proof.
  induction subs as [| sub subs IH]; intros Hout; [reflexivity |].
  rewrite fmap_cons in Hout. apply not_elem_of_cons in Hout as [Hne Hout].
  rewrite filter_cons_True by (cbn; congruence). rewrite IH by exact Hout. reflexivity.
Qed.

(** X15: [subscribe] then [unsubscribe] is a round trip.  For a tree without
    a subscription and a wallet that accepts to track it, [subscribe] adds
    one subscription at the end of the list, and [unsubscribe] for the same
    tree then restores the state from before the [subscribe], whether or not
    the wallet accepts to stop tracking. *)
Theorem subscribe_unsubscribe_round_trip
    (env : Env) (s : State) (store_id : bytes32) (mode : DownloadMode)
    (ip : string) (port : Z) :
  store_id ∉ subscribed s ->
  dl_track_new env store_id = Ok tt ->
  let s1 := snd (fst (subscribe env store_id mode ip port s)) in
  subscriptions (data_store s1)
  = subscriptions (data_store s) ++ [Subscription.mk store_id mode ip port]
  ∧ snd (fst (unsubscribe env store_id s1)) = s.
Proof.
  intros Hout Htrack s1.
  assert (Hs1 : s1 = mkState (store_subscribe (data_store s)
                                (Subscription.mk store_id mode ip port))
                             (initialized s)).
  { unfold s1. rewrite subscribe_absent by exact Hout. rewrite Htrack. reflexivity. }
  split; [rewrite Hs1; reflexivity |].
  assert (Hin : store_id ∈ subscribed s1).
  { rewrite Hs1. unfold subscribed, store_subscribe. cbn [data_store subscriptions].
    rewrite fmap_app. apply elem_of_app. right. apply list_elem_of_here. }
  rewrite unsubscribe_present by exact Hin. cbn zeta.
  assert (Hback : mkState (store_unsubscribe (data_store s1) store_id) (initialized s1) = s).
  { rewrite Hs1. unfold store_unsubscribe, store_subscribe.
    cbn [data_store subscriptions roots validated initialized].
    rewrite filter_app, filter_other_tree by exact Hout.
    rewrite filter_cons_False by (cbn; intros Hne; apply Hne; reflexivity).
    rewrite filter_nil, app_nil_r. destruct s as [[rs vs ss] i]. reflexivity. }
  destruct (dl_stop_tracking env store_id); exact Hback.
Qed.

Lemma subscribe_unsubscribe_round_trip_witness :
  let s1 := snd (fst (subscribe Sample.env_AB 6 HISTORY "ip" 1234 state_subscribed)) in
  subscriptions (data_store s1)
  = [Sample.latest_sub; Subscription.mk 6 HISTORY "ip" 1234]
  ∧ snd (fst (unsubscribe Sample.env_AB 6 s1)) = state_subscribed.
Proof.
  apply (subscribe_unsubscribe_round_trip Sample.env_AB state_subscribed 6 HISTORY "ip" 1234).
  - unfold subscribed. cbn. intros H. apply list_elem_of_singleton in H. discriminate H.
  - reflexivity.
Defined.

(** ** [check_git_ref] *)

(** X16: [check_git_ref] looks at the length of the ref and at its first two
    characters only: two refs of 3 to 50 characters that begin with the same
    two characters get the same answer. *)
Theorem check_git_ref_prefix (is_word : Z -> bool) (ref1 ref2 : list Z) :
  (3 <= length ref1 <= 50)%nat ->
  (3 <= length ref2 <= 50)%nat ->
  take 2 ref1 = take 2 ref2 ->
  check_git_ref is_word ref1 = check_git_ref is_word ref2.
Proof.
  intros [Hlo1 Hhi1] [Hlo2 Hhi2] Htake.
  unfold check_git_ref.
  assert (H1 : (50 <? length ref1)%nat = false) by (apply Nat.ltb_ge; lia).
  assert (H2 : (50 <? length ref2)%nat = false) by (apply Nat.ltb_ge; lia).
  rewrite H1, H2.
  destruct ref1 as [| a1 [| b1 [| c1 rest1]]]; cbn [length] in Hlo1; try lia.
  destruct ref2 as [| a2 [| b2 [| c2 rest2]]]; cbn [length] in Hlo2; try lia.
  cbn [take] in Htake. inversion Htake; subst a2 b2.
  cbn [match_unusual match_dot_dot match_dot_end match_at_brace match_at_end at_end].
  reflexivity.
Qed.

Lemma check_git_ref_prefix_witness :
  check_git_ref ascii_word (codes "v1; echo pwned")
  = check_git_ref ascii_word (codes "v1.0.2").
Proof.
  apply check_git_ref_prefix.
  - cbn. lia.
  - cbn. lia.
  - reflexivity.
Defined.

(** X17: a ref of at most 50 characters whose first character is a word
    character, [/] or [-] (and so neither [.] nor [@]) is accepted whatever
    follows it: [..], [@{], spaces and control characters further in the ref
    are not seen. *)
Theorem check_git_ref_first_character
    (is_word : Z -> bool) (c : Z) (rest : list Z) :
  (length (c :: rest) <= 50)%nat ->
  is_word c = true ∨ c = 47 ∨ c = 45 ->
  c ≠ 46 -> c ≠ 64 ->
  check_git_ref is_word (c :: rest) = true.
Proof.
  intros Hlen Hc Hdot Hat. unfold check_git_ref.
  assert (H : (50 <? length (c :: rest))%nat = false) by (apply Nat.ltb_ge; lia).
  rewrite H.
  assert (E46 : (c =? 46) = false) by lia.
  assert (E64 : (c =? 64) = false) by lia.
  assert (Hu : match_unusual is_word (c :: rest) = false).
  { cbn [match_unusual]. rewrite E46, E64.
    destruct Hc as [-> | [-> | ->]]; [reflexivity | |];
      destruct (is_word _); reflexivity. }
  rewrite Hu.
  cbn [match_dot_end match_at_end]. rewrite E46, E64.
  destruct rest as [| c2 rest]; cbn [match_dot_dot match_at_brace];
    rewrite ?E46, ?E64; reflexivity.
Qed.

Lemma check_git_ref_first_character_witness :
  check_git_ref ascii_word (codes "a..b@{1} ; rm -rf /") = true.
Proof.
  apply (check_git_ref_first_character ascii_word 97 (codes "..b@{1} ; rm -rf /")).
  - cbn. lia.
  - left. reflexivity.
  - lia.
  - lia.
Defined.

(** ** The mode LATEST *)

Lemma validate_batch_nil tree_id min_generation max_generation s :
  _validate_batch tree_id [] min_generation max_generation s
  = (Ok true, s,
     [EvCallValidateBatch tree_id [] min_generation max_generation;
      EvReturnValidateBatch true]).
Proof. reflexivity. Qed.

Lemma trim_identical_single old_root record :
  fast_forward_check old_root [record] = Ok false ->
  trim_identical old_root [record] = Ok [record].
Proof.
  intros Hff.
  destruct (trim_identical_keeps old_root [record] ltac:(discriminate) Hff)
    as (first & rest & dropped & Htrim & Hlist & _).
  rewrite Htrim. f_equal.
  destruct rest as [| x rest]; destruct dropped as [| y dropped]; cbn in Hlist;
    inversion Hlist; subst; try reflexivity.
Qed.

Lemma download_and_validate_single env subscription singleton_record old_root stored
    record s r s' tr :
  download_and_validate env subscription singleton_record old_root stored [record] s
  = (r, s', tr) ->
  Forall (fun e => is_history e = false ∧ is_lookup e = false) tr
  ∧ exists min_generation max_generation,
      validate_calls tr = []
      ∨ validate_calls tr
        = [EvCallValidateBatch (Subscription.tree_id subscription) []
             min_generation max_generation].
Proof.
  unfold download_and_validate. unfold_calls. unfold index0, pop0.
  cbn beta iota zeta.
  repeat (cbn beta iota zeta; cbn [negb];
          first [ rewrite validate_batch_nil | break_match ]).
  all: intros H; inversion H; subst; clear H.
  all: split; [repeat constructor |].
  all: first [exists 0, 0; left; reflexivity | do 2 eexists; right; reflexivity].
Qed.

(** X18: in the mode LATEST the validation comes down to the comparison of
    the downloaded root's hash with the latest singleton record's:
    [fetch_and_validate] never asks the wallet for the history and never looks
    a root up by hash, and [_validate_batch] is called at most once, on the
    empty list. *)
Theorem fetch_and_validate_latest_mode
    (env : Env) (subscription : Subscription.t) (s s' : State)
    (r : result unit) (tr : list Event) :
  Subscription.mode subscription = LATEST ->
  fetch_and_validate env subscription s = (r, s', tr) ->
  Forall (fun e => is_history e = false ∧ is_lookup e = false) tr
  ∧ exists min_generation max_generation,
      validate_calls tr = []
      ∨ validate_calls tr
        = [EvCallValidateBatch (Subscription.tree_id subscription) []
             min_generation max_generation].
Proof.
  intros Hmode.
  unfold fetch_and_validate, build_to_check. rewrite Hmode. unfold_calls.
  unfold store_get_validated_wallet_generation, py_int.
  crunch.
  all: intros H; inversion H; subst; clear H.
  all: repeat match goal with
         | Hff : fast_forward_check ?o [?c] = Ok false,
           Htrim : trim_identical ?o [?c] = _ |- _ =>
             rewrite (trim_identical_single o c Hff) in Htrim;
             inversion Htrim; subst; clear Htrim
         end.
  all: repeat match goal with
         | H : download_and_validate _ _ _ _ _ [_] _ = _ |- _ =>
             apply download_and_validate_single in H as (Hno & min_g & max_g & Hcalls)
         end.
  all: try (split; [repeat constructor | exists 0, 0; left; reflexivity]; fail).
  all: split; [repeat (constructor; [split; reflexivity |]); exact Hno |].
  all: exists min_g, max_g; unfold validate_calls in *.
  all: repeat (rewrite filter_cons_False by (cbn; congruence)).
  all: exact Hcalls.
Qed.

Lemma fetch_and_validate_latest_mode_witness :
  let run := fetch_and_validate Sample.env_AB Sample.latest_sub Sample.state_A in
  Forall (fun e => is_history e = false ∧ is_lookup e = false) (snd run).
Proof.
  intros run.
  apply (proj1 (fetch_and_validate_latest_mode
                  Sample.env_AB Sample.latest_sub Sample.state_A
                  (snd (fst run)) (fst (fst run)) (snd run)
                  eq_refl ltac:(vm_compute; reflexivity))).
Defined.
